(** * Metadata extraction processor (immich microservices)

    A shallow embedding of
    [server/apps/microservices/src/processors/metadata-extraction.processor.ts]
    and the properties of its three job handlers: [extractExifInfo],
    [reverseGeocoding] and [extractVideoMetadata], with the private helpers
    [reverseGeocodeExif] and [extractDuration].

    Conventions of the embedding:
    - a JavaScript [number] is an IEEE 754 binary64 value, written with the
      specification floats of the Standard Library ([spec_float], precision
      53, exponent bound 1024); its arithmetic is the correctly rounded one,
      and [parseInt], [parseFloat], [Math.floor], [Math.round] and
      [Number.prototype.toString] follow ECMA-262;
    - a JavaScript string is a [string]; the code only inspects ASCII
      characters of it;
    - [T | null] and optional properties are [option T]; [None] is the
      absent, [undefined] or [null] value;
    - a [Date] is its time value, and what the libraries do with dates
      (parsing, ISO formatting) is given by the environment;
    - [await] is sequencing: the handlers run in a state-and-exception monad
      over a [World] holding the rows of the two repositories, the readiness
      flag of the geocoder and the trace of the calls that leave the
      processor. A rejected promise and a [throw] are the same [Throw];
    - the libraries the processor calls (exiftool, sharp, ffprobe, the
      geocoder, the file system) are the fields of an environment [Env],
      and so is the choice of the repository calls that fail. *)

From Stdlib Require Import ZArith String Ascii List Bool Lia.
From Stdlib Require Import Numbers.DecimalString Numbers.DecimalPos Numbers.DecimalN.
From Stdlib Require Import Floats.SpecFloat.
From stdpp Require Import base option gmap strings.

Local Open Scope string_scope.
Local Open Scope Z_scope.

(** ** JavaScript numbers *)

Module Js.

Definition number : Type := spec_float.

Definition prec : Z := 53.
Definition emax : Z := 1024.

Definition NaN : number := S754_nan.
Definition Infinity (neg : bool) : number := S754_infinity neg.

(** The Number value of an integer (round to nearest, ties to even). *)
Definition of_Z (z : Z) : number := binary_normalize prec emax z 0 false.

(** The Number value of the decimal [(-1)^neg * m * 10^e10], for [0 <= m]:
    the exact rational is rounded once, to nearest even. *)
Definition of_decimal (neg : bool) (m : Z) (e10 : Z) : number :=
  match m with
  | Z0 => S754_zero neg
  | Zpos p =>
      if 0 <=? e10 then binary_round prec emax neg (p * Z.to_pos (10 ^ e10))%positive 0
      else SFdiv prec emax (S754_finite neg p 0)
                           (S754_finite false (Z.to_pos (10 ^ (- e10))) 0)
  | Zneg _ => NaN
  end.

Definition add : number -> number -> number := SFadd prec emax.
Definition sub : number -> number -> number := SFsub prec emax.
Definition mul : number -> number -> number := SFmul prec emax.
Definition div : number -> number -> number := SFdiv prec emax.

(** [ToBoolean] on a number: [+0], [-0] and [NaN] are falsy. *)
Definition truthy_num (x : number) : bool :=
  match x with
  | S754_zero _ | S754_nan => false
  | _ => true
  end.

(** [ToBoolean] on a string: only the empty string is falsy. *)
Definition truthy_str (s : string) : bool :=
  match s with
  | EmptyString => false
  | String _ _ => true
  end.

(** [x || null] and [x || y || null] where [x], [y] may be absent. *)
Definition or_null {A} (truthy : A -> bool) (x : option A) : option A :=
  match x with
  | Some v => if truthy v then Some v else None
  | None => None
  end.

Definition or_else {A} (truthy : A -> bool) (x y : option A) : option A :=
  match or_null truthy x with
  | Some v => Some v
  | None => y
  end.

(** [x ?? y]: the left operand unless it is absent. *)
Definition nullish {A} (x y : option A) : option A :=
  match x with
  | Some v => Some v
  | None => y
  end.

(** The exact value of a finite number is [m * 2^e]; [Math.floor] and
    [Math.round] compute on it. *)
Definition floor_finite (neg : bool) (m : positive) (e : Z) : Z :=
  let z := if neg then Z.neg m else Z.pos m in
  if 0 <=? e then z * 2 ^ e else z / 2 ^ (- e).

Definition Math_floor (x : number) : number :=
  match x with
  | S754_finite neg m e =>
      if 0 <=? e then x
      else match floor_finite neg m e with
           | Z0 => S754_zero neg
           | z => of_Z z
           end
  | _ => x
  end.

(** [Math.round]: the integer nearest to [x], ties towards [+Infinity];
    [-0] when the result is zero and [x] is negative. *)
Definition Math_round (x : number) : number :=
  match x with
  | S754_finite neg m e =>
      if 0 <=? e then x
      else
        let z := if neg then Z.neg m else Z.pos m in
        match (2 * z + 2 ^ (- e)) / 2 ^ (- e + 1) with
        | Z0 => S754_zero neg
        | r => of_Z r
        end
  | _ => x
  end.

(** *** Characters and digit strings *)

Definition code (c : ascii) : Z := Z.of_N (N_of_ascii c).

Definition is_digit (c : ascii) : bool := (48 <=? code c) && (code c <=? 57).

(** [StrWhiteSpaceChar] restricted to ASCII: TAB, LF, VT, FF, CR, SP. *)
Definition is_ws (c : ascii) : bool :=
  ((9 <=? code c) && (code c <=? 13)) || (code c =? 32).

(** The value of [c] as a digit of the given radix, if it is one. *)
Definition digit_val (radix : Z) (c : ascii) : option Z :=
  let n := code c in
  let v := if (48 <=? n) && (n <=? 57) then n - 48
           else if (97 <=? n) && (n <=? 122) then n - 87
           else if (65 <=? n) && (n <=? 90) then n - 55
           else radix in
  if v <? radix then Some v else None.

Fixpoint skip_ws (s : string) : string :=
  match s with
  | String c r => if is_ws c then skip_ws r else s
  | EmptyString => s
  end.

(** The longest prefix of radix digits, as digit values, and what follows. *)
Fixpoint span_digits (radix : Z) (s : string) : list Z * string :=
  match s with
  | String c r =>
      match digit_val radix c with
      | Some v => let '(ds, rest) := span_digits radix r in (v :: ds, rest)
      | None => (nil, s)
      end
  | EmptyString => (nil, s)
  end.

Definition digits_value (radix : Z) (ds : list Z) : Z :=
  fold_left (fun acc d => acc * radix + d) ds 0.

Definition split_sign (s : string) : bool * string :=
  match s with
  | String "-" r => (true, r)
  | String "+" r => (false, r)
  | _ => (false, s)
  end.

(** [parseInt(s)] and [parseInt(s, 0)]: radix 10, or 16 after a [0x] prefix;
    the longest prefix of digits is read, [NaN] when it is empty. *)
Definition parseInt (s : string) : number :=
  let '(neg, s1) := split_sign (skip_ws s) in
  let '(radix, s2) :=
    match s1 with
    | String "0" (String "x" r) | String "0" (String "X" r) => (16, r)
    | _ => (10, s1)
    end in
  match fst (span_digits radix s2) with
  | nil => NaN
  | ds =>
      match digits_value radix ds with
      | Z0 => S754_zero neg
      | v => of_Z (if neg then - v else v)
      end
  end.

(** The exponent part [e[+-]digits] of a decimal literal, 0 when absent. *)
Definition exponent_part (s : string) : Z :=
  match s with
  | String c r =>
      if (code c =? 101) || (code c =? 69) then
        let '(neg, r1) := split_sign r in
        match fst (span_digits 10 r1) with
        | nil => 0
        | ds => if neg then - digits_value 10 ds else digits_value 10 ds
        end
      else 0
  | EmptyString => 0
  end.

(** [parseFloat(s)]: the longest prefix that is a [StrDecimalLiteral], that
    is a sign, then [Infinity] or digits with an optional fraction and an
    optional exponent; [NaN] when there is no digit. *)
Definition parseFloat (s : string) : number :=
  let '(neg, s1) := split_sign (skip_ws s) in
  if String.prefix "Infinity" s1 then Infinity neg
  else
    let '(ip, s2) := span_digits 10 s1 in
    let '(fp, s3) :=
      match s2 with
      | String "." r => span_digits 10 r
      | _ => (nil, s2)
      end in
    match ip, fp with
    | nil, nil => NaN
    | _, _ =>
        of_decimal neg (digits_value 10 (ip ++ fp))
                   (exponent_part s3 - Z.of_nat (List.length fp))
    end.

(** *** Number::toString (radix 10) *)

Definition dec_string (z : Z) : string :=
  NilZero.string_of_uint (N.to_uint (Z.to_N z)).

Fixpoint zeros (n : nat) : string :=
  match n with
  | O => EmptyString
  | S n' => String "0" (zeros n')
  end.

Fixpoint strip_zeros_rev (s : list ascii) : list ascii :=
  match s with
  | c :: r => if (code c =? 48) then strip_zeros_rev r else s
  | nil => nil
  end.

Definition strip_trailing_zeros (s : string) : string :=
  string_of_list_ascii (rev (strip_zeros_rev (rev (list_ascii_of_string s)))).

(** The least [j >= 1] with [num * 10^j >= den], for [0 < num < den]. *)
Fixpoint scale_up (fuel : nat) (num den j : Z) : Z :=
  match fuel with
  | O => j
  | S fuel' => if den <=? num * 10 then j else scale_up fuel' (num * 10) den (j + 1)
  end.

(** For the positive rational [num/den], the [n] with
    [10^(n-1) <= num/den < 10^n]. *)
Definition magnitude (num den : Z) : Z :=
  if den <=? num then Z.of_nat (String.length (dec_string (num / den)))
  else 1 - scale_up 400 num den 1.

(** For [k] digits: the [k]-digit decimals just below and above [num/den]
    at magnitude [n]; the one that reads back as [x], the nearer one (the
    even one on a tie) when both do. *)
Definition candidate (x : number) (num den n k : Z) : option Z :=
  let '(N, D) := if 0 <=? n - k then (num, den * 10 ^ (n - k))
                 else (num * 10 ^ (k - n), den) in
  let q := N / D in
  let r := N mod D in
  let ok c := SFeqb (of_decimal false c (n - k)) x in
  match ok q, ok (q + 1) with
  | true, true =>
      if (2 * r <? D) then Some q
      else if (D <? 2 * r) then Some (q + 1)
      else if Z.even q then Some q else Some (q + 1)
  | true, false => Some q
  | false, true => Some (q + 1)
  | false, false => None
  end.

(** The least number of digits [k] for which some [k]-digit decimal reads
    back as [x], with that decimal. Seventeen digits always suffice. *)
Fixpoint shortest (fuel : nat) (x : number) (num den n k : Z) : option (Z * Z) :=
  match fuel with
  | O => None
  | S fuel' =>
      match candidate x num den n k with
      | Some s => Some (s, k)
      | None => shortest fuel' x num den n (k + 1)
      end
  end.

(** Steps 6 to 10 of Number::toString: [ds] are the [k] digits of [s] and
    the value is [s * 10^(n-k)]. *)
Definition format_digits (ds : string) (n : Z) : string :=
  let k := Z.of_nat (String.length ds) in
  if (k <=? n) && (n <=? 21) then
    ds ++ zeros (Z.to_nat (n - k))
  else if (0 <? n) && (n <=? 21) then
    substring 0 (Z.to_nat n) ds ++ "." ++ substring (Z.to_nat n) (Z.to_nat (k - n)) ds
  else if (-6 <? n) && (n <=? 0) then
    "0." ++ zeros (Z.to_nat (- n)) ++ ds
  else
    let e := n - 1 in
    let sign := if e <? 0 then "-" else "+" in
    if k =? 1 then ds ++ "e" ++ sign ++ dec_string (Z.abs e)
    else substring 0 1 ds ++ "." ++ substring 1 (Z.to_nat (k - 1)) ds
         ++ "e" ++ sign ++ dec_string (Z.abs e).

Definition toString_pos (m : positive) (e : Z) : string :=
  match binary_round prec emax false m e with
  | S754_finite _ m' e' =>
      let x := S754_finite false m' e' in
      let '(num, den) := if 0 <=? e' then (Z.pos m' * 2 ^ e', 1)
                         else (Z.pos m', 2 ^ (- e')) in
      let n := magnitude num den in
      match shortest 17 x num den n 1 with
      | Some (s, k) =>
          let ds := dec_string s in
          format_digits (strip_trailing_zeros ds)
                        (n + (Z.of_nat (String.length ds) - k))
      | None => "NaN"
      end
  | S754_zero _ => "0"
  | S754_infinity _ => "Infinity"
  | S754_nan => "NaN"
  end.

(** [x.toString()], [String(x)] and [`${x}`] for a number [x]. *)
Definition toString (x : number) : string :=
  match x with
  | S754_nan => "NaN"
  | S754_zero _ => "0"
  | S754_infinity neg => if neg then "-Infinity" else "Infinity"
  | S754_finite neg m e =>
      if neg then "-" ++ toString_pos m e else toString_pos m e
  end.

(** *** String helpers *)

(** [s.padStart(target, fill)]. *)
Fixpoint repeat_to (n : nat) (fill cur : string) : string :=
  match n with
  | O => EmptyString
  | S n' =>
      match cur with
      | String c r => String c (repeat_to n' fill r)
      | EmptyString =>
          match fill with
          | String c r => String c (repeat_to n' fill r)
          | EmptyString => EmptyString
          end
      end
  end.

Definition padStart (target : nat) (fill : string) (s : string) : string :=
  repeat_to (target - String.length s) fill fill ++ s.

(** [s.split(sep)] for a one-character separator. *)
Fixpoint split (sep : ascii) (s : string) : list string :=
  match s with
  | EmptyString => EmptyString :: nil
  | String c r =>
      if Ascii.eqb c sep then EmptyString :: split sep r
      else match split sep r with
           | h :: t => String c h :: t
           | nil => String c EmptyString :: nil
           end
  end.

End Js.

(** ** Regular expressions

    The fragment of JavaScript regular expressions the processor uses:
    single characters of a class, greedy [+] over a class, capturing groups
    that are not nested, and the end anchor [$] (no [m] flag). Matching is
    the backtracking one of [RegExp.prototype.exec]: the leftmost start
    position wins, and at it the first way to match in greedy order. *)

Module Regex.

Inductive item :=
| Chr (p : ascii -> bool)
| Plus (p : ascii -> bool)
| Open
| Close
| End.

Definition taken (from rest : string) : string :=
  substring 0 (String.length from - String.length rest) from.

(** Match the pattern at the start of [s]. [opened] holds the input at the
    last [Open]; [caps] the groups closed so far, most recent first. The
    result is the groups and the input left after the match. *)
Fixpoint match_here (pat : list item) (s : string) (opened : string)
    (caps : list string) {struct pat} : option (list string * string) :=
  match pat with
  | nil => Some (rev caps, s)
  | Chr p :: pat' =>
      match s with
      | String c r => if p c then match_here pat' r opened caps else None
      | EmptyString => None
      end
  | Plus p :: pat' =>
      (fix more (s : string) : option (list string * string) :=
         match s with
         | String c r =>
             if p c then
               match more r with
               | Some res => Some res
               | None => match_here pat' r opened caps
               end
             else None
         | EmptyString => None
         end) s
  | Open :: pat' => match_here pat' s s caps
  | Close :: pat' => match_here pat' s opened (taken opened s :: caps)
  | End :: pat' =>
      match s with
      | EmptyString => match_here pat' s opened caps
      | String _ _ => None
      end
  end.

(** [s.match(re)] for a regular expression without the [g] flag: [null], or
    the array of the whole match followed by the groups. *)
Fixpoint exec (pat : list item) (s : string) : option (list string) :=
  match match_here pat s s nil with
  | Some (caps, rest) => Some (taken s rest :: caps)
  | None =>
      match s with
      | String _ r => exec pat r
      | EmptyString => None
      end
  end.

Definition is_sign (c : ascii) : bool := (Js.code c =? 43) || (Js.code c =? 45).
Definition is_dot (c : ascii) : bool := Js.code c =? 46.
Definition is_slash (c : ascii) : bool := Js.code c =? 47.

(** [([+-][0-9]+\.[0-9]+)] *)
Definition signed_decimal : list item :=
  Open :: Chr is_sign :: Plus Js.is_digit :: Chr is_dot :: Plus Js.is_digit
       :: Close :: nil.

End Regex.

(** [/([+-][0-9]+\.[0-9]+)([+-][0-9]+\.[0-9]+)\/$/] *)
Definition locationRegex : list Regex.item :=
  Regex.signed_decimal ++ Regex.signed_decimal
    ++ Regex.Chr Regex.is_slash :: Regex.End :: nil.

(** [/([+-][0-9]+\.[0-9]+)([+-][0-9]+\.[0-9]+)([+-][0-9]+\.[0-9]+)\/$/] *)
Definition locationRegexISO6709 : list Regex.item :=
  Regex.signed_decimal ++ Regex.signed_decimal ++ Regex.signed_decimal
    ++ Regex.Chr Regex.is_slash :: Regex.End :: nil.

(** ** Data model *)

(** A [Date] is its time value in milliseconds; [None] is an invalid date. *)
Definition Date : Type := option Z.

(** An error value: what a rejected promise or a [throw] carries. *)
Definition Error : Type := string.

Inductive AssetType := IMAGE | VIDEO | AUDIO | OTHER.

#[global] Instance AssetType_eq_dec : EqDecision AssetType.
Proof. solve_decision. Defined.

(** [ExifDateTime] of exiftool-vendored, by what [toDate()] returns. *)
Record ExifDateTime := { toDate : Date }.

(** The tags of exiftool-vendored that the processor reads ([ImmichTags]). *)
Module Tags.
Record t := mk {
  DateTimeOriginal : option (ExifDateTime + string);
  CreateDate : option (ExifDateTime + string);
  ModifyDate : option (ExifDateTime + string);
  Make : option string;
  Model : option string;
  ExifImageHeight : option Js.number;
  ImageHeight : option Js.number;
  ExifImageWidth : option Js.number;
  ImageWidth : option Js.number;
  ExposureTime : option string;
  Orientation : option Js.number;
  LensModel : option string;
  FNumber : option Js.number;
  FocalLength : option string;
  ISO : option Js.number;
  GPSLatitude : option Js.number;
  GPSLongitude : option Js.number;
  MediaGroupUUID : option string;
  ContentIdentifier : option string
}.

Definition empty : t :=
  mk None None None None None None None None None None None None None None
     None None None None None.
End Tags.

(** The columns of [AssetEntity] that the processor reads or writes. *)
Module AssetEntity.
Record t := mk {
  id : string;
  type : AssetType;
  originalPath : string;
  isVisible : bool;
  fileCreatedAt : string;
  fileModifiedAt : string;
  duration : option string;
  livePhotoVideoId : option string
}.
End AssetEntity.

(** The argument of [assetRepository.save]: the id and the columns to set. *)
Module AssetPartial.
Record t := mk {
  id : string;
  fileCreatedAt : option string;
  duration : option (option string);
  livePhotoVideoId : option string;
  isVisible : option bool
}.

Definition only (i : string) : t := mk i None None None None.
End AssetPartial.

Module ExifEntity.
Record t := mk {
  assetId : string;
  description : option string;
  imageName : option string;
  fileSizeInByte : option Js.number;
  make : option string;
  model : option string;
  exifImageHeight : option Js.number;
  exifImageWidth : option Js.number;
  exposureTime : option string;
  orientation : option string;
  dateTimeOriginal : option Date;
  modifyDate : option Date;
  lensModel : option string;
  fNumber : option Js.number;
  focalLength : option Js.number;
  iso : option Js.number;
  latitude : option Js.number;
  longitude : option Js.number;
  livePhotoCID : option string;
  city : option string;
  state : option string;
  country : option string;
  fps : option Js.number
}.

(** [new ExifEntity()] with [assetId] assigned: no other column is set. *)
Definition new (i : string) : t :=
  mk i None None None None None None None None None None None None None None
     None None None None None None None None.

Definition set_place (e : t) (co st ci : option string) : t :=
  mk (assetId e) (description e) (imageName e) (fileSizeInByte e) (make e)
     (model e) (exifImageHeight e) (exifImageWidth e) (exposureTime e)
     (orientation e) (dateTimeOriginal e) (modifyDate e) (lensModel e)
     (fNumber e) (focalLength e) (iso e) (latitude e) (longitude e)
     (livePhotoCID e) ci st co (fps e).

Definition set_exifImageHeight (e : t) (v : option Js.number) : t :=
  mk (assetId e) (description e) (imageName e) (fileSizeInByte e) (make e)
     (model e) v (exifImageWidth e) (exposureTime e)
     (orientation e) (dateTimeOriginal e) (modifyDate e) (lensModel e)
     (fNumber e) (focalLength e) (iso e) (latitude e) (longitude e)
     (livePhotoCID e) (city e) (state e) (country e) (fps e).

Definition set_exifImageWidth (e : t) (v : option Js.number) : t :=
  mk (assetId e) (description e) (imageName e) (fileSizeInByte e) (make e)
     (model e) (exifImageHeight e) v (exposureTime e)
     (orientation e) (dateTimeOriginal e) (modifyDate e) (lensModel e)
     (fNumber e) (focalLength e) (iso e) (latitude e) (longitude e)
     (livePhotoCID e) (city e) (state e) (country e) (fps e).

Definition set_orientation (e : t) (v : option string) : t :=
  mk (assetId e) (description e) (imageName e) (fileSizeInByte e) (make e)
     (model e) (exifImageHeight e) (exifImageWidth e) (exposureTime e)
     v (dateTimeOriginal e) (modifyDate e) (lensModel e)
     (fNumber e) (focalLength e) (iso e) (latitude e) (longitude e)
     (livePhotoCID e) (city e) (state e) (country e) (fps e).

Definition set_location (e : t) (lat lon : option Js.number) : t :=
  mk (assetId e) (description e) (imageName e) (fileSizeInByte e) (make e)
     (model e) (exifImageHeight e) (exifImageWidth e) (exposureTime e)
     (orientation e) (dateTimeOriginal e) (modifyDate e) (lensModel e)
     (fNumber e) (focalLength e) (iso e) lat lon
     (livePhotoCID e) (city e) (state e) (country e) (fps e).

Definition set_fps (e : t) (v : option Js.number) : t :=
  mk (assetId e) (description e) (imageName e) (fileSizeInByte e) (make e)
     (model e) (exifImageHeight e) (exifImageWidth e) (exposureTime e)
     (orientation e) (dateTimeOriginal e) (modifyDate e) (lensModel e)
     (fNumber e) (focalLength e) (iso e) (latitude e) (longitude e)
     (livePhotoCID e) (city e) (state e) (country e) v.
End ExifEntity.

(** [AdminCode] and the fields of [GeoData] that [reverseGeocodeExif] reads.
    An administrative code is an [AdminCode] object or a bare string. *)
Record AdminCode := { adminName : string; asciiName : string; geoNameId : string }.

Module GeoData.
Record t := mk {
  name : string;
  countryCode : string;
  admin1Code : option (AdminCode + string);
  admin2Code : option (AdminCode + string)
}.
End GeoData.

(** What [sharp(path).metadata()] resolves to. *)
Module SharpMetadata.
Record t := mk {
  height : option Js.number;
  width : option Js.number;
  orientation : option Js.number
}.
End SharpMetadata.

(** [ffmpeg.FfprobeData]: a container tag is a string or a number. *)
Module FfprobeStream.
Record t := mk {
  codec_type : option string;
  width : option Js.number;
  height : option Js.number;
  rotation : option (string + Js.number);
  r_frame_rate : option string
}.
End FfprobeStream.

Module FfprobeFormat.
Record t := mk {
  duration : option Js.number;
  size : option Js.number;
  tags : option (gmap string (string + Js.number))
}.
End FfprobeFormat.

Module FfprobeData.
Record t := mk {
  format : FfprobeFormat.t;
  streams : list FfprobeStream.t
}.
End FfprobeData.

(** The payloads of the jobs. *)
Record IAssetUploadedJob := { asset : AssetEntity.t; fileName : string }.

Record IReverseGeocodingJob :=
  { assetId : string; latitude : Js.number; longitude : Js.number }.

(** ** The world outside the processor *)

Inductive LogLevel := LOG | WARN | ERROR | CONSOLE.

(** One entry per call that leaves the processor. *)
Inductive Event :=
| EvExifRead (path : string)
| EvStat (path : string)
| EvSharp (path : string)
| EvProbe (path : string)
| EvLookUp (lat lon : Js.number)
| EvFindLivePhotoMatch (cid otherAssetId : string) (type : AssetType)
| EvSave (p : AssetPartial.t)
| EvUpsert (e : ExifEntity.t)
| EvUpdate (assetId : string) (city state country : option string)
| EvLog (level : LogLevel) (msg : string).

(** The two repositories (one row per id: [upsert] has the asset id as its
    conflict path), the readiness flag [isGeocodeInitialized] of the
    processor, and the calls made so far, most recent first. *)
Record World := {
  assets : gmap string AssetEntity.t;
  exifs : gmap string ExifEntity.t;
  isGeocodeInitialized : bool;
  trace : list Event
}.

(** The libraries the processor calls, and whether a repository call is
    rejected. [inl e] is a thrown error or a rejected promise. *)
Record Env := {
  exiftool_read : string -> Error + Tags.t;
  fs_statSync_size : string -> Error + Js.number;
  path_parse_name : string -> string;
  sharp_metadata : string -> Error + SharpMetadata.t;
  ffprobe : string -> Error + FfprobeData.t;
  geocoder_lookUp : Js.number -> Js.number -> option GeoData.t;
  getName : string -> option string;
  Date_parse : string -> Date;
  Date_toISOString : Z -> string;
  repository_error : Event -> option Error
}.

(** ** The monad of the handlers: state and exceptions *)

Inductive Res (A : Type) :=
| Ok (a : A)
| Throw (e : Error).
Arguments Ok {A} a.
Arguments Throw {A} e.

Definition M (A : Type) : Type := World -> Res A * World.

Definition ret {A} (a : A) : M A := fun w => (Ok a, w).

Definition throw {A} (e : Error) : M A := fun w => (Throw e, w).

Definition bind {A B} (m : M A) (k : A -> M B) : M B :=
  fun w =>
    match m w with
    | (Ok a, w') => k a w'
    | (Throw e, w') => (Throw e, w')
    end.

(** [try { m } catch (e) { h e }] *)
Definition try_catch {A} (m : M A) (h : Error -> M A) : M A :=
  fun w =>
    match m w with
    | (Ok a, w') => (Ok a, w')
    | (Throw e, w') => h e w'
    end.

Notation "'let*' x := m 'in' k" := (bind m (fun x => k))
  (at level 10, x name, m at level 100, k at level 200).
Notation "'run' m 'in' k" := (bind m (fun _ => k))
  (at level 10, m at level 100, k at level 200).

Definition emit (ev : Event) : M unit :=
  fun w => (Ok tt, {| assets := assets w; exifs := exifs w;
                      isGeocodeInitialized := isGeocodeInitialized w;
                      trace := ev :: trace w |}).

Definition log (level : LogLevel) (msg : string) : M unit := emit (EvLog level msg).

Definition get_isGeocodeInitialized : M bool :=
  fun w => (Ok (isGeocodeInitialized w), w).

(** A call to a library function that throws or returns. *)
Definition call {A} (ev : Event) (r : Error + A) : M A :=
  run emit ev in
  match r with
  | inl e => throw e
  | inr a => ret a
  end.

(** A call to a repository: rejected when the environment says so,
    otherwise [act] is applied to the stored rows. *)
Definition repository {A} (env : Env) (ev : Event) (act : World -> A * World) : M A :=
  run emit ev in
  match repository_error env ev with
  | Some e => throw e
  | None => fun w => let '(a, w') := act w in (Ok a, w')
  end.

(** *** The repositories *)

Definition merge_partial (p : AssetPartial.t) (a : AssetEntity.t) : AssetEntity.t :=
  AssetEntity.mk (AssetEntity.id a) (AssetEntity.type a) (AssetEntity.originalPath a)
    (default (AssetEntity.isVisible a) (AssetPartial.isVisible p))
    (default (AssetEntity.fileCreatedAt a) (AssetPartial.fileCreatedAt p))
    (AssetEntity.fileModifiedAt a)
    (default (AssetEntity.duration a) (AssetPartial.duration p))
    (match AssetPartial.livePhotoVideoId p with
     | Some v => Some v
     | None => AssetEntity.livePhotoVideoId a
     end).

(** Modelled from the spec: [save(partialFields)] of the asset repository,
    which is not in this file. The columns given are written to the row with
    that id; the other columns and the other rows are kept. *)
Definition assetRepository_save (env : Env) (p : AssetPartial.t) : M unit :=
  repository env (EvSave p) (fun w =>
    (tt, {| assets := alter (merge_partial p) (AssetPartial.id p) (assets w);
            exifs := exifs w;
            isGeocodeInitialized := isGeocodeInitialized w;
            trace := trace w |})).

(** Modelled from the spec: [findLivePhotoMatch(cid, otherAssetId, type)] of
    the asset repository, which is not in this file. It searches the assets
    of the given type for one already carrying the same content identifier
    in its metadata record, excluding [otherAssetId]. *)
Definition is_livePhotoMatch (w : World) (cid otherAssetId : string)
    (ty : AssetType) (a : AssetEntity.t) : bool :=
  bool_decide (AssetEntity.id a <> otherAssetId)
  && bool_decide (AssetEntity.type a = ty)
  && bool_decide ((exifs w !! AssetEntity.id a) ≫= ExifEntity.livePhotoCID = Some cid).

Definition findLivePhotoMatch_rows (w : World) (cid otherAssetId : string)
    (ty : AssetType) : option AssetEntity.t :=
  head (filter (fun a => is_livePhotoMatch w cid otherAssetId ty a = true)
               (snd <$> map_to_list (assets w))).

Definition assetRepository_findLivePhotoMatch (env : Env)
    (cid otherAssetId : string) (ty : AssetType) : M (option AssetEntity.t) :=
  repository env (EvFindLivePhotoMatch cid otherAssetId ty) (fun w =>
    (findLivePhotoMatch_rows w cid otherAssetId ty, w)).

(** [exifRepository.upsert(e, { conflictPaths: ['assetId'] })] of TypeORM:
    the row of that asset id is the record handed over. *)
Definition exifRepository_upsert (env : Env) (e : ExifEntity.t) : M unit :=
  repository env (EvUpsert e) (fun w =>
    (tt, {| assets := assets w;
            exifs := <[ExifEntity.assetId e := e]> (exifs w);
            isGeocodeInitialized := isGeocodeInitialized w;
            trace := trace w |})).

(** [exifRepository.update({ assetId }, { city, state, country })] of
    TypeORM: the three columns of the row of that asset id, if there is one. *)
Definition exifRepository_update (env : Env) (i : string)
    (ci st co : option string) : M unit :=
  repository env (EvUpdate i ci st co) (fun w =>
    (tt, {| assets := assets w;
            exifs := alter (fun e => ExifEntity.set_place e co st ci) i (exifs w);
            isGeocodeInitialized := isGeocodeInitialized w;
            trace := trace w |})).

(** ** The processor *)

(** *** The constructor (lines 74-101) *)

(** Lines 96-99: what runs once the geocoder has loaded its data. Until
    then [isGeocodeInitialized] is [false], as it is when reverse geocoding
    is disabled. *)
Definition onGeocoderInitialized : M unit :=
  fun w => (Ok tt, {| assets := assets w; exifs := exifs w;
                      isGeocodeInitialized := true;
                      trace := EvLog LOG "Reverse Geocoding Initialised" :: trace w |}).

(** *** [reverseGeocodeExif] (lines 103-132) *)

(** [geocoderLookup] (lines 29-37) resolves with [addresses[0][0]], which is
    absent when the geocoder has no place for the point; reading
    [countryCode] of it then throws. *)

Definition truthy_admin (c : option (AdminCode + string)) : bool :=
  match c with
  | Some (inl _) => true
  | Some (inr s) => Js.truthy_str s
  | None => false
  end.

(** The [name] property of an administrative code: absent on a string. *)
Definition admin_name (c : option (AdminCode + string)) : option string :=
  match c with
  | Some (inl a) => Some (adminName a)
  | _ => None
  end.

(** [state += x]: an absent [x] is appended as the text [undefined]. *)
Definition append_value (state : string) (x : option string) : string :=
  state ++ default "undefined" x.

Definition state_of (geoCodeInfo : GeoData.t) : string :=
  let state := "" in
  let state :=
    if truthy_admin (GeoData.admin2Code geoCodeInfo)
    then append_value state (admin_name (GeoData.admin2Code geoCodeInfo))
    else state in
  if truthy_admin (GeoData.admin1Code geoCodeInfo) then
    let state :=
      if truthy_admin (GeoData.admin2Code geoCodeInfo)
         && Js.truthy_str (default "" (admin_name (GeoData.admin2Code geoCodeInfo)))
      then state ++ ", " else state in
    append_value state (admin_name (GeoData.admin1Code geoCodeInfo))
  else state.

Definition reverseGeocodeExif (env : Env) (lat lon : Js.number)
  : M (option string * string * string) :=
  run emit (EvLookUp lat lon) in
  match geocoder_lookUp env lat lon with
  | None => throw "TypeError: Cannot read properties of undefined (reading 'countryCode')"
  | Some geoCodeInfo =>
      ret (getName env (GeoData.countryCode geoCodeInfo),
           state_of geoCodeInfo,
           GeoData.name geoCodeInfo)
  end.

(** *** Steps shared by the two extractors *)

(** [exiftool.read(path).catch(e => { warn; return null })] *)
Definition exiftool_read_or_null (env : Env) (path : string) : M (option Tags.t) :=
  run emit (EvExifRead path) in
  match exiftool_read env path with
  | inr tags => ret (Some tags)
  | inl e =>
      run log WARN ("The exifData parsing failed due to: " ++ e ++ " on file " ++ path) in
      ret None
  end.

(** [exifData?.X] *)
Definition tag {A} (exifData : option Tags.t) (X : Tags.t -> option A) : option A :=
  exifData ≫= X.

Definition is_set {A} (truthy : A -> bool) (x : option A) : bool :=
  match x with
  | Some v => truthy v
  | None => false
  end.

(** Lines 201-206 and 327-332: place enrichment. *)
Definition reverseGeocodeStep (env : Env) (newExif : ExifEntity.t) : M ExifEntity.t :=
  let* ready := get_isGeocodeInitialized in
  if ready && is_set Js.truthy_num (ExifEntity.latitude newExif)
           && is_set Js.truthy_num (ExifEntity.longitude newExif)
  then
    match ExifEntity.latitude newExif, ExifEntity.longitude newExif with
    | Some lat, Some lon =>
        let* r := reverseGeocodeExif env lat lon in
        let '(country, state, city) := r in
        ret (ExifEntity.set_place newExif country (Some state) (Some city))
    | _, _ => ret newExif
    end
  else ret newExif.

(** *** [extractExifInfo] (lines 134-232) *)

(** Lines 143-151. *)
Definition exifToDate (env : Env) (exifDate : option (ExifDateTime + string)) : option Date :=
  match exifDate with
  | None => None
  | Some (inr s) => if Js.truthy_str s then Some (Date_parse env s) else None
  | Some (inl d) => Some (toDate d)
  end.

(** Lines 153-154. *)
Definition resolveCreatedAt (env : Env) (exifData : option Tags.t)
    (asset : AssetEntity.t) : option Date :=
  exifToDate env
    (Js.nullish (tag exifData Tags.DateTimeOriginal)
       (Js.nullish (tag exifData Tags.CreateDate)
          (Some (inr (AssetEntity.fileCreatedAt asset))))).

Definition resolveModifiedAt (env : Env) (exifData : option Tags.t)
    (asset : AssetEntity.t) : option Date :=
  exifToDate env
    (Js.nullish (tag exifData Tags.ModifyDate)
       (Some (inr (AssetEntity.fileModifiedAt asset)))).

(** Lines 164, 165 and 167: the dimensions and the orientation the tags give. *)
Definition heightFromTags (exifData : option Tags.t) : option Js.number :=
  Js.or_else Js.truthy_num (tag exifData Tags.ExifImageHeight)
    (Js.or_null Js.truthy_num (tag exifData Tags.ImageHeight)).

Definition widthFromTags (exifData : option Tags.t) : option Js.number :=
  Js.or_else Js.truthy_num (tag exifData Tags.ExifImageWidth)
    (Js.or_null Js.truthy_num (tag exifData Tags.ImageWidth)).

Definition orientationFromTags (exifData : option Tags.t) : option string :=
  Js.or_null Js.truthy_str (Js.toString <$> tag exifData Tags.Orientation).

(** Lines 158-176: the record as filled from the tags. *)
Definition exifFromTags (env : Env) (asset : AssetEntity.t) (fileName : string)
    (exifData : option Tags.t) (fileCreatedAt fileModifiedAt : option Date)
    (fileSizeInBytes : Js.number) : ExifEntity.t :=
  {| ExifEntity.assetId := AssetEntity.id asset;
     ExifEntity.description := None;
     ExifEntity.imageName := Some (path_parse_name env fileName);
     ExifEntity.fileSizeInByte := Some fileSizeInBytes;
     ExifEntity.make := Js.or_null Js.truthy_str (tag exifData Tags.Make);
     ExifEntity.model := Js.or_null Js.truthy_str (tag exifData Tags.Model);
     ExifEntity.exifImageHeight := heightFromTags exifData;
     ExifEntity.exifImageWidth := widthFromTags exifData;
     ExifEntity.exposureTime := Js.or_null Js.truthy_str (tag exifData Tags.ExposureTime);
     ExifEntity.orientation := orientationFromTags exifData;
     ExifEntity.dateTimeOriginal := fileCreatedAt;
     ExifEntity.modifyDate := fileModifiedAt;
     ExifEntity.lensModel := Js.or_null Js.truthy_str (tag exifData Tags.LensModel);
     ExifEntity.fNumber := Js.or_null Js.truthy_num (tag exifData Tags.FNumber);
     ExifEntity.focalLength :=
       Js.parseFloat <$> Js.or_null Js.truthy_str (tag exifData Tags.FocalLength);
     ExifEntity.iso := Js.or_null Js.truthy_num (tag exifData Tags.ISO);
     ExifEntity.latitude := Js.or_null Js.truthy_num (tag exifData Tags.GPSLatitude);
     ExifEntity.longitude := Js.or_null Js.truthy_num (tag exifData Tags.GPSLongitude);
     ExifEntity.livePhotoCID := Js.or_null Js.truthy_str (tag exifData Tags.MediaGroupUUID);
     ExifEntity.city := None;
     ExifEntity.state := None;
     ExifEntity.country := None;
     ExifEntity.fps := None |}.

(** [fileCreatedAt?.toISOString()]: a [RangeError] on an invalid date. *)
Definition toISOString_opt (env : Env) (d : option Date) : M (option string) :=
  match d with
  | None => ret None
  | Some None => throw "RangeError: Invalid time value"
  | Some (Some ms) => ret (Some (Date_toISOString env ms))
  end.

(** Lines 183-193: live-photo pairing of a still image. *)
Definition pairWithMotionAsset (env : Env) (asset : AssetEntity.t)
    (newExif : ExifEntity.t) : M unit :=
  match ExifEntity.livePhotoCID newExif with
  | Some cid =>
      if Js.truthy_str cid
         && negb (is_set Js.truthy_str (AssetEntity.livePhotoVideoId asset))
      then
        let* motionAsset :=
          assetRepository_findLivePhotoMatch env cid (AssetEntity.id asset) VIDEO in
        match motionAsset with
        | Some motionAsset =>
            run assetRepository_save env
                  {| AssetPartial.id := AssetEntity.id asset;
                     AssetPartial.fileCreatedAt := None;
                     AssetPartial.duration := None;
                     AssetPartial.livePhotoVideoId := Some (AssetEntity.id motionAsset);
                     AssetPartial.isVisible := None |} in
            assetRepository_save env
                  {| AssetPartial.id := AssetEntity.id motionAsset;
                     AssetPartial.fileCreatedAt := None;
                     AssetPartial.duration := None;
                     AssetPartial.livePhotoVideoId := None;
                     AssetPartial.isVisible := Some false |}
        | None => ret tt
        end
      else ret tt
  | None => ret tt
  end.

(** Lines 212-226: the raster decoder fills what the tags left null. *)
Definition needsRasterDecode (newExif : ExifEntity.t) : bool :=
  negb (is_set Js.truthy_num (ExifEntity.exifImageHeight newExif))
  || negb (is_set Js.truthy_num (ExifEntity.exifImageWidth newExif))
  || negb (is_set Js.truthy_str (ExifEntity.orientation newExif)).

Definition fillFromRaster (metadata : SharpMetadata.t) (newExif : ExifEntity.t)
  : ExifEntity.t :=
  let newExif :=
    match ExifEntity.exifImageHeight newExif with
    | None => ExifEntity.set_exifImageHeight newExif
                (Js.or_null Js.truthy_num (SharpMetadata.height metadata))
    | Some _ => newExif
    end in
  let newExif :=
    match ExifEntity.exifImageWidth newExif with
    | None => ExifEntity.set_exifImageWidth newExif
                (Js.or_null Js.truthy_num (SharpMetadata.width metadata))
    | Some _ => newExif
    end in
  match ExifEntity.orientation newExif with
  | None => ExifEntity.set_orientation newExif
              (Js.toString <$> SharpMetadata.orientation metadata)
  | Some _ => newExif
  end.

Definition rasterFallback (env : Env) (asset : AssetEntity.t)
    (newExif : ExifEntity.t) : M ExifEntity.t :=
  if needsRasterDecode newExif then
    let* metadata := call (EvSharp (AssetEntity.originalPath asset))
                          (sharp_metadata env (AssetEntity.originalPath asset)) in
    ret (fillFromRaster metadata newExif)
  else ret newExif.

Definition extractExifInfo (env : Env) (job : IAssetUploadedJob) : M unit :=
  try_catch
    (let asset := asset job in
     let* exifData := exiftool_read_or_null env (AssetEntity.originalPath asset) in
     let fileCreatedAt := resolveCreatedAt env exifData asset in
     let fileModifiedAt := resolveModifiedAt env exifData asset in
     let* fileSizeInBytes := call (EvStat (AssetEntity.originalPath asset))
                                  (fs_statSync_size env (AssetEntity.originalPath asset)) in
     let newExif := exifFromTags env asset (fileName job) exifData
                      fileCreatedAt fileModifiedAt fileSizeInBytes in
     let* iso := toISOString_opt env fileCreatedAt in
     run assetRepository_save env
           {| AssetPartial.id := AssetEntity.id asset;
              AssetPartial.fileCreatedAt := iso;
              AssetPartial.duration := None;
              AssetPartial.livePhotoVideoId := None;
              AssetPartial.isVisible := None |} in
     run pairWithMotionAsset env asset newExif in
     let* newExif := reverseGeocodeStep env newExif in
     let* newExif := rasterFallback env asset newExif in
     exifRepository_upsert env newExif)
    (fun error => log ERROR ("Error extracting EXIF " ++ error)).

(** *** [reverseGeocoding] (lines 234-241) *)

Definition reverseGeocoding (env : Env) (job : IReverseGeocodingJob) : M unit :=
  let* ready := get_isGeocodeInitialized in
  if ready then
    let* r := reverseGeocodeExif env (latitude job) (longitude job) in
    let '(country, state, city) := r in
    exifRepository_update env (assetId job) (Some city) (Some state) country
  else ret tt.

(** *** [extractDuration] (lines 366-374) *)

Definition extractDuration (duration : Js.number) : string :=
  let videoDurationInSecond := Js.parseInt (Js.toString duration) in
  let hours := Js.Math_floor (Js.div videoDurationInSecond (Js.of_Z 3600)) in
  let minutes :=
    Js.Math_floor
      (Js.div (Js.sub videoDurationInSecond (Js.mul hours (Js.of_Z 3600)))
              (Js.of_Z 60)) in
  let seconds :=
    Js.sub (Js.sub videoDurationInSecond (Js.mul hours (Js.of_Z 3600)))
           (Js.mul minutes (Js.of_Z 60)) in
  Js.toString hours ++ ":" ++ Js.padStart 2 "0" (Js.toString minutes)
    ++ ":" ++ Js.padStart 2 "0" (Js.toString seconds) ++ ".000000".

(** *** [extractVideoMetadata] (lines 243-364) *)

Definition truthy_tag (v : string + Js.number) : bool :=
  match v with
  | inl s => Js.truthy_str s
  | inr n => Js.truthy_num n
  end.

(** [String(v)] *)
Definition String_of_tag (v : string + Js.number) : string :=
  match v with
  | inl s => s
  | inr n => Js.toString n
  end.

(** [videoTags && videoTags[key]], when truthy. *)
Definition videoTag (videoTags : option (gmap string (string + Js.number)))
    (key : string) : option (string + Js.number) :=
  Js.or_null truthy_tag (videoTags ≫= (fun tags => tags !! key)).

(** [(v as string).match(re)]: a number has no [match] method. *)
Definition tag_match (v : string + Js.number) (re : list Regex.item)
  : M (option (list string)) :=
  match v with
  | inl location => ret (Regex.exec re location)
  | inr _ => throw "TypeError: location.match is not a function"
  end.

(** Lines 261-263. *)
Definition resolveDuration (asset : AssetEntity.t) (data : FfprobeData.t) : option string :=
  match FfprobeFormat.duration (FfprobeData.format data) with
  | Some d => if Js.truthy_num d then Some (extractDuration d)
              else AssetEntity.duration asset
  | None => AssetEntity.duration asset
  end.

(** Lines 265-272. *)
Definition resolveVideoCreatedAt (asset : AssetEntity.t)
    (videoTags : option (gmap string (string + Js.number))) : string :=
  match videoTag videoTags "com.apple.quicktime.creationdate" with
  | Some v => String_of_tag v
  | None =>
      match videoTag videoTags "creation_time" with
      | Some v => String_of_tag v
      | None => AssetEntity.fileCreatedAt asset
      end
  end.

(** Lines 279-292: the starting record of a video. *)
Definition videoExif (env : Env) (asset : AssetEntity.t) (fileName : string)
    (data : FfprobeData.t) (fileCreatedAt : string) (exifData : option Tags.t)
  : ExifEntity.t :=
  {| ExifEntity.assetId := AssetEntity.id asset;
     ExifEntity.description := Some "";
     ExifEntity.imageName := Js.or_null Js.truthy_str (Some (path_parse_name env fileName));
     ExifEntity.fileSizeInByte :=
       Js.or_null Js.truthy_num (FfprobeFormat.size (FfprobeData.format data));
     ExifEntity.make := None;
     ExifEntity.model := None;
     ExifEntity.exifImageHeight := None;
     ExifEntity.exifImageWidth := None;
     ExifEntity.exposureTime := None;
     ExifEntity.orientation := None;
     ExifEntity.dateTimeOriginal :=
       if Js.truthy_str fileCreatedAt then Some (Date_parse env fileCreatedAt) else None;
     ExifEntity.modifyDate := None;
     ExifEntity.lensModel := None;
     ExifEntity.fNumber := None;
     ExifEntity.focalLength := None;
     ExifEntity.iso := None;
     ExifEntity.latitude := None;
     ExifEntity.longitude := None;
     ExifEntity.livePhotoCID := Js.or_null Js.truthy_str (tag exifData Tags.ContentIdentifier);
     ExifEntity.city := None;
     ExifEntity.state := None;
     ExifEntity.country := None;
     ExifEntity.fps := None |}.

(** Lines 294-304: live-photo pairing of a video. *)
Definition pairWithPhotoAsset (env : Env) (asset : AssetEntity.t)
    (newExif : ExifEntity.t) : M unit :=
  match ExifEntity.livePhotoCID newExif with
  | Some cid =>
      if Js.truthy_str cid then
        let* photoAsset :=
          assetRepository_findLivePhotoMatch env cid (AssetEntity.id asset) IMAGE in
        match photoAsset with
        | Some photoAsset =>
            run assetRepository_save env
                  {| AssetPartial.id := AssetEntity.id photoAsset;
                     AssetPartial.fileCreatedAt := None;
                     AssetPartial.duration := None;
                     AssetPartial.livePhotoVideoId := Some (AssetEntity.id asset);
                     AssetPartial.isVisible := None |} in
            assetRepository_save env
                  {| AssetPartial.id := AssetEntity.id asset;
                     AssetPartial.fileCreatedAt := None;
                     AssetPartial.duration := None;
                     AssetPartial.livePhotoVideoId := None;
                     AssetPartial.isVisible := Some false |}
        | None => ret tt
        end
      else ret tt
  | None => ret tt
  end.

(** [match?.length === n], then [parseFloat(match[1])], [parseFloat(match[2])]. *)
Definition coordinates (n : nat) (m : option (list string)) : option (Js.number * Js.number) :=
  match m with
  | Some groups =>
      if Nat.eqb (List.length groups) n
      then Some (Js.parseFloat (nth 1 groups ""), Js.parseFloat (nth 2 groups ""))
      else None
  | None => None
  end.

(** Lines 306-324: the position of a video, from the [location] tag or else
    from the [com.apple.quicktime.location.ISO6709] tag. *)
Definition parseLocation (videoTags : option (gmap string (string + Js.number)))
  : M (option (Js.number * Js.number)) :=
  match videoTag videoTags "location" with
  | Some location =>
      let* m := tag_match location locationRegex in
      ret (coordinates 3 m)
  | None =>
      match videoTag videoTags "com.apple.quicktime.location.ISO6709" with
      | Some location =>
          let* m := tag_match location locationRegexISO6709 in
          ret (coordinates 4 m)
      | None => ret None
      end
  end.

Definition locationStep (videoTags : option (gmap string (string + Js.number)))
    (newExif : ExifEntity.t) : M ExifEntity.t :=
  let* r := parseLocation videoTags in
  match r with
  | Some (lat, lon) => ret (ExifEntity.set_location newExif (Some lat) (Some lon))
  | None => ret newExif
  end.

(** Lines 347-353: the frame rate of a stream, when its rate has two parts. *)
Definition streamFps (r_frame_rate : option string) : option Js.number :=
  match r_frame_rate with
  | Some rate =>
      if Js.truthy_str rate then
        let fpsParts := Js.split "/" rate in
        if Nat.eqb (List.length fpsParts) 2 then
          Some (Js.Math_round (Js.div (Js.parseInt (nth 0 fpsParts ""))
                                      (Js.parseInt (nth 1 fpsParts ""))))
        else None
      else None
  | None => None
  end.

(** Lines 339-345. *)
Definition streamOrientation (rotation : option (string + Js.number)) : option string :=
  match rotation with
  | Some (inl s) => Some s
  | Some (inr n) => Some (Js.toString n)
  | None => None
  end.

(** Lines 335-354: the body of the loop over the streams. *)
Definition scanStream (newExif : ExifEntity.t) (stream : FfprobeStream.t) : ExifEntity.t :=
  if bool_decide (FfprobeStream.codec_type stream = Some "video") then
    let newExif := ExifEntity.set_exifImageWidth newExif
                     (Js.or_null Js.truthy_num (FfprobeStream.width stream)) in
    let newExif := ExifEntity.set_exifImageHeight newExif
                     (Js.or_null Js.truthy_num (FfprobeStream.height stream)) in
    let newExif := ExifEntity.set_orientation newExif
                     (streamOrientation (FfprobeStream.rotation stream)) in
    match streamFps (FfprobeStream.r_frame_rate stream) with
    | Some fps => ExifEntity.set_fps newExif (Some fps)
    | None => newExif
    end
  else newExif.

Definition scanStreams (streams : list FfprobeStream.t) (newExif : ExifEntity.t)
  : ExifEntity.t :=
  fold_left scanStream streams newExif.

Definition extractVideoMetadata (env : Env) (job : IAssetUploadedJob) : M unit :=
  let asset := asset job in
  if negb (AssetEntity.isVisible asset) then ret tt
  else
    try_catch
      (let* data := call (EvProbe (AssetEntity.originalPath asset))
                         (ffprobe env (AssetEntity.originalPath asset)) in
       let durationString := resolveDuration asset data in
       let videoTags := FfprobeFormat.tags (FfprobeData.format data) in
       let fileCreatedAt := resolveVideoCreatedAt asset videoTags in
       let* exifData := exiftool_read_or_null env (AssetEntity.originalPath asset) in
       let newExif := videoExif env asset (fileName job) data fileCreatedAt exifData in
       run pairWithPhotoAsset env asset newExif in
       let* newExif := locationStep videoTags newExif in
       let* newExif := reverseGeocodeStep env newExif in
       let newExif := scanStreams (FfprobeData.streams data) newExif in
       run exifRepository_upsert env newExif in
       assetRepository_save env
         {| AssetPartial.id := AssetEntity.id asset;
            AssetPartial.fileCreatedAt := Some fileCreatedAt;
            AssetPartial.duration := Some durationString;
            AssetPartial.livePhotoVideoId := None;
            AssetPartial.isVisible := None |})
      (fun err => log CONSOLE ("Error in video metadata extraction " ++ err)).

(** * Definitions used by the properties *)

(** ** Statements *)

Abbreviation ISO6709 := ("com.apple.quicktime.location.ISO6709"%string) (only parsing).

(** *** The stream scan *)

Definition isVideoStream (stream : FfprobeStream.t) : bool :=
  bool_decide (FfprobeStream.codec_type stream = Some "video").

(** The frame rate a stream contributes: video streams with a two-part rate. *)
Definition videoStreamFps (stream : FfprobeStream.t) : option Js.number :=
  if isVideoStream stream then streamFps (FfprobeStream.r_frame_rate stream) else None.

(** The separator does not occur in the string. *)
Fixpoint no_separator (sep : ascii) (s : string) : bool :=
  match s with
  | EmptyString => true
  | String c r => negb (Ascii.eqb c sep) && no_separator sep r
  end.

(** *** Date resolution *)

(** The first candidate of the list that is present. *)
Fixpoint first_present {A} (candidates : list (option A)) : option A :=
  match candidates with
  | nil => None
  | Some v :: _ => Some v
  | None :: rest => first_present rest
  end.

(** *** Scalar fields *)


(** *** Triples for the handlers *)

(** [hoare P m Q E]: from a world satisfying [P], [m] returns a value and a
    world satisfying [Q], or throws in a world satisfying [E]. *)
Definition hoare {A} (P : World -> Prop) (m : M A)
    (Q : A -> World -> Prop) (E : World -> Prop) : Prop :=
  forall w, P w ->
    match m w with
    | (Ok a, w') => Q a w'
    | (Throw _, w') => E w'
    end.

(** *** Calls made by a handler *)

Definition isSharp (ev : Event) : bool :=
  match ev with
  | EvSharp _ => true
  | _ => false
  end.

Definition isUpsert (ev : Event) : bool :=
  match ev with
  | EvUpsert _ => true
  | _ => false
  end.

(** The number of calls to the raster decoder so far. *)
Definition sharp_calls (w : World) : nat :=
  List.length (List.filter isSharp (trace w)).

(** [since t0 ok w]: the calls made since the trace was [t0] all satisfy [ok]. *)
Definition since (t0 : list Event) (ok : Event -> Prop) (w : World) : Prop :=
  exists evs, trace w = (evs ++ t0)%list /\ Forall ok evs.

(** The tags the still-image handler works with: none when the read fails. *)
Definition readTags (env : Env) (asset : AssetEntity.t) : option Tags.t :=
  match exiftool_read env (AssetEntity.originalPath asset) with
  | inr tags => Some tags
  | inl _ => None
  end.

(** Place enrichment returns the record, or the record with a place. *)
Definition placed (newExif e : ExifEntity.t) : Prop :=
  e = newExif \/ exists country state city, e = ExifEntity.set_place newExif country state city.

(** [completes t e]: the record [e] is [t] with its place set and with those
    of height, width and orientation that are null in [t] filled. *)
Definition completes (t e : ExifEntity.t) : Prop :=
  exists country state city height width orientation,
    e = ExifEntity.set_orientation
          (ExifEntity.set_exifImageWidth
             (ExifEntity.set_exifImageHeight (ExifEntity.set_place t country state city)
                (Js.nullish (ExifEntity.exifImageHeight t) height))
             (Js.nullish (ExifEntity.exifImageWidth t) width))
          (Js.nullish (ExifEntity.orientation t) orientation).

(** The record the still-image handler builds from the tags of the job. *)
Definition tagRecord (env : Env) (job : IAssetUploadedJob) (size : Js.number)
  : ExifEntity.t :=
  exifFromTags env (asset job) (fileName job) (readTags env (asset job))
    (resolveCreatedAt env (readTags env (asset job)) (asset job))
    (resolveModifiedAt env (readTags env (asset job)) (asset job)) size.

(** A call of the still-image handler: an upsert stores the record of the
    tags, completed. *)
Definition upsertsTagRecord (env : Env) (job : IAssetUploadedJob) (ev : Event) : Prop :=
  match ev with
  | EvUpsert e => exists size, completes (tagRecord env job size) e
  | _ => True
  end.

(** The record the video handler starts from, once the probe has answered. *)
Definition videoStart (env : Env) (job : IAssetUploadedJob) (data : FfprobeData.t)
  : ExifEntity.t :=
  videoExif env (asset job) (fileName job) data
    (resolveVideoCreatedAt (asset job) (FfprobeFormat.tags (FfprobeData.format data)))
    (readTags env (asset job)).

(** [located videoTags e0 e]: the location step turns [e0] into [e]. *)
Definition located (videoTags : option (gmap string (string + Js.number)))
    (e0 e : ExifEntity.t) : Prop :=
  forall w, locationStep videoTags e0 w = (Ok e, w).

(** A call of the video handler: an upsert stores the starting record after
    the location step, place enrichment and the scan of the streams. *)
Definition upsertsVideoRecord (env : Env) (job : IAssetUploadedJob) (ev : Event) : Prop :=
  match ev with
  | EvUpsert e =>
      exists data e1 e2,
        ffprobe env (AssetEntity.originalPath (asset job)) = inr data
        /\ located (FfprobeFormat.tags (FfprobeData.format data)) (videoStart env job data) e1
        /\ placed e1 e2
        /\ e = scanStreams (FfprobeData.streams data) e2
  | _ => True
  end.

(** *** Live-photo pairing *)

(** The row [a] with its paired-video pointer set, and with its visibility
    cleared. *)
Definition pairedWith (videoId : string) (a : AssetEntity.t) : AssetEntity.t :=
  AssetEntity.mk (AssetEntity.id a) (AssetEntity.type a) (AssetEntity.originalPath a)
    (AssetEntity.isVisible a) (AssetEntity.fileCreatedAt a) (AssetEntity.fileModifiedAt a)
    (AssetEntity.duration a) (Some videoId).

Definition hidden (a : AssetEntity.t) : AssetEntity.t :=
  AssetEntity.mk (AssetEntity.id a) (AssetEntity.type a) (AssetEntity.originalPath a)
    false (AssetEntity.fileCreatedAt a) (AssetEntity.fileModifiedAt a)
    (AssetEntity.duration a) (AssetEntity.livePhotoVideoId a).

Definition setPointer (i videoId : string) : AssetPartial.t :=
  AssetPartial.mk i None None (Some videoId) None.

Definition setHidden (i : string) : AssetPartial.t :=
  AssetPartial.mk i None None None (Some false).

Definition noRepositoryError (env : Env) : Prop :=
  forall ev, repository_error env ev = None.

(** ** Concrete data used by the examples *)

Module Sample.

Definition env : Env :=
  {| exiftool_read := fun _ => inr Tags.empty;
     fs_statSync_size := fun _ => inr (Js.of_Z 1024);
     path_parse_name := fun f => f;
     sharp_metadata := fun _ =>
       inr (SharpMetadata.mk (Some (Js.of_Z 480)) (Some (Js.of_Z 640)) (Some (Js.of_Z 1)));
     ffprobe := fun _ => inl "ffprobe exited with code 1";
     geocoder_lookUp := fun _ _ => None;
     getName := fun _ => None;
     Date_parse := fun _ => Some 0;
     Date_toISOString := fun _ => "1970-01-01T00:00:00.000Z";
     repository_error := fun _ => None |}.

Definition image : AssetEntity.t :=
  AssetEntity.mk "img" IMAGE "/upload/img.heic" true
    "2023-01-01T00:00:00.000Z" "2023-01-02T00:00:00.000Z" None None.

Definition video : AssetEntity.t :=
  AssetEntity.mk "vid" VIDEO "/upload/vid.mov" true
    "2023-01-01T00:00:00.000Z" "2023-01-02T00:00:00.000Z" None None.

Definition cidRecord (i : string) : ExifEntity.t :=
  ExifEntity.mk i None None None None None None None None None None None None
    None None None None None (Some "X") None None None None.

(** Both halves of a live photo are stored and carry the identifier [X]. *)
Definition world : World :=
  {| assets := <["img" := image]> (<["vid" := video]> ∅);
     exifs := <["img" := cidRecord "img"]> (<["vid" := cidRecord "vid"]> ∅);
     isGeocodeInitialized := true;
     trace := nil |}.

End Sample.

(** Tags in which ISO, latitude and longitude are present and zero. *)
Definition zeroTags : Tags.t :=
  {| Tags.DateTimeOriginal := None; Tags.CreateDate := None; Tags.ModifyDate := None;
     Tags.Make := Some "Apple"; Tags.Model := Some "iPhone";
     Tags.ExifImageHeight := Some (Js.of_Z 3024); Tags.ImageHeight := None;
     Tags.ExifImageWidth := Some (Js.of_Z 4032); Tags.ImageWidth := None;
     Tags.ExposureTime := Some "1/120"; Tags.Orientation := Some (Js.of_Z 1);
     Tags.LensModel := None; Tags.FNumber := None; Tags.FocalLength := None;
     Tags.ISO := Some (Js.of_Z 0);
     Tags.GPSLatitude := Some (Js.of_Z 0); Tags.GPSLongitude := Some (Js.of_Z 0);
     Tags.MediaGroupUUID := None; Tags.ContentIdentifier := None |}.

Definition zeroEnv : Env :=
  {| exiftool_read := fun _ => inr zeroTags;
     fs_statSync_size := fs_statSync_size Sample.env;
     path_parse_name := path_parse_name Sample.env;
     sharp_metadata := sharp_metadata Sample.env;
     ffprobe := ffprobe Sample.env;
     geocoder_lookUp := geocoder_lookUp Sample.env;
     getName := getName Sample.env;
     Date_parse := Date_parse Sample.env;
     Date_toISOString := Date_toISOString Sample.env;
     repository_error := repository_error Sample.env |}.

(** A run in which the tags give the width and the orientation but not the
    height: the decoder is called once, its height is stored, and its width
    and orientation are not. *)
Definition noHeightEnv : Env :=
  {| exiftool_read := fun _ =>
       inr {| Tags.DateTimeOriginal := None; Tags.CreateDate := None;
              Tags.ModifyDate := None; Tags.Make := None; Tags.Model := None;
              Tags.ExifImageHeight := None; Tags.ImageHeight := None;
              Tags.ExifImageWidth := Some (Js.of_Z 4032); Tags.ImageWidth := None;
              Tags.ExposureTime := None; Tags.Orientation := Some (Js.of_Z 6);
              Tags.LensModel := None; Tags.FNumber := None; Tags.FocalLength := None;
              Tags.ISO := None; Tags.GPSLatitude := None; Tags.GPSLongitude := None;
              Tags.MediaGroupUUID := None; Tags.ContentIdentifier := None |};
     fs_statSync_size := fs_statSync_size Sample.env;
     path_parse_name := path_parse_name Sample.env;
     sharp_metadata := sharp_metadata Sample.env;
     ffprobe := ffprobe Sample.env;
     geocoder_lookUp := geocoder_lookUp Sample.env;
     getName := getName Sample.env;
     Date_parse := Date_parse Sample.env;
     Date_toISOString := Date_toISOString Sample.env;
     repository_error := repository_error Sample.env |}.

(** A geocoder that answers, and a metadata repository that rejects updates. *)
Definition cupertino : GeoData.t :=
  {| GeoData.name := "Cupertino"; GeoData.countryCode := "US";
     GeoData.admin1Code := Some (inl {| adminName := "California";
                                        asciiName := "California"; geoNameId := "5332921" |});
     GeoData.admin2Code := Some (inl {| adminName := "Santa Clara County";
                                        asciiName := "Santa Clara County";
                                        geoNameId := "5393021" |}) |}.

Definition rejectingEnv : Env :=
  {| exiftool_read := exiftool_read Sample.env;
     fs_statSync_size := fs_statSync_size Sample.env;
     path_parse_name := path_parse_name Sample.env;
     sharp_metadata := sharp_metadata Sample.env;
     ffprobe := ffprobe Sample.env;
     geocoder_lookUp := fun _ _ => Some cupertino;
     getName := fun _ => Some "United States of America";
     Date_parse := Date_parse Sample.env;
     Date_toISOString := Date_toISOString Sample.env;
     repository_error := fun ev =>
       match ev with
       | EvUpdate _ _ _ _ => Some "QueryFailedError: connection terminated"
       | _ => None
       end |}.

Definition geocodingJob : IReverseGeocodingJob :=
  {| assetId := "img";
     latitude := Js.of_decimal false 373349 (-4);
     longitude := Js.of_decimal true 122009 (-3) |}.

(** A video of a live photo: a probe that succeeds, and tags that carry the
    content identifier [X]. *)
Definition liveVideoEnv : Env :=
  {| exiftool_read := fun _ =>
       inr {| Tags.DateTimeOriginal := None; Tags.CreateDate := None;
              Tags.ModifyDate := None; Tags.Make := None; Tags.Model := None;
              Tags.ExifImageHeight := None; Tags.ImageHeight := None;
              Tags.ExifImageWidth := None; Tags.ImageWidth := None;
              Tags.ExposureTime := None; Tags.Orientation := None;
              Tags.LensModel := None; Tags.FNumber := None; Tags.FocalLength := None;
              Tags.ISO := None; Tags.GPSLatitude := None; Tags.GPSLongitude := None;
              Tags.MediaGroupUUID := None; Tags.ContentIdentifier := Some "X" |};
     fs_statSync_size := fs_statSync_size Sample.env;
     path_parse_name := path_parse_name Sample.env;
     sharp_metadata := sharp_metadata Sample.env;
     ffprobe := fun _ =>
       inr {| FfprobeData.format :=
                {| FfprobeFormat.duration := Some (Js.of_decimal false 2533333 (-6));
                   FfprobeFormat.size := Some (Js.of_Z 3145728);
                   FfprobeFormat.tags :=
                     Some {[ "com.apple.quicktime.location.ISO6709"
                               := inl "+37.3349-122.0090+024.000/" ]} |};
              FfprobeData.streams :=
                {| FfprobeStream.codec_type := Some "audio";
                   FfprobeStream.width := None; FfprobeStream.height := None;
                   FfprobeStream.rotation := None;
                   FfprobeStream.r_frame_rate := Some "0/0" |}
                :: {| FfprobeStream.codec_type := Some "video";
                      FfprobeStream.width := Some (Js.of_Z 1920);
                      FfprobeStream.height := Some (Js.of_Z 1080);
                      FfprobeStream.rotation := Some (inr (Js.of_Z (-90)));
                      FfprobeStream.r_frame_rate := Some "30000/1001" |}
                :: nil |};
     geocoder_lookUp := fun _ _ => Some cupertino;
     getName := fun _ => Some "United States of America";
     Date_parse := Date_parse Sample.env;
     Date_toISOString := Date_toISOString Sample.env;
     repository_error := repository_error Sample.env |}.

(** ** Definitions for the further properties *)

Definition isLookUp (ev : Event) : bool :=
  match ev with
  | EvLookUp _ _ => true
  | _ => false
  end.

(** The number of calls to the geocoder so far. *)
Definition lookup_calls (w : World) : nat :=
  List.length (List.filter isLookUp (trace w)).

(** The calls a handler makes whatever the state of the world and whatever
    the tags hold: reads of tags, stat, probe, search, save, log. *)
Definition isPlain (ev : Event) : bool :=
  match ev with
  | EvExifRead _ | EvStat _ | EvProbe _ | EvFindLivePhotoMatch _ _ _
  | EvSave _ | EvLog _ _ => true
  | _ => false
  end.

(** The rows after a [save], an [upsert] and an [update] that succeed. *)
Definition savedRows (p : AssetPartial.t) (w : World) : World :=
  {| assets := alter (merge_partial p) (AssetPartial.id p) (assets w);
     exifs := exifs w;
     isGeocodeInitialized := isGeocodeInitialized w;
     trace := trace w |}.

Definition upsertedRows (e : ExifEntity.t) (w : World) : World :=
  {| assets := assets w;
     exifs := <[ExifEntity.assetId e := e]> (exifs w);
     isGeocodeInitialized := isGeocodeInitialized w;
     trace := trace w |}.

Definition updatedRows (i : string) (ci st co : option string) (w : World) : World :=
  {| assets := assets w;
     exifs := alter (fun e => ExifEntity.set_place e co st ci) i (exifs w);
     isGeocodeInitialized := isGeocodeInitialized w;
     trace := trace w |}.

(** The place [reverseGeocodeExif] derives from a geocoder answer. *)
Definition placeOf (env : Env) (g : GeoData.t) (e : ExifEntity.t) : ExifEntity.t :=
  ExifEntity.set_place e (getName env (GeoData.countryCode g))
    (Some (state_of g)) (Some (GeoData.name g)).

(** The gate of place enrichment is closed in [w] for the record [e]. *)
Definition gateClosed (w : World) (e : ExifEntity.t) : Prop :=
  isGeocodeInitialized w = false
  \/ is_set Js.truthy_num (ExifEntity.latitude e) = false
  \/ is_set Js.truthy_num (ExifEntity.longitude e) = false.

(** The number of occurrences of a character in a string. *)
Fixpoint occurrences (sep : ascii) (s : string) : nat :=
  match s with
  | EmptyString => O
  | String c r => if Ascii.eqb c sep then S (occurrences sep r) else occurrences sep r
  end.

(** The number of capturing groups of a pattern. *)
Fixpoint groups_of (pat : list Regex.item) : nat :=
  match pat with
  | nil => O
  | Regex.Close :: pat' => S (groups_of pat')
  | _ :: pat' => groups_of pat'
  end.

(** The stored rows and the readiness flag of a world. *)
Definition rowsAre (a : gmap string AssetEntity.t) (x : gmap string ExifEntity.t)
    (ready : bool) (w : World) : Prop :=
  assets w = a /\ exifs w = x /\ isGeocodeInitialized w = ready.

(** The columns the still-image handler saves first (lines 178-181). *)
Definition createdAtPartial (env : Env) (job : IAssetUploadedJob) : AssetPartial.t :=
  {| AssetPartial.id := AssetEntity.id (asset job);
     AssetPartial.fileCreatedAt :=
       match resolveCreatedAt env (readTags env (asset job)) (asset job) with
       | Some (Some ms) => Some (Date_toISOString env ms)
       | _ => None
       end;
     AssetPartial.duration := None;
     AssetPartial.livePhotoVideoId := None;
     AssetPartial.isVisible := None |}.

(** The columns the video handler saves last (line 358). *)
Definition videoPartial (job : IAssetUploadedJob) (data : FfprobeData.t) : AssetPartial.t :=
  {| AssetPartial.id := AssetEntity.id (asset job);
     AssetPartial.fileCreatedAt :=
       Some (resolveVideoCreatedAt (asset job)
               (FfprobeFormat.tags (FfprobeData.format data)));
     AssetPartial.duration := Some (resolveDuration (asset job) data);
     AssetPartial.livePhotoVideoId := None;
     AssetPartial.isVisible := None |}.

(** What place enrichment makes of the record [t] when the readiness flag
    is [ready] and the geocoder, if asked, answers: [t] itself when the gate
    is closed, [t] with the place of the answer when it is open. *)
Definition enrichment (env : Env) (ready : bool) (t t' : ExifEntity.t) : Prop :=
  ((ready = false
    \/ is_set Js.truthy_num (ExifEntity.latitude t) = false
    \/ is_set Js.truthy_num (ExifEntity.longitude t) = false)
   /\ t' = t)
  \/ exists lat lon g,
       ready = true
       /\ ExifEntity.latitude t = Some lat /\ Js.truthy_num lat = true
       /\ ExifEntity.longitude t = Some lon /\ Js.truthy_num lon = true
       /\ geocoder_lookUp env lat lon = Some g
       /\ t' = placeOf env g t.

(** A file whose tags cannot be read and whose raster cannot be decoded. *)
Definition unreadableEnv : Env :=
  {| exiftool_read := fun _ => inl "File format not recognised";
     fs_statSync_size := fs_statSync_size Sample.env;
     path_parse_name := path_parse_name Sample.env;
     sharp_metadata := fun _ => inl "Input file contains unsupported image format";
     ffprobe := ffprobe Sample.env;
     geocoder_lookUp := geocoder_lookUp Sample.env;
     getName := getName Sample.env;
     Date_parse := Date_parse Sample.env;
     Date_toISOString := Date_toISOString Sample.env;
     repository_error := repository_error Sample.env |}.

(** A file whose creation date cannot be parsed. *)
Definition undatedEnv : Env :=
  {| exiftool_read := exiftool_read zeroEnv;
     fs_statSync_size := fs_statSync_size Sample.env;
     path_parse_name := path_parse_name Sample.env;
     sharp_metadata := sharp_metadata Sample.env;
     ffprobe := ffprobe Sample.env;
     geocoder_lookUp := geocoder_lookUp Sample.env;
     getName := getName Sample.env;
     Date_parse := fun _ => None;
     Date_toISOString := Date_toISOString Sample.env;
     repository_error := repository_error Sample.env |}.

(** A video that is not half of a live photo: the probe answers, and the
    tags carry no content identifier. *)
Definition plainVideo : FfprobeData.t :=
  {| FfprobeData.format :=
       {| FfprobeFormat.duration := Some (Js.of_decimal false 2533333 (-6));
          FfprobeFormat.size := Some (Js.of_Z 3145728);
          FfprobeFormat.tags :=
            Some {[ "com.apple.quicktime.location.ISO6709"
                      := inl "+37.3349-122.0090+024.000/" ]} |};
     FfprobeData.streams :=
       {| FfprobeStream.codec_type := Some "video";
          FfprobeStream.width := Some (Js.of_Z 1920);
          FfprobeStream.height := Some (Js.of_Z 1080);
          FfprobeStream.rotation := Some (inr (Js.of_Z (-90)));
          FfprobeStream.r_frame_rate := Some "30000/1001" |}
       :: nil |}.

Definition plainVideoEnv : Env :=
  {| exiftool_read := exiftool_read Sample.env;
     fs_statSync_size := fs_statSync_size Sample.env;
     path_parse_name := path_parse_name Sample.env;
     sharp_metadata := sharp_metadata Sample.env;
     ffprobe := fun _ => inr plainVideo;
     geocoder_lookUp := fun _ _ => Some cupertino;
     getName := fun _ => Some "United States of America";
     Date_parse := Date_parse Sample.env;
     Date_toISOString := Date_toISOString Sample.env;
     repository_error := repository_error Sample.env |}.

(** An asset repository that rejects the save that hides an asset. *)
Definition halfRejectingEnv : Env :=
  {| exiftool_read := exiftool_read Sample.env;
     fs_statSync_size := fs_statSync_size Sample.env;
     path_parse_name := path_parse_name Sample.env;
     sharp_metadata := sharp_metadata Sample.env;
     ffprobe := ffprobe Sample.env;
     geocoder_lookUp := geocoder_lookUp Sample.env;
     getName := getName Sample.env;
     Date_parse := Date_parse Sample.env;
     Date_toISOString := Date_toISOString Sample.env;
     repository_error := fun ev =>
       match ev with
       | EvSave p =>
           match AssetPartial.isVisible p with
           | Some false => Some "QueryFailedError: connection terminated"
           | _ => None
           end
       | _ => None
       end |}.

(** A video whose [location] tag holds three components. *)
Definition extraComponentEnv : Env :=
  {| exiftool_read := exiftool_read Sample.env;
     fs_statSync_size := fs_statSync_size Sample.env;
     path_parse_name := path_parse_name Sample.env;
     sharp_metadata := sharp_metadata Sample.env;
     ffprobe := fun _ =>
       inr {| FfprobeData.format :=
                {| FfprobeFormat.duration := Some (Js.of_Z 2);
                   FfprobeFormat.size := Some (Js.of_Z 3145728);
                   FfprobeFormat.tags := Some {[ "location" := inl "+1.0+2.0+3.0/" ]} |};
              FfprobeData.streams := nil |};
     geocoder_lookUp := geocoder_lookUp Sample.env;
     getName := getName Sample.env;
     Date_parse := Date_parse Sample.env;
     Date_toISOString := Date_toISOString Sample.env;
     repository_error := repository_error Sample.env |}.

(** A call of the still-image handler: an upsert stores the record of the
    tags, with a place or without, as the raster fallback leaves it. *)
Definition upsertsFilled (env : Env) (job : IAssetUploadedJob) (ev : Event) : Prop :=
  match ev with
  | EvUpsert e =>
      exists size t',
        placed (tagRecord env job size) t'
        /\ if needsRasterDecode t'
           then exists metadata,
                  sharp_metadata env (AssetEntity.originalPath (asset job)) = inr metadata
                  /\ e = fillFromRaster metadata t'
           else e = t'
  | _ => True
  end.

(** Jobs for the two sample assets, and the sample rows before the
    geocoder is ready. *)
Definition imageJob : IAssetUploadedJob :=
  {| asset := Sample.image; fileName := "img.heic" |}.

Definition videoJob : IAssetUploadedJob :=
  {| asset := Sample.video; fileName := "vid.mov" |}.

Definition notReadyWorld : World :=
  {| assets := assets Sample.world; exifs := exifs Sample.world;
     isGeocodeInitialized := false; trace := nil |}.

(** * Properties *)

(** ** Duration formatting *)

Lemma extractDuration_3661 : extractDuration (Js.of_Z 3661) = "1:01:01.000000".
Proof. vm_compute. reflexivity. Qed.

Lemma extractDuration_59 : extractDuration (Js.of_Z 59) = "0:00:59.000000".
Proof. vm_compute. reflexivity. Qed.

(** A fractional duration printed in plain decimal notation is truncated. *)
Lemma extractDuration_fraction :
  Js.toString (Js.of_decimal false 36617 (-1)) = "3661.7"
  /\ extractDuration (Js.of_decimal false 36617 (-1)) = "1:01:01.000000".
Proof. vm_compute. split; reflexivity. Qed.

(** C8, where the formatter departs from it. A number below 1e-6, or from
    1e21 on, is printed by [toString] in exponent notation, and [parseInt]
    then reads only the digits before the [e] or the point: half a
    microsecond is formatted as five seconds, and 1e21 seconds as one second,
    instead of the truncated value. The examples 3661 and 59 of the claim
    do hold ([extractDuration_3661], [extractDuration_59]). *)
Theorem extractDuration_exponent_notation :
  Js.toString (Js.of_decimal false 5 (-7)) = "5e-7"
  /\ Js.parseInt "5e-7" = Js.of_Z 5
  /\ extractDuration (Js.of_decimal false 5 (-7)) = "0:00:05.000000"
  /\ Js.toString (Js.of_decimal false 1 21) = "1e+21"
  /\ extractDuration (Js.of_decimal false 1 21) = "0:00:01.000000".
Proof. vm_compute. repeat split; reflexivity. Qed.

(** ** Reasoning about the handlers *)

Section Hoare.

Context {A B : Type}.
Implicit Types (P E : World -> Prop).

Lemma hoare_ret P (a : A) (Q : A -> World -> Prop) E :
  (forall w, P w -> Q a w) -> hoare P (ret a) Q E.
Proof. intros H w Hw. exact (H w Hw). Qed.

Lemma hoare_throw P e (Q : A -> World -> Prop) E :
  (forall w, P w -> E w) -> hoare P (throw e) Q E.
Proof. intros H w Hw. exact (H w Hw). Qed.

Lemma hoare_bind P (m : M A) (k : A -> M B) (R : A -> World -> Prop)
    (Q : B -> World -> Prop) E :
  hoare P m R E -> (forall a, hoare (R a) (k a) Q E) -> hoare P (bind m k) Q E.
Proof.
  intros Hm Hk w Hw. unfold bind. specialize (Hm w Hw).
  destruct (m w) as [[a|e] w']; [exact (Hk a w' Hm) | exact Hm].
Qed.

Lemma hoare_try_catch P (m : M A) (h : Error -> M A) (R : World -> Prop)
    (Q : A -> World -> Prop) E :
  hoare P m Q R -> (forall e, hoare R (h e) Q E) -> hoare P (try_catch m h) Q E.
Proof.
  intros Hm Hh w Hw. unfold try_catch. specialize (Hm w Hw).
  destruct (m w) as [[a|e] w']; [exact Hm | exact (Hh e w' Hm)].
Qed.

Lemma hoare_weaken P P' (m : M A) (Q Q' : A -> World -> Prop) E :
  hoare P' m Q' E -> (forall w, P w -> P' w) -> (forall a w, Q' a w -> Q a w) ->
  hoare P m Q E.
Proof.
  intros Hm HP HQ w Hw. specialize (Hm w (HP w Hw)).
  destruct (m w) as [[a|e] w']; [exact (HQ a w' Hm) | exact Hm].
Qed.

End Hoare.

Lemma hoare_assume {A} (P : World -> Prop) (F : Prop) (m : M A) Q E :
  (F -> hoare P m Q E) -> hoare (fun w => P w /\ F) m Q E.
Proof. intros H w [Hw HF]. exact (H HF w Hw). Qed.

Lemma hoare_throws {A} (P E : World -> Prop) (m : M A) w :
  hoare P m (fun _ _ => False) E -> P w ->
  exists err w1, m w = (Throw err, w1) /\ E w1.
Proof.
  intros Hm Hw. specialize (Hm w Hw). destruct (m w) as [[v|err] w1]; [contradiction|].
  exists err, w1. auto.
Qed.

Lemma hoare_returns {A} (P : World -> Prop) (Q : A -> World -> Prop) (m : M A) w :
  hoare P m Q (fun _ => False) -> P w ->
  exists v w1, m w = (Ok v, w1) /\ Q v w1.
Proof.
  intros Hm Hw. specialize (Hm w Hw). destruct (m w) as [[v|err] w1]; [|contradiction].
  exists v, w1. auto.
Qed.

Lemma emit_world ev w :
  emit ev w = (Ok tt, {| assets := assets w; exifs := exifs w;
                         isGeocodeInitialized := isGeocodeInitialized w;
                         trace := ev :: trace w |}).
Proof. reflexivity. Qed.

(** *** The calls a handler makes *)

(** The location step does not touch the world. *)
Lemma locationStep_pure videoTags newExif :
  (exists e, located videoTags newExif e)
  \/ (exists err, forall w, locationStep videoTags newExif w = (Throw err, w)).
Proof.
  unfold located, locationStep, parseLocation, bind, ret.
  destruct (videoTag videoTags "location") as [[text|n]|]; cbn.
  - left. destruct (coordinates 3 _) as [[lat lon]|]; eexists; intros w; reflexivity.
  - right. eexists. intros w. reflexivity.
  - destruct (videoTag videoTags ISO6709) as [[text|n]|]; cbn.
    + left. destruct (coordinates 4 _) as [[lat lon]|]; eexists; intros w; reflexivity.
    + right. eexists. intros w. reflexivity.
    + left. eexists. intros w. reflexivity.
Qed.

Lemma parseLocation_pure videoTags :
  (exists r, forall w, parseLocation videoTags w = (Ok r, w))
  \/ (exists err, forall w, parseLocation videoTags w = (Throw err, w)).
Proof.
  unfold parseLocation, bind, ret.
  destruct (videoTag videoTags "location") as [[text|n]|]; cbn.
  - left. eexists. intros w. reflexivity.
  - right. eexists. intros w. reflexivity.
  - destruct (videoTag videoTags ISO6709) as [[text|n]|]; cbn.
    + left. eexists. intros w. reflexivity.
    + right. eexists. intros w. reflexivity.
    + left. eexists. intros w. reflexivity.
Qed.

(** The location step writes the two coordinates the parse gives, or none. *)
Lemma located_coordinates videoTags newExif e w :
  located videoTags newExif e ->
  exists r,
    parseLocation videoTags w = (Ok r, w)
    /\ e = match r with
           | Some (lat, lon) => ExifEntity.set_location newExif (Some lat) (Some lon)
           | None => newExif
           end.
Proof.
  intros Hl. specialize (Hl w). unfold locationStep, bind in Hl.
  destruct (parseLocation_pure videoTags) as [[r Hr] | [err Herr]].
  - exists r. split; [apply Hr|]. rewrite (Hr w) in Hl.
    destruct r as [[lat lon]|]; unfold ret in Hl; congruence.
  - rewrite (Herr w) in Hl. discriminate Hl.
Qed.

Lemma scanStream_location newExif stream :
  ExifEntity.latitude (scanStream newExif stream) = ExifEntity.latitude newExif
  /\ ExifEntity.longitude (scanStream newExif stream) = ExifEntity.longitude newExif.
Proof.
  unfold scanStream. destruct (bool_decide _); [|split; reflexivity].
  destruct (streamFps _); split; reflexivity.
Qed.

Lemma scanStreams_location streams newExif :
  ExifEntity.latitude (scanStreams streams newExif) = ExifEntity.latitude newExif
  /\ ExifEntity.longitude (scanStreams streams newExif) = ExifEntity.longitude newExif.
Proof.
  revert newExif. induction streams as [|stream streams IH]; intros newExif.
  - split; reflexivity.
  - change (scanStreams (stream :: streams) newExif)
      with (scanStreams streams (scanStream newExif stream)).
    destruct (IH (scanStream newExif stream)) as [-> ->]. apply scanStream_location.
Qed.

Section Since.

Variable env : Env.
Variable t0 : list Event.
Variable ok : Event -> Prop.

(** Only the calls to the decoder and the upserts are constrained by [ok]. *)
Hypothesis ok_plain : forall ev, isSharp ev = false -> isUpsert ev = false -> ok ev.

Lemma since_emit ev :
  ok ev -> hoare (since t0 ok) (emit ev) (fun _ => since t0 ok) (since t0 ok).
Proof.
  intros Hev w (evs & Ht & Hok). cbn. exists (ev :: evs). split.
  - cbn. rewrite Ht. reflexivity.
  - constructor; assumption.
Qed.

Lemma since_log level msg :
  hoare (since t0 ok) (log level msg) (fun _ => since t0 ok) (since t0 ok).
Proof. apply since_emit, ok_plain; reflexivity. Qed.

Lemma since_call {A} ev (r : Error + A) :
  ok ev -> hoare (since t0 ok) (call ev r) (fun _ => since t0 ok) (since t0 ok).
Proof.
  intros Hev. unfold call.
  eapply hoare_bind; [exact (since_emit ev Hev)|].
  intros ?. destruct r; [apply hoare_throw | apply hoare_ret]; auto.
Qed.

Lemma since_call_value {A} ev (r : Error + A) :
  ok ev ->
  hoare (since t0 ok) (call ev r) (fun a w => since t0 ok w /\ r = inr a) (since t0 ok).
Proof.
  intros Hev. unfold call.
  eapply hoare_bind; [exact (since_emit ev Hev)|].
  intros ?. destruct r; [apply hoare_throw | apply hoare_ret]; auto.
Qed.

Lemma since_repository {A} ev (act : World -> A * World) :
  ok ev -> (forall w, trace (snd (act w)) = trace w) ->
  hoare (since t0 ok) (repository env ev act) (fun _ => since t0 ok) (since t0 ok).
Proof.
  intros Hev Hact. unfold repository.
  eapply hoare_bind; [exact (since_emit ev Hev)|].
  intros ?. destruct (repository_error env ev); [apply hoare_throw; auto|].
  intros w Hw. specialize (Hact w). destruct (act w) as [r w'].
  cbn in Hact. unfold since. rewrite Hact. exact Hw.
Qed.

Lemma since_save p :
  hoare (since t0 ok) (assetRepository_save env p) (fun _ => since t0 ok) (since t0 ok).
Proof. apply since_repository; [apply ok_plain|]; reflexivity. Qed.

Lemma since_find cid other ty :
  hoare (since t0 ok) (assetRepository_findLivePhotoMatch env cid other ty)
        (fun _ => since t0 ok) (since t0 ok).
Proof. apply since_repository; [apply ok_plain|]; reflexivity. Qed.

Lemma since_upsert e :
  ok (EvUpsert e) ->
  hoare (since t0 ok) (exifRepository_upsert env e) (fun _ => since t0 ok) (since t0 ok).
Proof. intros He. apply since_repository; [exact He | reflexivity]. Qed.

Lemma since_exiftool_read asset :
  hoare (since t0 ok) (exiftool_read_or_null env (AssetEntity.originalPath asset))
        (fun exifData w => since t0 ok w /\ exifData = readTags env asset)
        (since t0 ok).
Proof.
  unfold exiftool_read_or_null, readTags.
  eapply hoare_bind; [apply since_emit, ok_plain; reflexivity|].
  intros ?. destruct (exiftool_read env (AssetEntity.originalPath asset)).
  - eapply hoare_bind; [apply since_log|].
    intros ?. apply hoare_ret. auto.
  - apply hoare_ret. auto.
Qed.

Lemma since_toISOString d :
  hoare (since t0 ok) (toISOString_opt env d) (fun _ => since t0 ok) (since t0 ok).
Proof.
  unfold toISOString_opt.
  destruct d as [[ms|]|]; [apply hoare_ret | apply hoare_throw | apply hoare_ret]; auto.
Qed.

Lemma since_pairWithMotionAsset asset newExif :
  hoare (since t0 ok) (pairWithMotionAsset env asset newExif)
        (fun _ => since t0 ok) (since t0 ok).
Proof.
  unfold pairWithMotionAsset.
  destruct (ExifEntity.livePhotoCID newExif) as [cid|]; [|apply hoare_ret; auto].
  destruct (_ && _); [|apply hoare_ret; auto].
  eapply hoare_bind; [apply since_find|].
  intros [motionAsset|]; [|apply hoare_ret; auto].
  eapply hoare_bind; [apply since_save|]. intros ?. apply since_save.
Qed.

Lemma since_reverseGeocodeStep newExif :
  hoare (since t0 ok) (reverseGeocodeStep env newExif)
        (fun e w => since t0 ok w /\ placed newExif e)
        (since t0 ok).
Proof.
  unfold reverseGeocodeStep, placed.
  eapply hoare_bind with (R := fun _ => since t0 ok).
  { intros w Hw. exact Hw. }
  intros ready.
  destruct (_ && _); [|apply hoare_ret; auto].
  destruct (ExifEntity.latitude newExif) as [lat|]; [|apply hoare_ret; auto].
  destruct (ExifEntity.longitude newExif) as [lon|]; [|apply hoare_ret; auto].
  eapply hoare_bind with (R := fun _ => since t0 ok).
  { unfold reverseGeocodeExif.
    eapply hoare_bind; [apply since_emit, ok_plain; reflexivity|].
    intros ?. destruct (geocoder_lookUp env lat lon);
      [apply hoare_ret | apply hoare_throw]; auto. }
  intros [[country state] city]. apply hoare_ret. eauto 10.
Qed.

Lemma since_locationStep videoTags newExif :
  hoare (since t0 ok) (locationStep videoTags newExif)
        (fun e w => since t0 ok w /\ located videoTags newExif e)
        (since t0 ok).
Proof.
  intros w Hw.
  destruct (locationStep_pure videoTags newExif) as [[e He] | [err Herr]].
  - rewrite (He w). split; [exact Hw | exact He].
  - rewrite (Herr w). exact Hw.
Qed.

Lemma since_pairWithPhotoAsset asset newExif :
  hoare (since t0 ok) (pairWithPhotoAsset env asset newExif)
        (fun _ => since t0 ok) (since t0 ok).
Proof.
  unfold pairWithPhotoAsset.
  destruct (ExifEntity.livePhotoCID newExif) as [cid|]; [|apply hoare_ret; auto].
  destruct (Js.truthy_str cid); [|apply hoare_ret; auto].
  eapply hoare_bind; [apply since_find|].
  intros [photoAsset|]; [|apply hoare_ret; auto].
  eapply hoare_bind; [apply since_save|]. intros ?. apply since_save.
Qed.

End Since.

(** What the handler has called since [w], when it stops in [w']. *)
Lemma since_start ok w : since (trace w) ok w.
Proof. exists nil. split; [reflexivity | constructor]. Qed.

Lemma since_sharp_calls w w' :
  since (trace w) (fun ev => isSharp ev = false) w' -> sharp_calls w' = sharp_calls w.
Proof.
  intros (evs & Ht & Hok). unfold sharp_calls. rewrite Ht, List.filter_app.
  replace (List.filter isSharp evs) with (@nil Event); [reflexivity|].
  clear Ht. induction Hok as [|ev evs Hev _ IH]; [reflexivity|].
  cbn. rewrite Hev. exact IH.
Qed.

(** *** Dimensions and orientation *)

(** What the tags resolve is truthy, so the test [!x] of line 212 is the
    test [x === null] of lines 215 to 223. *)
Lemma or_null_truthy {A} (truthy : A -> bool) x :
  is_set truthy (Js.or_null truthy x) = bool_decide (is_Some (Js.or_null truthy x)).
Proof.
  destruct x as [v|]; cbn; [|reflexivity].
  destruct (truthy v) eqn:Hv; cbn; [rewrite Hv|]; reflexivity.
Qed.

Lemma or_else_truthy {A} (truthy : A -> bool) x y :
  is_set truthy (Js.or_else truthy x (Js.or_null truthy y))
  = bool_decide (is_Some (Js.or_else truthy x (Js.or_null truthy y))).
Proof.
  unfold Js.or_else. destruct x as [v|]; cbn; [|apply or_null_truthy].
  destruct (truthy v) eqn:Hv; cbn; [rewrite Hv; reflexivity | apply or_null_truthy].
Qed.

Lemma needsRasterDecode_fromTags env asset fileName exifData created modified size :
  needsRasterDecode (exifFromTags env asset fileName exifData created modified size)
  = negb (bool_decide (is_Some (heightFromTags exifData)))
    || negb (bool_decide (is_Some (widthFromTags exifData)))
    || negb (bool_decide (is_Some (orientationFromTags exifData))).
Proof.
  unfold needsRasterDecode. cbn [exifFromTags ExifEntity.exifImageHeight
    ExifEntity.exifImageWidth ExifEntity.orientation].
  unfold heightFromTags, widthFromTags, orientationFromTags.
  rewrite !or_else_truthy, or_null_truthy. reflexivity.
Qed.

Lemma needsRasterDecode_placed newExif e :
  placed newExif e -> needsRasterDecode e = needsRasterDecode newExif.
Proof. intros [-> | (country & state & city & ->)]; reflexivity. Qed.

Lemma fillFromRaster_fields metadata newExif :
  fillFromRaster metadata newExif
  = ExifEntity.set_orientation
      (ExifEntity.set_exifImageWidth
         (ExifEntity.set_exifImageHeight newExif
            (Js.nullish (ExifEntity.exifImageHeight newExif)
               (Js.or_null Js.truthy_num (SharpMetadata.height metadata))))
         (Js.nullish (ExifEntity.exifImageWidth newExif)
            (Js.or_null Js.truthy_num (SharpMetadata.width metadata))))
      (Js.nullish (ExifEntity.orientation newExif)
         (Js.toString <$> SharpMetadata.orientation metadata)).
Proof.
  destruct newExif as [? ? ? ? ? ? h wd ? o ? ? ? ? ? ? ? ? ? ? ? ? ?].
  destruct h, wd, o; reflexivity.
Qed.

Lemma completes_placed t e : placed t e -> completes t e.
Proof.
  intros [-> | (country & state & city & ->)].
  - exists (ExifEntity.country t), (ExifEntity.state t), (ExifEntity.city t),
      (ExifEntity.exifImageHeight t), (ExifEntity.exifImageWidth t),
      (ExifEntity.orientation t).
    destruct t as [? ? ? ? ? ? h wd ? o ? ? ? ? ? ? ? ? ? ? ? ? ?].
    destruct h, wd, o; reflexivity.
  - exists country, state, city,
      (ExifEntity.exifImageHeight t), (ExifEntity.exifImageWidth t),
      (ExifEntity.orientation t).
    destruct t as [? ? ? ? ? ? h wd ? o ? ? ? ? ? ? ? ? ? ? ? ? ?].
    destruct h, wd, o; reflexivity.
Qed.

Lemma completes_fillFromRaster metadata t e :
  placed t e -> completes t (fillFromRaster metadata e).
Proof.
  intros Hp. rewrite fillFromRaster_fields.
  destruct Hp as [-> | (country & state & city & ->)].
  - exists (ExifEntity.country t), (ExifEntity.state t), (ExifEntity.city t),
      (Js.or_null Js.truthy_num (SharpMetadata.height metadata)),
      (Js.or_null Js.truthy_num (SharpMetadata.width metadata)),
      (Js.toString <$> SharpMetadata.orientation metadata).
    destruct t as [? ? ? ? ? ? h wd ? o ? ? ? ? ? ? ? ? ? ? ? ? ?]. reflexivity.
  - exists country, state, city,
      (Js.or_null Js.truthy_num (SharpMetadata.height metadata)),
      (Js.or_null Js.truthy_num (SharpMetadata.width metadata)),
      (Js.toString <$> SharpMetadata.orientation metadata).
    destruct t as [? ? ? ? ? ? h wd ? o ? ? ? ? ? ? ? ? ? ? ? ? ?]. reflexivity.
Qed.

(** What a completed record keeps of the record of the tags. *)
Lemma completes_dimensions env job size e :
  completes (tagRecord env job size) e ->
  (forall v, heightFromTags (readTags env (asset job)) = Some v ->
             ExifEntity.exifImageHeight e = Some v)
  /\ (forall v, widthFromTags (readTags env (asset job)) = Some v ->
                ExifEntity.exifImageWidth e = Some v)
  /\ (forall v, orientationFromTags (readTags env (asset job)) = Some v ->
                ExifEntity.orientation e = Some v).
Proof.
  intros (country & state & city & h & wd & o & ->). cbn.
  repeat split; intros v ->; reflexivity.
Qed.

Lemma completes_scalars t e :
  completes t e ->
  ExifEntity.assetId e = ExifEntity.assetId t
  /\ ExifEntity.make e = ExifEntity.make t
  /\ ExifEntity.model e = ExifEntity.model t
  /\ ExifEntity.exposureTime e = ExifEntity.exposureTime t
  /\ ExifEntity.lensModel e = ExifEntity.lensModel t
  /\ ExifEntity.fNumber e = ExifEntity.fNumber t
  /\ ExifEntity.iso e = ExifEntity.iso t
  /\ ExifEntity.latitude e = ExifEntity.latitude t
  /\ ExifEntity.longitude e = ExifEntity.longitude t
  /\ ExifEntity.livePhotoCID e = ExifEntity.livePhotoCID t
  /\ ExifEntity.dateTimeOriginal e = ExifEntity.dateTimeOriginal t
  /\ ExifEntity.modifyDate e = ExifEntity.modifyDate t.
Proof.
  intros (country & state & city & h & wd & o & ->). cbn. repeat split.
Qed.

(** *** The still-image handler *)

(** With the three resolved from the tags, no call of a run is to the
    decoder. *)
Lemma extractExifInfo_no_decode env job t0 :
  is_Some (heightFromTags (readTags env (asset job))) ->
  is_Some (widthFromTags (readTags env (asset job))) ->
  is_Some (orientationFromTags (readTags env (asset job))) ->
  let quiet := since t0 (fun ev => isSharp ev = false) in
  hoare quiet (extractExifInfo env job) (fun _ => quiet) quiet.
Proof.
  intros Hh Hw Ho quiet. subst quiet.
  assert (forall ev, isSharp ev = false -> isUpsert ev = false -> isSharp ev = false)
    as Hplain by auto.
  unfold extractExifInfo. cbv zeta.
  eapply hoare_try_catch; [|intros e; apply since_log, Hplain].
  eapply hoare_bind; [apply since_exiftool_read, Hplain|].
  intros ?. apply hoare_assume. intros ->.
  eapply hoare_bind; [apply since_call; reflexivity|]. intros size.
  eapply hoare_bind; [apply since_toISOString|]. intros iso.
  eapply hoare_bind; [apply since_save, Hplain|]. intros ?.
  eapply hoare_bind; [apply since_pairWithMotionAsset, Hplain|]. intros ?.
  eapply hoare_bind; [apply since_reverseGeocodeStep, Hplain|]. intros e.
  apply hoare_assume. intros Hplaced.
  unfold rasterFallback.
  rewrite (needsRasterDecode_placed _ _ Hplaced), needsRasterDecode_fromTags.
  rewrite !bool_decide_eq_true_2 by assumption. cbn [negb orb].
  eapply hoare_bind; [apply hoare_ret; intros w Hd; exact Hd|]. intros ?.
  apply since_upsert. reflexivity.
Qed.

(** Every record a run upserts is the record of the tags, completed. *)
Lemma extractExifInfo_upserts env job t0 :
  let tagged := since t0 (upsertsTagRecord env job) in
  hoare tagged (extractExifInfo env job) (fun _ => tagged) tagged.
Proof.
  intros tagged. subst tagged.
  assert (forall ev, isSharp ev = false -> isUpsert ev = false ->
                     upsertsTagRecord env job ev) as Hplain.
  { intros [] _ Hu; try exact I. discriminate Hu. }
  unfold extractExifInfo. cbv zeta.
  eapply hoare_try_catch; [|intros e; apply since_log, Hplain].
  eapply hoare_bind; [apply since_exiftool_read, Hplain|].
  intros ?. apply hoare_assume. intros ->.
  eapply hoare_bind; [apply since_call; exact I|]. intros size.
  fold (tagRecord env job size).
  eapply hoare_bind; [apply since_toISOString|]. intros iso.
  eapply hoare_bind; [apply since_save, Hplain|]. intros ?.
  eapply hoare_bind; [apply since_pairWithMotionAsset, Hplain|]. intros ?.
  eapply hoare_bind; [apply since_reverseGeocodeStep, Hplain|]. intros e.
  apply hoare_assume. intros Hplaced.
  unfold rasterFallback. destruct (needsRasterDecode e).
  - eapply hoare_bind.
    { eapply hoare_bind; [apply since_call; exact I|].
      intros metadata. apply hoare_ret with
        (Q := fun e' w => since t0 (upsertsTagRecord env job) w
                          /\ completes (tagRecord env job size) e').
      intros w Hw. split; [exact Hw | apply completes_fillFromRaster, Hplaced]. }
    intros e'. apply hoare_assume. intros He'.
    apply since_upsert. exists size. exact He'.
  - eapply hoare_bind with
      (R := fun e' w => since t0 (upsertsTagRecord env job) w /\ e' = e).
    { apply hoare_ret. auto. }
    intros e'. apply hoare_assume. intros ->.
    apply since_upsert. exists size. apply completes_placed, Hplaced.
Qed.

Lemma extractExifInfo_upserted env job w :
  exists evs,
    trace (snd (extractExifInfo env job w)) = (evs ++ trace w)%list
    /\ forall e, In (EvUpsert e) evs -> exists size, completes (tagRecord env job size) e.
Proof.
  pose proof (extractExifInfo_upserts env job (trace w) w (since_start _ w)) as H.
  destruct (extractExifInfo env job w) as [[[]|err] w']; cbn;
    destruct H as (evs & Ht & Hok); exists evs; (split; [exact Ht|]);
    intros e He; rewrite List.Forall_forall in Hok; exact (Hok _ He).
Qed.

(** *** The video handler *)

(** Every record a run of the video handler upserts is the starting record
    taken through the location step, place enrichment and the stream scan. *)
Lemma extractVideoMetadata_upserts env job t0 :
  let scanned := since t0 (upsertsVideoRecord env job) in
  hoare scanned (extractVideoMetadata env job) (fun _ => scanned) scanned.
Proof.
  intros scanned. subst scanned.
  assert (forall ev, isSharp ev = false -> isUpsert ev = false ->
                     upsertsVideoRecord env job ev) as Hplain.
  { intros [] _ Hu; try exact I. discriminate Hu. }
  unfold extractVideoMetadata. cbv zeta.
  destruct (negb _); [apply hoare_ret; auto|].
  eapply hoare_try_catch; [|intros e; apply since_log, Hplain].
  eapply hoare_bind; [apply since_call_value; exact I|]. intros data.
  apply hoare_assume. intros Hprobe.
  eapply hoare_bind; [apply since_exiftool_read, Hplain|].
  intros ?. apply hoare_assume. intros ->.
  fold (videoStart env job data).
  eapply hoare_bind; [apply since_pairWithPhotoAsset, Hplain|]. intros ?.
  eapply hoare_bind; [apply since_locationStep|]. intros e1.
  apply hoare_assume. intros Hlocated.
  eapply hoare_bind; [apply since_reverseGeocodeStep, Hplain|]. intros e2.
  apply hoare_assume. intros Hplaced.
  eapply hoare_bind; [|intros ?; apply since_save, Hplain].
  apply since_upsert. exists data, e1, e2. auto.
Qed.

Lemma extractVideoMetadata_upserted env job w :
  exists evs,
    trace (snd (extractVideoMetadata env job w)) = (evs ++ trace w)%list
    /\ forall e, In (EvUpsert e) evs -> upsertsVideoRecord env job (EvUpsert e).
Proof.
  pose proof (extractVideoMetadata_upserts env job (trace w) w (since_start _ w)) as H.
  destruct (extractVideoMetadata env job w) as [[[]|err] w']; cbn;
    destruct H as (evs & Ht & Hok); exists evs; (split; [exact Ht|]);
    intros e He; rewrite List.Forall_forall in Hok; exact (Hok _ He).
Qed.

(** What the stored record of a video keeps of its starting record. *)
Lemma placed_fields newExif e :
  placed newExif e ->
  ExifEntity.latitude e = ExifEntity.latitude newExif
  /\ ExifEntity.longitude e = ExifEntity.longitude newExif
  /\ ExifEntity.exifImageWidth e = ExifEntity.exifImageWidth newExif
  /\ ExifEntity.exifImageHeight e = ExifEntity.exifImageHeight newExif
  /\ ExifEntity.orientation e = ExifEntity.orientation newExif
  /\ ExifEntity.fps e = ExifEntity.fps newExif.
Proof. intros [-> | (country & state & city & ->)]; repeat split. Qed.

Lemma located_fields videoTags newExif e :
  located videoTags newExif e ->
  ExifEntity.exifImageWidth e = ExifEntity.exifImageWidth newExif
  /\ ExifEntity.exifImageHeight e = ExifEntity.exifImageHeight newExif
  /\ ExifEntity.orientation e = ExifEntity.orientation newExif
  /\ ExifEntity.fps e = ExifEntity.fps newExif.
Proof.
  intros Hl.
  destruct (located_coordinates videoTags newExif e
              {| assets := ∅; exifs := ∅; isGeocodeInitialized := false; trace := nil |} Hl)
    as (r & _ & ->).
  destruct r as [[lat lon]|]; repeat split.
Qed.

(** The coordinates of a stored video record are those the parse gives. *)
Lemma video_upsert_location env job e :
  upsertsVideoRecord env job (EvUpsert e) ->
  exists data,
    ffprobe env (AssetEntity.originalPath (asset job)) = inr data
    /\ forall w, exists r,
         parseLocation (FfprobeFormat.tags (FfprobeData.format data)) w = (Ok r, w)
         /\ ExifEntity.latitude e = fst <$> r
         /\ ExifEntity.longitude e = snd <$> r.
Proof.
  intros (data & e1 & e2 & Hprobe & Hlocated & Hplaced & ->).
  exists data. split; [exact Hprobe|]. intros w.
  destruct (located_coordinates _ _ _ w Hlocated) as (r & Hr & He1).
  exists r. split; [exact Hr|].
  destruct (scanStreams_location (FfprobeData.streams data) e2) as [-> ->].
  destruct (placed_fields _ _ Hplaced) as (-> & -> & _).
  subst e1. destruct r as [[lat lon]|]; split; reflexivity.
Qed.

(** ** Location parsing *)

Lemma exec_suffix (pat : list Regex.item) (p s : string) :
  is_Some (Regex.exec pat s) -> is_Some (Regex.exec pat (p ++ s)).
Proof.
  intros Hs. induction p as [|c p IH]; [exact Hs|].
  change (String c p ++ s)%string with (String c (p ++ s)).
  cbn [Regex.exec].
  destruct (Regex.match_here pat (String c (p ++ s)) (String c (p ++ s)) nil)
    as [[caps rest]|]; [eexists; reflexivity | exact IH].
Qed.

Lemma match_here_groups pat : forall s opened caps gs rest,
  Regex.match_here pat s opened caps = Some (gs, rest) ->
  List.length gs = (List.length caps + groups_of pat)%nat.
Proof.
  induction pat as [|[p|p| | |] pat IH]; intros s opened caps gs rest; cbn [Regex.match_here groups_of].
  - intros [= <- _]. rewrite length_rev. lia.
  - destruct s as [|c r]; [discriminate|]. destruct (p c); [apply IH | discriminate].
  - induction s as [|c r IHs]; [discriminate|].
    destruct (p c); [|discriminate].
    match goal with |- context [match ?m with Some _ => _ | None => _ end] =>
      destruct m as [res|] end.
    + exact IHs.
    + apply IH.
  - apply IH.
  - intros H. apply IH in H. cbn [List.length] in H. lia.
  - destruct s; [apply IH | discriminate].
Qed.

Lemma exec_groups pat s gs :
  Regex.exec pat s = Some gs -> List.length gs = S (groups_of pat).
Proof.
  induction s as [|c r IH]; cbn [Regex.exec];
    match goal with |- context [Regex.match_here ?a ?b ?c ?d] =>
      destruct (Regex.match_here a b c d) as [[caps rest]|] eqn:Hm end;
    try discriminate; try exact IH;
    intros [= <-]; cbn [List.length]; f_equal;
    apply (match_here_groups _ _ _ _ _ _ Hm).
Qed.

Lemma videoTag_lookup (tags : gmap string (string + Js.number)) key text :
  tags !! key = Some (inl text) -> text <> "" ->
  videoTag (Some tags) key = Some (inl text).
Proof.
  intros Hk Hne. unfold videoTag. cbn. rewrite Hk. cbn.
  destruct text; [contradiction | reflexivity].
Qed.

(** The length test of [coordinates] never rejects a match. *)
Lemma coordinates_of_match pat text :
  coordinates (S (groups_of pat)) (Regex.exec pat text)
  = (fun groups => (Js.parseFloat (nth 1 groups ""), Js.parseFloat (nth 2 groups "")))
      <$> Regex.exec pat text.
Proof.
  destruct (Regex.exec pat text) as [groups|] eqn:Hm; [|reflexivity].
  unfold coordinates. rewrite (exec_groups _ _ _ Hm), Nat.eqb_refl. reflexivity.
Qed.

(** C6 as stated fails: a text with the wrong number of components is not
    always rejected. Three components in the [location] tag, and four in
    the ISO6709 tag, match on their last two and three components: the
    parse gives latitude 2 and longitude 3, and a run of the handler stores
    them. *)
Lemma extra_component_is_parsed :
  let w := snd (extractVideoMetadata extraComponentEnv videoJob notReadyWorld) in
  parseLocation (Some {[ "location" := inl "+1.0+2.0+3.0/" ]}) Sample.world
  = (Ok (Some (Js.of_Z 2, Js.of_Z 3)), Sample.world)
  /\ parseLocation (Some {[ ISO6709 := inl "+1.0+2.0+3.0+4.0/" ]}) Sample.world
     = (Ok (Some (Js.of_Z 2, Js.of_Z 3)), Sample.world)
  /\ Regex.exec locationRegex "+1.0+2.0+3.0/"
     = Some ("+2.0+3.0/" :: "+2.0" :: "+3.0" :: nil)
  /\ (exifs w !! "vid") ≫= ExifEntity.latitude = Some (Js.of_Z 2)
  /\ (exifs w !! "vid") ≫= ExifEntity.longitude = Some (Js.of_Z 3).
Proof. vm_compute. repeat split; reflexivity. Qed.

(** C6, amended. The [location] tag is only ever matched against the
    two-component expression and the ISO6709 tag only against the
    three-component one: once the [location] tag is present the ISO6709 tag
    is not consulted, whatever it holds and whether or not the match
    succeeds. The two texts of the specification give latitude 37.3349 and
    longitude -122.009. A text gives a position exactly when its end
    matches the expression of its tag: the test on the length of the match
    never rejects a match, so a text with too few components, or without
    the final [/], gives none, while a text with more components than
    expected still gives the position read from its last components, as
    does any text put before a text that gives one. Latitude and longitude
    are written together or not at all: after the step both are as before
    or both are set, and whatever a run of the handler upserts has both
    coordinates of the parse or neither. *)
Theorem parseLocation_spec :
  (forall (tags : gmap string (string + Js.number)) text other w,
      tags !! "location" = Some (inl text) -> text <> "" ->
      parseLocation (Some (<[ISO6709 := other]> tags)) w
      = (Ok (coordinates 3 (Regex.exec locationRegex text)), w))
  /\ (forall (tags : gmap string (string + Js.number)) text w,
      videoTag (Some tags) "location" = None ->
      tags !! ISO6709 = Some (inl text) -> text <> "" ->
      parseLocation (Some tags) w
      = (Ok (coordinates 4 (Regex.exec locationRegexISO6709 text)), w))
  /\ (forall w,
      parseLocation (Some {[ "location" := inl "+37.3349-122.0090/" ]}) w
      = (Ok (Some (Js.of_decimal false 373349 (-4), Js.of_decimal true 122009 (-3))), w))
  /\ (forall w,
      parseLocation (Some {[ ISO6709 := inl "+37.3349-122.0090+024.000/" ]}) w
      = (Ok (Some (Js.of_decimal false 373349 (-4), Js.of_decimal true 122009 (-3))), w))
  /\ (forall w,
      parseLocation (Some {[ "location" := inl "+37.3349/" ]}) w = (Ok None, w)
      /\ parseLocation (Some {[ ISO6709 := inl "+37.3349-122.0090/" ]}) w = (Ok None, w)
      /\ parseLocation (Some {[ "location" := inl "+37.3349-122.0090" ]}) w = (Ok None, w)
      /\ parseLocation (Some (<["location" := inl "37.3349,-122.0090"]>
                                {[ ISO6709 := inl "+37.3349-122.0090+024.000/" ]})) w
         = (Ok None, w))
  /\ (forall text,
      coordinates 3 (Regex.exec locationRegex text)
      = (fun groups => (Js.parseFloat (nth 1 groups ""), Js.parseFloat (nth 2 groups "")))
          <$> Regex.exec locationRegex text)
  /\ (forall text,
      coordinates 4 (Regex.exec locationRegexISO6709 text)
      = (fun groups => (Js.parseFloat (nth 1 groups ""), Js.parseFloat (nth 2 groups "")))
          <$> Regex.exec locationRegexISO6709 text)
  /\ (forall before text,
      (is_Some (coordinates 3 (Regex.exec locationRegex text)) ->
       is_Some (coordinates 3 (Regex.exec locationRegex (before ++ text))))
      /\ (is_Some (coordinates 4 (Regex.exec locationRegexISO6709 text)) ->
          is_Some (coordinates 4 (Regex.exec locationRegexISO6709 (before ++ text)))))
  /\ (forall videoTags newExif w,
      match locationStep videoTags newExif w with
      | (Ok e, w') =>
          w' = w
          /\ ((ExifEntity.latitude e = ExifEntity.latitude newExif
               /\ ExifEntity.longitude e = ExifEntity.longitude newExif)
              \/ (is_Some (ExifEntity.latitude e) /\ is_Some (ExifEntity.longitude e)))
      | (Throw _, w') => w' = w
      end)
  /\ (forall env job w, exists evs,
      trace (snd (extractVideoMetadata env job w)) = (evs ++ trace w)%list
      /\ forall e, In (EvUpsert e) evs ->
         exists data,
           ffprobe env (AssetEntity.originalPath (asset job)) = inr data
           /\ forall w0, exists r,
                parseLocation (FfprobeFormat.tags (FfprobeData.format data)) w0 = (Ok r, w0)
                /\ ExifEntity.latitude e = fst <$> r
                /\ ExifEntity.longitude e = snd <$> r).
Proof.
  split; [|split; [|split; [|split; [|split; [|split; [|split; [|split; [|split]]]]]]]].
  - intros tags text other w Hk Hne. unfold parseLocation.
    rewrite (videoTag_lookup _ "location" text); [reflexivity| |exact Hne].
    rewrite lookup_insert_ne; [exact Hk | discriminate].
  - intros tags text w Hloc Hk Hne. unfold parseLocation. rewrite Hloc.
    rewrite (videoTag_lookup _ ISO6709 text Hk Hne). reflexivity.
  - intros w. vm_compute. reflexivity.
  - intros w. vm_compute. reflexivity.
  - intros w. vm_compute. repeat split; reflexivity.
  - intros text. exact (coordinates_of_match locationRegex text).
  - intros text. exact (coordinates_of_match locationRegexISO6709 text).
  - intros before text.
    pose proof (coordinates_of_match locationRegex) as H3.
    pose proof (coordinates_of_match locationRegexISO6709) as H4.
    change (S (groups_of locationRegex)) with 3%nat in H3.
    change (S (groups_of locationRegexISO6709)) with 4%nat in H4.
    rewrite !H3, !H4, !fmap_is_Some. split; apply exec_suffix.
  - intros videoTags newExif w. unfold locationStep, parseLocation, bind, ret.
    destruct (videoTag videoTags "location") as [[text|n]|]; cbn.
    + destruct (coordinates 3 _) as [[lat lon]|]; cbn;
        (split; [reflexivity|]); [right; split; eexists; reflexivity | left; split; reflexivity].
    + reflexivity.
    + destruct (videoTag videoTags "com.apple.quicktime.location.ISO6709") as [[text|n]|]; cbn.
      * destruct (coordinates 4 _) as [[lat lon]|]; cbn;
          (split; [reflexivity|]); [right; split; eexists; reflexivity | left; split; reflexivity].
      * reflexivity.
      * split; [reflexivity | left; split; reflexivity].
  - intros env job w.
    destruct (extractVideoMetadata_upserted env job w) as (evs & Ht & Hup).
    exists evs. split; [exact Ht|]. intros e He.
    apply video_upsert_location, Hup, He.
Qed.

Lemma parseLocation_spec_witness :
  parseLocation
    (Some (<[ISO6709 := inl "+37.3349-122.0090+024.000/"]>
             {[ "location" := inl "no position" ]})) Sample.world
  = (Ok (coordinates 3 (Regex.exec locationRegex "no position")), Sample.world).
Proof.
  apply (proj1 parseLocation_spec {[ "location" := inl "no position" ]} "no position").
  - reflexivity.
  - discriminate.
Defined.

(** C10. Both expressions are anchored at the end only, so a parse that
    succeeds on a text succeeds on it after any leading characters. A
    three-component ISO6709 text held by the [location] tag does not match
    from its start, yet the parse succeeds on its last two components
    (longitude and altitude are taken for latitude and longitude); leading
    characters before a two-component text are skipped. *)
Theorem location_regex_end_anchored :
  (forall pat p s, is_Some (Regex.exec pat s) -> is_Some (Regex.exec pat (p ++ s)))
  /\ Regex.match_here locationRegex "+37.3349-122.0090+024.000/"
       "+37.3349-122.0090+024.000/" nil = None
  /\ Regex.exec locationRegex "+37.3349-122.0090+024.000/"
     = Some ("-122.0090+024.000/" :: "-122.0090" :: "+024.000" :: nil)
  /\ (forall w,
      parseLocation (Some {[ "location" := inl "+37.3349-122.0090+024.000/" ]}) w
      = (Ok (Some (Js.of_decimal true 122009 (-3), Js.of_Z 24)), w))
  /\ Regex.match_here locationRegex "xyz+37.3349-122.0090/" "xyz+37.3349-122.0090/" nil
     = None
  /\ (forall w,
      parseLocation (Some {[ "location" := inl "xyz+37.3349-122.0090/" ]}) w
      = (Ok (Some (Js.of_decimal false 373349 (-4), Js.of_decimal true 122009 (-3))), w))
  /\ (forall w,
      parseLocation (Some {[ ISO6709 := inl "+1.0+37.3349-122.0090+024.000/" ]}) w
      = (Ok (Some (Js.of_decimal false 373349 (-4), Js.of_decimal true 122009 (-3))), w)).
Proof.
  split; [exact exec_suffix|].
  repeat split; intros; vm_compute; reflexivity.
Qed.

Lemma location_regex_end_anchored_witness :
  is_Some (Regex.exec locationRegex ("lat/lon " ++ "+37.3349-122.0090/")).
Proof.
  apply (proj1 location_regex_end_anchored locationRegex "lat/lon " "+37.3349-122.0090/").
  vm_compute. eexists; reflexivity.
Defined.

(** ** The stream scan of the video extractor *)

Lemma scanStreams_snoc streams stream newExif :
  scanStreams (streams ++ stream :: nil) newExif
  = scanStream (scanStreams streams newExif) stream.
Proof. unfold scanStreams. rewrite fold_left_app. reflexivity. Qed.

Lemma scanStream_other stream newExif :
  isVideoStream stream = false -> scanStream newExif stream = newExif.
Proof. unfold scanStream, isVideoStream. intros ->. reflexivity. Qed.

Lemma scanStream_video stream newExif :
  isVideoStream stream = true ->
  let e := scanStream newExif stream in
  ExifEntity.exifImageWidth e = Js.or_null Js.truthy_num (FfprobeStream.width stream)
  /\ ExifEntity.exifImageHeight e = Js.or_null Js.truthy_num (FfprobeStream.height stream)
  /\ ExifEntity.orientation e = streamOrientation (FfprobeStream.rotation stream)
  /\ ExifEntity.fps e
     = match streamFps (FfprobeStream.r_frame_rate stream) with
       | Some fps => Some fps
       | None => ExifEntity.fps newExif
       end.
Proof.
  unfold scanStream, isVideoStream. intros ->.
  destruct (streamFps (FfprobeStream.r_frame_rate stream)); cbn; repeat split; reflexivity.
Qed.

Lemma scanStreams_last_video streams newExif :
  let e := scanStreams streams newExif in
  match last (List.filter isVideoStream streams) with
  | Some stream =>
      ExifEntity.exifImageWidth e = Js.or_null Js.truthy_num (FfprobeStream.width stream)
      /\ ExifEntity.exifImageHeight e = Js.or_null Js.truthy_num (FfprobeStream.height stream)
      /\ ExifEntity.orientation e = streamOrientation (FfprobeStream.rotation stream)
  | None => e = newExif
  end.
Proof.
  induction streams as [|stream streams IH] using rev_ind; [reflexivity|].
  cbn zeta in *. rewrite scanStreams_snoc, List.filter_app. cbn [List.filter].
  destruct (isVideoStream stream) eqn:Hv.
  - rewrite last_snoc.
    destruct (scanStream_video stream (scanStreams streams newExif) Hv) as (Hw & Hh & Ho & _).
    auto.
  - rewrite app_nil_r, (scanStream_other _ _ Hv). exact IH.
Qed.

Lemma scanStreams_fps streams newExif :
  ExifEntity.fps (scanStreams streams newExif)
  = match last (omap videoStreamFps streams) with
    | Some fps => Some fps
    | None => ExifEntity.fps newExif
    end.
Proof.
  induction streams as [|stream streams IH] using rev_ind; [reflexivity|].
  rewrite scanStreams_snoc, omap_app. cbn [omap list_omap]. unfold videoStreamFps at 2.
  destruct (isVideoStream stream) eqn:Hv.
  - destruct (scanStream_video stream (scanStreams streams newExif) Hv) as (_ & _ & _ & ->).
    destruct (streamFps (FfprobeStream.r_frame_rate stream)) as [fps|].
    + rewrite last_snoc. reflexivity.
    + rewrite app_nil_r. exact IH.
  - rewrite app_nil_r, (scanStream_other _ _ Hv). exact IH.
Qed.

Lemma split_no_separator sep s :
  no_separator sep s = true -> Js.split sep s = s :: nil.
Proof.
  induction s as [|c r IH]; [reflexivity|]. cbn [no_separator Js.split].
  destruct (Ascii.eqb c sep); [discriminate|]. cbn [negb andb]. intros H.
  rewrite (IH H). reflexivity.
Qed.

Lemma split_at_separator sep a b :
  no_separator sep a = true ->
  Js.split sep (a ++ String sep b) = a :: Js.split sep b.
Proof.
  induction a as [|c r IH]; simpl.
  - intros _. rewrite Ascii.eqb_refl. reflexivity.
  - destruct (Ascii.eqb c sep); [discriminate|]. simpl. intros H.
    rewrite (IH H). reflexivity.
Qed.

Lemma streamFps_two_parts a b :
  no_separator "/" a = true -> no_separator "/" b = true ->
  streamFps (Some (a ++ "/" ++ b))
  = Some (Js.Math_round (Js.div (Js.parseInt a) (Js.parseInt b))).
Proof.
  intros Ha Hb. unfold streamFps.
  change (a ++ "/" ++ b)%string with (a ++ String "/" b)%string.
  rewrite (split_at_separator _ _ _ Ha), (split_no_separator _ _ Hb).
  destruct a; reflexivity.
Qed.

Lemma streamFps_one_part rate :
  no_separator "/" rate = true -> streamFps (Some rate) = None.
Proof.
  intros H. unfold streamFps. rewrite (split_no_separator _ _ H).
  destruct rate; reflexivity.
Qed.

(** The dimensions, orientation and frame rate of a stored video record are
    those of the scan of the probed streams from a record that has none. *)
Lemma video_upsert_streams env job e :
  upsertsVideoRecord env job (EvUpsert e) ->
  exists data,
    ffprobe env (AssetEntity.originalPath (asset job)) = inr data
    /\ match last (List.filter isVideoStream (FfprobeData.streams data)) with
       | Some stream =>
           ExifEntity.exifImageWidth e = Js.or_null Js.truthy_num (FfprobeStream.width stream)
           /\ ExifEntity.exifImageHeight e
              = Js.or_null Js.truthy_num (FfprobeStream.height stream)
           /\ ExifEntity.orientation e = streamOrientation (FfprobeStream.rotation stream)
       | None =>
           ExifEntity.exifImageWidth e = None
           /\ ExifEntity.exifImageHeight e = None
           /\ ExifEntity.orientation e = None
       end
    /\ ExifEntity.fps e = last (omap videoStreamFps (FfprobeData.streams data)).
Proof.
  intros (data & e1 & e2 & Hprobe & Hlocated & Hplaced & ->).
  exists data. split; [exact Hprobe|].
  destruct (placed_fields _ _ Hplaced) as (_ & _ & Hw2 & Hh2 & Ho2 & Hf2).
  destruct (located_fields _ _ _ Hlocated) as (Hw1 & Hh1 & Ho1 & Hf1).
  pose proof (scanStreams_last_video (FfprobeData.streams data) e2) as Hscan.
  cbv zeta in Hscan. split.
  - destruct (last (List.filter isVideoStream (FfprobeData.streams data))).
    + exact Hscan.
    + rewrite Hscan, Hw2, Hh2, Ho2, Hw1, Hh1, Ho1. repeat split.
  - rewrite scanStreams_fps, Hf2, Hf1.
    destruct (last (omap videoStreamFps (FfprobeData.streams data))); reflexivity.
Qed.

(** C7. After the scan of any list of streams, width, height and orientation
    are those of the last stream whose type is [video] (a number as rotation
    is printed, an absent rotation gives null), and nothing is changed when
    there is none. The frame rate is the rounded ratio of the two parts of
    the rate of the last video stream that has two: 30000/1001 gives 30,
    25/1 gives 25, and a rate without separator sets nothing. Whatever a
    run of the handler upserts has the dimensions, orientation and frame
    rate of the scan of the probed streams. *)
Theorem scanStreams_spec :
  (forall streams newExif,
      let e := scanStreams streams newExif in
      match last (List.filter isVideoStream streams) with
      | Some stream =>
          ExifEntity.exifImageWidth e = Js.or_null Js.truthy_num (FfprobeStream.width stream)
          /\ ExifEntity.exifImageHeight e
             = Js.or_null Js.truthy_num (FfprobeStream.height stream)
          /\ ExifEntity.orientation e
             = match FfprobeStream.rotation stream with
               | Some (inl s) => Some s
               | Some (inr n) => Some (Js.toString n)
               | None => None
               end
      | None => e = newExif
      end)
  /\ (forall streams newExif,
      ExifEntity.fps (scanStreams streams newExif)
      = match last (omap videoStreamFps streams) with
        | Some fps => Some fps
        | None => ExifEntity.fps newExif
        end)
  /\ (forall a b,
      no_separator "/" a = true -> no_separator "/" b = true ->
      streamFps (Some (a ++ "/" ++ b))
      = Some (Js.Math_round (Js.div (Js.parseInt a) (Js.parseInt b))))
  /\ (forall rate, no_separator "/" rate = true -> streamFps (Some rate) = None)
  /\ streamFps (Some "30000/1001") = Some (Js.of_Z 30)
  /\ streamFps (Some "25/1") = Some (Js.of_Z 25)
  /\ streamFps (Some "30") = None
  /\ (forall newExif width height rotation,
      ExifEntity.fps
        (scanStreams (FfprobeStream.mk (Some "video") width height rotation (Some "30") :: nil)
                     newExif)
      = ExifEntity.fps newExif)
  /\ (forall env job w, exists evs,
      trace (snd (extractVideoMetadata env job w)) = (evs ++ trace w)%list
      /\ forall e, In (EvUpsert e) evs ->
         exists data,
           ffprobe env (AssetEntity.originalPath (asset job)) = inr data
           /\ match last (List.filter isVideoStream (FfprobeData.streams data)) with
              | Some stream =>
                  ExifEntity.exifImageWidth e
                  = Js.or_null Js.truthy_num (FfprobeStream.width stream)
                  /\ ExifEntity.exifImageHeight e
                     = Js.or_null Js.truthy_num (FfprobeStream.height stream)
                  /\ ExifEntity.orientation e
                     = streamOrientation (FfprobeStream.rotation stream)
              | None =>
                  ExifEntity.exifImageWidth e = None
                  /\ ExifEntity.exifImageHeight e = None
                  /\ ExifEntity.orientation e = None
              end
           /\ ExifEntity.fps e = last (omap videoStreamFps (FfprobeData.streams data))).
Proof.
  split; [exact scanStreams_last_video|].
  split; [exact scanStreams_fps|].
  split; [exact streamFps_two_parts|].
  split; [exact streamFps_one_part|].
  do 3 (split; [vm_compute; reflexivity|]).
  split; [intros; vm_compute; reflexivity|].
  intros env job w.
  destruct (extractVideoMetadata_upserted env job w) as (evs & Ht & Hup).
  exists evs. split; [exact Ht|]. intros e He.
  apply video_upsert_streams, Hup, He.
Qed.

Lemma scanStreams_spec_witness :
  streamFps (Some ("24000" ++ "/" ++ "1001"))
  = Some (Js.Math_round (Js.div (Js.parseInt "24000") (Js.parseInt "1001"))).
Proof.
  apply (proj1 (proj2 (proj2 scanStreams_spec)) "24000" "1001"); reflexivity.
Defined.

(** ** Date resolution of the still-image extractor *)

(** C5. The creation time is that of the first present value among
    [DateTimeOriginal], [CreateDate] and the stored creation time of the
    asset, and the modification time that of the first present value among
    [ModifyDate] and the stored modification time, for every tag bag (and
    for none, when the tags could not be read) and every asset. A candidate
    is turned into a date by [exifToDate]. These are the two dates of every
    record a run of the handler upserts. *)
Theorem date_resolution env exifData asset :
  resolveCreatedAt env exifData asset
  = exifToDate env
      (first_present (tag exifData Tags.DateTimeOriginal
                      :: tag exifData Tags.CreateDate
                      :: Some (inr (AssetEntity.fileCreatedAt asset)) :: nil))
  /\ resolveModifiedAt env exifData asset
     = exifToDate env
         (first_present (tag exifData Tags.ModifyDate
                         :: Some (inr (AssetEntity.fileModifiedAt asset)) :: nil))
  /\ (tag exifData Tags.DateTimeOriginal = None ->
      forall d, tag exifData Tags.CreateDate = Some d ->
      resolveCreatedAt env exifData asset = exifToDate env (Some d))
  /\ (tag exifData Tags.DateTimeOriginal = None ->
      tag exifData Tags.CreateDate = None ->
      resolveCreatedAt env exifData asset
      = exifToDate env (Some (inr (AssetEntity.fileCreatedAt asset))))
  /\ (forall fileName w, exists evs,
      let job := {| asset := asset; fileName := fileName |} in
      trace (snd (extractExifInfo env job w)) = (evs ++ trace w)%list
      /\ forall e, In (EvUpsert e) evs ->
         ExifEntity.dateTimeOriginal e = resolveCreatedAt env (readTags env asset) asset
         /\ ExifEntity.modifyDate e = resolveModifiedAt env (readTags env asset) asset).
Proof.
  split; [|split; [|split; [|split]]].
  - unfold resolveCreatedAt, Js.nullish.
    destruct (tag exifData Tags.DateTimeOriginal), (tag exifData Tags.CreateDate); reflexivity.
  - unfold resolveModifiedAt, Js.nullish.
    destruct (tag exifData Tags.ModifyDate); reflexivity.
  - unfold resolveCreatedAt. intros -> d ->. reflexivity.
  - unfold resolveCreatedAt. intros -> ->. reflexivity.
  - intros fileName w.
    destruct (extractExifInfo_upserted env {| asset := asset; fileName := fileName |} w)
      as (evs & Ht & Hup).
    exists evs. split; [exact Ht|]. intros e He.
    destruct (Hup e He) as (size & Hc).
    apply completes_scalars in Hc as (_ & _ & _ & _ & _ & _ & _ & _ & _ & _ & Hd & Hm).
    rewrite Hd, Hm. split; reflexivity.
Qed.

Lemma date_resolution_witness :
  resolveCreatedAt Sample.env
    (Some (Tags.mk None (Some (inr "2020:05:17 10:00:00")) None None None None None
             None None None None None None None None None None None None))
    Sample.image
  = exifToDate Sample.env (Some (inr "2020:05:17 10:00:00")).
Proof.
  apply (proj1 (proj2 (proj2 (date_resolution Sample.env _ Sample.image))));
    reflexivity.
Defined.

(** ** Scalar fields of the still-image extractor *)





(** ** The raster fallback of the still-image extractor *)

Lemma assetId_placed t e : placed t e -> ExifEntity.assetId e = ExifEntity.assetId t.
Proof. intros [-> | (country & state & city & ->)]; reflexivity. Qed.

Lemma assetId_fillFromRaster metadata t :
  ExifEntity.assetId (fillFromRaster metadata t) = ExifEntity.assetId t.
Proof.
  destruct t. unfold fillFromRaster. cbn. repeat case_match; reflexivity.
Qed.

(** A run in which no call fails: the repositories accept every call and
    the geocoder has a place for the point of the record. [Inv] is kept by
    the calls made before the raster fallback. *)
Section Clean.

Variable env : Env.
Variable Inv : World -> Prop.

Hypothesis accepted : noRepositoryError env.
Hypothesis Inv_plain : forall ev w, isPlain ev = true -> Inv w -> Inv (snd (emit ev w)).
Hypothesis Inv_saved : forall p w, Inv w -> Inv (savedRows p w).
Hypothesis Inv_lookUp : forall lat lon w, Inv w -> Inv (snd (emit (EvLookUp lat lon) w)).

Lemma clean_repository {A} ev (act : World -> A * World) :
  isPlain ev = true -> (forall w, Inv w -> Inv (snd (act w))) ->
  hoare Inv (repository env ev act) (fun _ => Inv) (fun _ => False).
Proof.
  intros Hev Hact w Hw. unfold repository, bind. rewrite emit_world, accepted.
  pose proof (Hact _ (Inv_plain ev w Hev Hw)) as H.
  cbn in H |- *. destruct (act _) as [r w']. exact H.
Qed.

Lemma clean_save p :
  hoare Inv (assetRepository_save env p) (fun _ => Inv) (fun _ => False).
Proof. apply clean_repository; [reflexivity | intros w; apply Inv_saved]. Qed.

Lemma clean_find cid other ty :
  hoare Inv (assetRepository_findLivePhotoMatch env cid other ty)
        (fun _ => Inv) (fun _ => False).
Proof. apply clean_repository; [reflexivity | intros w Hw; exact Hw]. Qed.

Lemma clean_exiftool_read asset :
  hoare Inv (exiftool_read_or_null env (AssetEntity.originalPath asset))
        (fun d w => Inv w /\ d = readTags env asset) (fun _ => False).
Proof.
  intros w Hw. unfold exiftool_read_or_null, readTags, bind, log.
  rewrite emit_world.
  pose proof (Inv_plain (EvExifRead (AssetEntity.originalPath asset)) w eq_refl Hw) as H1.
  destruct (exiftool_read env (AssetEntity.originalPath asset)) as [err|tags];
    [|split; [exact H1 | reflexivity]].
  rewrite emit_world. split; [|reflexivity].
  exact (Inv_plain (EvLog WARN _) _ eq_refl H1).
Qed.

Lemma clean_stat path (size : Js.number) :
  hoare Inv (call (EvStat path) (inr size))
        (fun r w => Inv w /\ r = size) (fun _ => False).
Proof.
  intros w Hw. split; [|reflexivity]. exact (Inv_plain (EvStat path) w eq_refl Hw).
Qed.

Lemma clean_toISOString d :
  d <> Some None ->
  hoare Inv (toISOString_opt env d) (fun _ => Inv) (fun _ => False).
Proof.
  intros Hd w Hw. unfold toISOString_opt.
  destruct d as [[ms|]|]; [exact Hw | now destruct Hd | exact Hw].
Qed.

Lemma clean_pairWithMotionAsset asset newExif :
  hoare Inv (pairWithMotionAsset env asset newExif) (fun _ => Inv) (fun _ => False).
Proof.
  unfold pairWithMotionAsset.
  destruct (ExifEntity.livePhotoCID newExif) as [cid|]; [|apply hoare_ret; auto].
  destruct (_ && _); [|apply hoare_ret; auto].
  eapply hoare_bind; [apply clean_find|].
  intros [motionAsset|]; [|apply hoare_ret; auto].
  eapply hoare_bind; [apply clean_save|]. intros ?. apply clean_save.
Qed.

Lemma clean_reverseGeocodeStep t :
  (forall lat lon, ExifEntity.latitude t = Some lat -> ExifEntity.longitude t = Some lon ->
                   is_Some (geocoder_lookUp env lat lon)) ->
  hoare Inv (reverseGeocodeStep env t) (fun e w => Inv w /\ placed t e) (fun _ => False).
Proof.
  intros Hgeo w Hw. unfold reverseGeocodeStep, get_isGeocodeInitialized, bind, placed.
  destruct (_ && _); [|split; [exact Hw | left; reflexivity]].
  destruct (ExifEntity.latitude t) as [lat|]; [|split; [exact Hw | left; reflexivity]].
  destruct (ExifEntity.longitude t) as [lon|]; [|split; [exact Hw | left; reflexivity]].
  destruct (Hgeo lat lon eq_refl eq_refl) as [g Hg].
  unfold reverseGeocodeExif, bind. rewrite emit_world, Hg.
  split; [exact (Inv_lookUp lat lon w Hw) | right; eauto].
Qed.

End Clean.

(** Every record a run upserts is the record of the tags with a place or
    without, handed to the raster fallback: filled from what the decoder
    returned when it lacks a height, a width or an orientation. *)
Lemma extractExifInfo_upserts_filled env job t0 :
  let filled := since t0 (upsertsFilled env job) in
  hoare filled (extractExifInfo env job) (fun _ => filled) filled.
Proof.
  intros filled. subst filled.
  assert (forall ev, isSharp ev = false -> isUpsert ev = false ->
                     upsertsFilled env job ev) as Hplain.
  { intros [] _ Hu; try exact I. discriminate Hu. }
  unfold extractExifInfo. cbv zeta.
  eapply hoare_try_catch; [|intros e; apply since_log, Hplain].
  eapply hoare_bind; [apply since_exiftool_read, Hplain|].
  intros ?. apply hoare_assume. intros ->.
  eapply hoare_bind; [apply since_call; exact I|]. intros size.
  fold (tagRecord env job size).
  eapply hoare_bind; [apply since_toISOString|]. intros iso.
  eapply hoare_bind; [apply since_save, Hplain|]. intros ?.
  eapply hoare_bind; [apply since_pairWithMotionAsset, Hplain|]. intros ?.
  eapply hoare_bind; [apply since_reverseGeocodeStep, Hplain|]. intros e.
  apply hoare_assume. intros Hplaced.
  unfold rasterFallback. destruct (needsRasterDecode e) eqn:Hneeds.
  - eapply hoare_bind with
      (R := fun e' w =>
         since t0 (upsertsFilled env job) w
         /\ exists metadata,
              sharp_metadata env (AssetEntity.originalPath (asset job)) = inr metadata
              /\ e' = fillFromRaster metadata e).
    { eapply hoare_bind; [apply since_call_value; exact I|].
      intros metadata. apply hoare_assume. intros Hsharp. apply hoare_ret.
      intros w Hw. eauto. }
    intros e'. apply hoare_assume. intros (metadata & Hsharp & ->).
    apply since_upsert. exists size, e. split; [exact Hplaced|].
    rewrite Hneeds. exists metadata. auto.
  - eapply hoare_bind with
      (R := fun e' w => since t0 (upsertsFilled env job) w /\ e' = e).
    { apply hoare_ret. auto. }
    intros e'. apply hoare_assume. intros ->.
    apply since_upsert. exists size, e. split; [exact Hplaced|].
    rewrite Hneeds. reflexivity.
Qed.

Lemma needsRasterDecode_unresolved env job size t' :
  heightFromTags (readTags env (asset job)) = None
  \/ widthFromTags (readTags env (asset job)) = None
  \/ orientationFromTags (readTags env (asset job)) = None ->
  placed (tagRecord env job size) t' -> needsRasterDecode t' = true.
Proof.
  intros Hnull Hplaced. rewrite (needsRasterDecode_placed _ _ Hplaced).
  unfold tagRecord. rewrite needsRasterDecode_fromTags.
  destruct Hnull as [-> | [-> | ->]]; cbn; rewrite ?orb_true_r; reflexivity.
Qed.

(** A run in which nothing fails, for tags that leave a height, a width or
    an orientation unresolved: the decoder is called once and the row
    stored has, for each of the three, the value of the tags, or else the
    value of the decoder. *)
Lemma extractExifInfo_decoded env job w size metadata :
  let exifData := readTags env (asset job) in
  let path := AssetEntity.originalPath (asset job) in
  noRepositoryError env ->
  fs_statSync_size env path = inr size ->
  resolveCreatedAt env exifData (asset job) <> Some None ->
  (forall lat lon,
      ExifEntity.latitude (tagRecord env job size) = Some lat ->
      ExifEntity.longitude (tagRecord env job size) = Some lon ->
      is_Some (geocoder_lookUp env lat lon)) ->
  sharp_metadata env path = inr metadata ->
  heightFromTags exifData = None \/ widthFromTags exifData = None
  \/ orientationFromTags exifData = None ->
  sharp_calls (snd (extractExifInfo env job w)) = S (sharp_calls w)
  /\ exists e,
       exifs (snd (extractExifInfo env job w)) !! AssetEntity.id (asset job) = Some e
       /\ ExifEntity.exifImageHeight e
          = Js.nullish (heightFromTags exifData)
              (Js.or_null Js.truthy_num (SharpMetadata.height metadata))
       /\ ExifEntity.exifImageWidth e
          = Js.nullish (widthFromTags exifData)
              (Js.or_null Js.truthy_num (SharpMetadata.width metadata))
       /\ ExifEntity.orientation e
          = Js.nullish (orientationFromTags exifData)
              (Js.toString <$> SharpMetadata.orientation metadata).
Proof.
  intros exifData path Herr Hstat Hdate Hgeo Hsharp Hnull.
  pose (Inv := fun w1 : World => exifs w1 = exifs w /\ sharp_calls w1 = sharp_calls w).
  assert (forall ev w1, isSharp ev = false -> Inv w1 -> Inv (snd (emit ev w1))) as Hemit.
  { intros ev w1 Hev [Hx Hc]. split; [exact Hx|].
    unfold sharp_calls in *. cbn. rewrite Hev. exact Hc. }
  assert (forall ev w1, isPlain ev = true -> Inv w1 -> Inv (snd (emit ev w1))) as Hplain.
  { intros ev w1 Hev. apply Hemit. destruct ev; (reflexivity || discriminate). }
  destruct (hoare_returns Inv
    (fun _ w' =>
       sharp_calls w' = S (sharp_calls w)
       /\ exists t', placed (tagRecord env job size) t'
            /\ exifs w' = <[AssetEntity.id (asset job) := fillFromRaster metadata t']>
                            (exifs w))
    (extractExifInfo env job) w) as (v & w' & -> & Hcalls & t' & Hplaced & Hx);
    [|split; reflexivity|].
  - unfold extractExifInfo. cbv zeta.
    eapply hoare_try_catch with (R := fun _ => False); [|intros e w1 []].
    eapply hoare_bind; [apply (clean_exiftool_read env Inv Hplain)|].
    intros ?. apply hoare_assume. intros ->. fold path. rewrite Hstat.
    eapply hoare_bind; [apply (clean_stat Inv Hplain)|].
    intros ?. apply hoare_assume. intros ->. fold (tagRecord env job size).
    eapply hoare_bind; [apply clean_toISOString, Hdate|]. intros iso.
    eapply hoare_bind;
      [apply (clean_save env Inv Herr Hplain); intros p w1 Hw1; exact Hw1|]. intros ?.
    eapply hoare_bind;
      [apply (clean_pairWithMotionAsset env Inv Herr Hplain); intros p w1 Hw1; exact Hw1|].
    intros ?.
    eapply hoare_bind;
      [apply (clean_reverseGeocodeStep env Inv); [|exact Hgeo];
       intros lat lon w1; apply Hemit; reflexivity|].
    intros t'. apply hoare_assume. intros Hplaced.
    unfold rasterFallback.
    rewrite (needsRasterDecode_unresolved env job size t' Hnull Hplaced).
    fold path. rewrite Hsharp.
    intros w1 [Hx Hc].
    unfold call, exifRepository_upsert, repository, ret, bind, emit.
    cbn. rewrite Herr. cbn. split.
    + unfold sharp_calls in *. cbn. rewrite Hc. reflexivity.
    + exists t'. split; [exact Hplaced|].
      rewrite Hx, assetId_fillFromRaster, (assetId_placed _ _ Hplaced). reflexivity.
  - cbn [snd]. split; [exact Hcalls|].
    exists (fillFromRaster metadata t'). rewrite Hx, lookup_insert_eq.
    split; [reflexivity|]. rewrite fillFromRaster_fields.
    destruct (placed_fields _ _ Hplaced) as (_ & _ & Hw & Hh & Ho & _).
    cbn [ExifEntity.set_orientation ExifEntity.set_exifImageWidth
         ExifEntity.set_exifImageHeight ExifEntity.exifImageHeight
         ExifEntity.exifImageWidth ExifEntity.orientation].
    rewrite Hw, Hh, Ho. repeat split.
Qed.

(** C4. When the tags resolve height, width and orientation, a run of the
    handler does not call the raster decoder. When one of the three is
    still null the fallback step, on whatever record it is handed, calls
    the decoder once, and what it returns replaces exactly the fields that
    are null: a field that is set keeps its value, and no other field
    changes; when the three are set the step does nothing. In the handler:
    whatever a run upserts has the height, width and orientation that the
    tags resolved; when the tags leave one unresolved, whatever a run
    upserts is the record with the decoder's values filled in; and a run
    in which nothing fails calls the decoder once and stores, for each of
    the three, the value of the tags or else the value of the decoder. *)
Theorem rasterFallback_spec env job :
  let asset := asset job in
  let path := AssetEntity.originalPath asset in
  let exifData := readTags env asset in
  let unresolved :=
    heightFromTags exifData = None \/ widthFromTags exifData = None
    \/ orientationFromTags exifData = None in
  (is_Some (heightFromTags exifData) -> is_Some (widthFromTags exifData) ->
   is_Some (orientationFromTags exifData) ->
   forall w, sharp_calls (snd (extractExifInfo env job w)) = sharp_calls w)
  /\ (forall newExif w,
       (ExifEntity.exifImageHeight newExif = None
        \/ ExifEntity.exifImageWidth newExif = None
        \/ ExifEntity.orientation newExif = None) ->
       rasterFallback env asset newExif w
       = (match sharp_metadata env path with
          | inr metadata => Ok (fillFromRaster metadata newExif)
          | inl e => Throw e
          end,
          snd (emit (EvSharp path) w)))
  /\ (forall newExif w,
       is_set Js.truthy_num (ExifEntity.exifImageHeight newExif) = true ->
       is_set Js.truthy_num (ExifEntity.exifImageWidth newExif) = true ->
       is_set Js.truthy_str (ExifEntity.orientation newExif) = true ->
       rasterFallback env asset newExif w = (Ok newExif, w))
  /\ (forall metadata newExif,
       fillFromRaster metadata newExif
       = ExifEntity.set_orientation
           (ExifEntity.set_exifImageWidth
              (ExifEntity.set_exifImageHeight newExif
                 match ExifEntity.exifImageHeight newExif with
                 | Some v => Some v
                 | None => Js.or_null Js.truthy_num (SharpMetadata.height metadata)
                 end)
              match ExifEntity.exifImageWidth newExif with
              | Some v => Some v
              | None => Js.or_null Js.truthy_num (SharpMetadata.width metadata)
              end)
           match ExifEntity.orientation newExif with
           | Some v => Some v
           | None => Js.toString <$> SharpMetadata.orientation metadata
           end)
  /\ (forall w, exists evs,
       trace (snd (extractExifInfo env job w)) = (evs ++ trace w)%list
       /\ forall e, In (EvUpsert e) evs ->
          ((forall v, heightFromTags exifData = Some v ->
                      ExifEntity.exifImageHeight e = Some v)
           /\ (forall v, widthFromTags exifData = Some v ->
                         ExifEntity.exifImageWidth e = Some v)
           /\ (forall v, orientationFromTags exifData = Some v ->
                         ExifEntity.orientation e = Some v))
          /\ (unresolved ->
              exists size t' metadata,
                placed (tagRecord env job size) t'
                /\ sharp_metadata env path = inr metadata
                /\ e = fillFromRaster metadata t'))
  /\ (forall w size metadata,
       noRepositoryError env ->
       fs_statSync_size env path = inr size ->
       resolveCreatedAt env exifData asset <> Some None ->
       (forall lat lon,
           ExifEntity.latitude (tagRecord env job size) = Some lat ->
           ExifEntity.longitude (tagRecord env job size) = Some lon ->
           is_Some (geocoder_lookUp env lat lon)) ->
       sharp_metadata env path = inr metadata ->
       unresolved ->
       sharp_calls (snd (extractExifInfo env job w)) = S (sharp_calls w)
       /\ exists e,
            exifs (snd (extractExifInfo env job w)) !! AssetEntity.id asset = Some e
            /\ ExifEntity.exifImageHeight e
               = match heightFromTags exifData with
                 | Some v => Some v
                 | None => Js.or_null Js.truthy_num (SharpMetadata.height metadata)
                 end
            /\ ExifEntity.exifImageWidth e
               = match widthFromTags exifData with
                 | Some v => Some v
                 | None => Js.or_null Js.truthy_num (SharpMetadata.width metadata)
                 end
            /\ ExifEntity.orientation e
               = match orientationFromTags exifData with
                 | Some v => Some v
                 | None => Js.toString <$> SharpMetadata.orientation metadata
                 end).
Proof.
  intros asset0 path exifData unresolved. split; [|split; [|split; [|split; [|split]]]].
  - intros Hh Hw Ho w. apply since_sharp_calls.
    pose proof (extractExifInfo_no_decode env job (trace w) Hh Hw Ho w (since_start _ w))
      as H.
    destruct (extractExifInfo env job w) as [[[]|e] w']; exact H.
  - intros newExif w Hnull.
    unfold rasterFallback.
    assert (needsRasterDecode newExif = true) as ->.
    { unfold needsRasterDecode.
      destruct Hnull as [-> | [-> | ->]]; cbn; rewrite ?orb_true_r; reflexivity. }
    unfold call, bind. rewrite emit_world. fold path.
    destruct (sharp_metadata env path); reflexivity.
  - intros newExif w Hh Hw Ho. unfold rasterFallback, needsRasterDecode.
    rewrite Hh, Hw, Ho. reflexivity.
  - exact fillFromRaster_fields.
  - intros w.
    pose proof (extractExifInfo_upserts env job (trace w) w (since_start _ w)) as H1.
    pose proof (extractExifInfo_upserts_filled env job (trace w) w (since_start _ w)) as H2.
    assert (since (trace w) (fun ev => upsertsTagRecord env job ev /\ upsertsFilled env job ev)
              (snd (extractExifInfo env job w))) as (evs & Ht & Hok).
    { destruct (extractExifInfo env job w) as [[[]|err] w']; cbn [snd];
        destruct H1 as (evs1 & Ht1 & Hok1), H2 as (evs2 & Ht2 & Hok2);
        rewrite Ht1 in Ht2; apply app_inv_tail in Ht2; subst evs2;
        exists evs1; (split; [exact Ht1|]);
        rewrite List.Forall_forall in *; intros ev Hev; split; auto. }
    exists evs. split; [exact Ht|]. intros e He.
    rewrite List.Forall_forall in Hok. destruct (Hok _ He) as [(size & Hc) Hf]. split.
    + apply completes_dimensions in Hc. exact Hc.
    + intros Hnull. destruct Hf as (size' & t' & Hplaced & Hfill).
      rewrite (needsRasterDecode_unresolved env job size' t' Hnull Hplaced) in Hfill.
      destruct Hfill as (metadata & Hsharp & ->). exists size', t', metadata. auto.
  - intros w size metadata. exact (extractExifInfo_decoded env job w size metadata).
Qed.

Lemma rasterFallback_spec_witness :
  sharp_calls (snd (extractExifInfo zeroEnv imageJob Sample.world))
  = sharp_calls Sample.world
  /\ sharp_calls (snd (extractExifInfo noHeightEnv imageJob Sample.world))
     = S (sharp_calls Sample.world)
  /\ exists e,
       exifs (snd (extractExifInfo noHeightEnv imageJob Sample.world)) !! "img" = Some e
       /\ ExifEntity.exifImageHeight e = Some (Js.of_Z 480)
       /\ ExifEntity.exifImageWidth e = Some (Js.of_Z 4032)
       /\ ExifEntity.orientation e = Some "6".
Proof.
  split.
  - apply (proj1 (rasterFallback_spec zeroEnv imageJob));
      vm_compute; eexists; reflexivity.
  - apply (proj2 (proj2 (proj2 (proj2 (proj2 (rasterFallback_spec noHeightEnv imageJob)))))
             Sample.world (Js.of_Z 1024)
             (SharpMetadata.mk (Some (Js.of_Z 480)) (Some (Js.of_Z 640))
                (Some (Js.of_Z 1)))).
    + intros ev. reflexivity.
    + reflexivity.
    + discriminate.
    + intros lat lon Hlat. discriminate Hlat.
    + reflexivity.
    + left. reflexivity.
Defined.

Example rasterFallback_fills_height :
  let w := snd (extractExifInfo noHeightEnv
                  {| asset := Sample.image; fileName := "img.heic" |} Sample.world) in
  sharp_calls w = 1%nat
  /\ (exifs w !! "img") ≫= ExifEntity.exifImageHeight = Some (Js.of_Z 480)
  /\ (exifs w !! "img") ≫= ExifEntity.exifImageWidth = Some (Js.of_Z 4032)
  /\ (exifs w !! "img") ≫= ExifEntity.orientation = Some "6".
Proof. vm_compute. repeat split; reflexivity. Qed.

(** ** Failures *)

(** C9. When the container probe fails, the video handler completes, the
    asset rows and the metadata rows are those it started from, and the
    only calls made are the probe and the log of its error (none at all
    when the asset is not visible, as the handler then returns at once). *)
Theorem probe_failure_aborts env job w err :
  ffprobe env (AssetEntity.originalPath (asset job)) = inl err ->
  let r := extractVideoMetadata env job w in
  fst r = Ok tt
  /\ assets (snd r) = assets w
  /\ exifs (snd r) = exifs w
  /\ isGeocodeInitialized (snd r) = isGeocodeInitialized w
  /\ trace (snd r)
     = if AssetEntity.isVisible (asset job)
       then EvLog CONSOLE ("Error in video metadata extraction " ++ err)
              :: EvProbe (AssetEntity.originalPath (asset job)) :: trace w
       else trace w.
Proof.
  intros Hprobe. unfold extractVideoMetadata. cbv zeta.
  destruct (AssetEntity.isVisible (asset job)); cbn [negb]; [|repeat split; reflexivity].
  unfold call. unfold try_catch, bind. rewrite emit_world, Hprobe. cbn.
  repeat split; reflexivity.
Qed.

Lemma probe_failure_aborts_witness :
  let r := extractVideoMetadata Sample.env
             {| asset := Sample.video; fileName := "vid.mov" |} Sample.world in
  fst r = Ok tt
  /\ assets (snd r) = assets Sample.world
  /\ exifs (snd r) = exifs Sample.world
  /\ isGeocodeInitialized (snd r) = isGeocodeInitialized Sample.world
  /\ trace (snd r)
     = EvLog CONSOLE "Error in video metadata extraction ffprobe exited with code 1"
         :: EvProbe "/upload/vid.mov" :: nil.
Proof.
  apply (probe_failure_aborts Sample.env
           {| asset := Sample.video; fileName := "vid.mov" |} Sample.world
           "ffprobe exited with code 1").
  reflexivity.
Defined.

Lemma try_catch_log_ok (m : M unit) level (msg : Error -> string) w :
  fst (try_catch m (fun e => log level (msg e)) w) = Ok tt.
Proof. unfold try_catch. destruct (m w) as [[[]|e] w']; reflexivity. Qed.

Lemma extractExifInfo_completes env job w : fst (extractExifInfo env job w) = Ok tt.
Proof. apply try_catch_log_ok. Qed.

Lemma extractVideoMetadata_completes env job w :
  fst (extractVideoMetadata env job w) = Ok tt.
Proof.
  unfold extractVideoMetadata. cbv zeta.
  destruct (negb _); [reflexivity | apply try_catch_log_ok].
Qed.

(** C3, where the code departs from it. The two extraction handlers
    complete whatever happens inside them: their bodies are wrapped in a
    try/catch that logs. [reverseGeocoding] has no such wrapper: when the
    metadata repository rejects the update, or when the geocoder has no
    place to return, the error leaves the handler. *)
Theorem reverseGeocoding_rethrows :
  (forall env job w, fst (extractExifInfo env job w) = Ok tt)
  /\ (forall env job w, fst (extractVideoMetadata env job w) = Ok tt)
  /\ fst (reverseGeocoding rejectingEnv geocodingJob Sample.world)
     = Throw "QueryFailedError: connection terminated"
  /\ fst (reverseGeocoding Sample.env geocodingJob Sample.world)
     = Throw "TypeError: Cannot read properties of undefined (reading 'countryCode')".
Proof.
  split; [exact extractExifInfo_completes|].
  split; [exact extractVideoMetadata_completes|].
  split; vm_compute; reflexivity.
Qed.

(** ** Live-photo pairing *)

Lemma findLivePhotoMatch_rows_sound w cid other ty a :
  findLivePhotoMatch_rows w cid other ty = Some a ->
  AssetEntity.id a <> other /\ AssetEntity.type a = ty
  /\ (exifs w !! AssetEntity.id a) ≫= ExifEntity.livePhotoCID = Some cid.
Proof.
  unfold findLivePhotoMatch_rows. intros Hhead.
  apply head_Some_elem_of, list_elem_of_filter in Hhead as [Hm _].
  unfold is_livePhotoMatch in Hm.
  apply andb_prop in Hm as [Hm H3]. apply andb_prop in Hm as [H1 H2].
  apply bool_decide_eq_true_1 in H1, H2, H3. auto.
Qed.

(** The search reads the rows only: the trace of the world is irrelevant. *)
Ltac use_match w Hfind :=
  match goal with
  | |- context [findLivePhotoMatch_rows ?w' ?c ?o ?t] =>
      change (findLivePhotoMatch_rows w' c o t) with (findLivePhotoMatch_rows w c o t);
      rewrite Hfind
  end.

Lemma pairWithMotionAsset_match env asset newExif w cid motionAsset :
  noRepositoryError env ->
  ExifEntity.livePhotoCID newExif = Some cid -> Js.truthy_str cid = true ->
  is_set Js.truthy_str (AssetEntity.livePhotoVideoId asset) = false ->
  findLivePhotoMatch_rows w cid (AssetEntity.id asset) VIDEO = Some motionAsset ->
  pairWithMotionAsset env asset newExif w
  = (Ok tt,
     {| assets := alter hidden (AssetEntity.id motionAsset)
                    (alter (pairedWith (AssetEntity.id motionAsset)) (AssetEntity.id asset)
                       (assets w));
        exifs := exifs w;
        isGeocodeInitialized := isGeocodeInitialized w;
        trace := EvSave (setHidden (AssetEntity.id motionAsset))
                   :: EvSave (setPointer (AssetEntity.id asset) (AssetEntity.id motionAsset))
                   :: EvFindLivePhotoMatch cid (AssetEntity.id asset) VIDEO :: trace w |}).
Proof.
  intros Herr Hcid Htruthy Hguard Hfind.
  unfold pairWithMotionAsset. rewrite Hcid, Htruthy, Hguard. cbn [negb andb].
  unfold assetRepository_findLivePhotoMatch, assetRepository_save, repository.
  unfold bind. rewrite !emit_world, !Herr. cbn [assets exifs isGeocodeInitialized trace].
  use_match w Hfind. rewrite !emit_world, !Herr. reflexivity.
Qed.

Lemma pairWithPhotoAsset_match env asset newExif w cid photoAsset :
  noRepositoryError env ->
  ExifEntity.livePhotoCID newExif = Some cid -> Js.truthy_str cid = true ->
  findLivePhotoMatch_rows w cid (AssetEntity.id asset) IMAGE = Some photoAsset ->
  pairWithPhotoAsset env asset newExif w
  = (Ok tt,
     {| assets := alter hidden (AssetEntity.id asset)
                    (alter (pairedWith (AssetEntity.id asset)) (AssetEntity.id photoAsset)
                       (assets w));
        exifs := exifs w;
        isGeocodeInitialized := isGeocodeInitialized w;
        trace := EvSave (setHidden (AssetEntity.id asset))
                   :: EvSave (setPointer (AssetEntity.id photoAsset) (AssetEntity.id asset))
                   :: EvFindLivePhotoMatch cid (AssetEntity.id asset) IMAGE :: trace w |}).
Proof.
  intros Herr Hcid Htruthy Hfind.
  unfold pairWithPhotoAsset. rewrite Hcid, Htruthy.
  unfold assetRepository_findLivePhotoMatch, assetRepository_save, repository.
  unfold bind. rewrite !emit_world, !Herr. cbn [assets exifs isGeocodeInitialized trace].
  use_match w Hfind. rewrite !emit_world, !Herr. reflexivity.
Qed.

Lemma pairWithMotionAsset_guard env asset newExif w :
  is_set Js.truthy_str (AssetEntity.livePhotoVideoId asset) = true ->
  pairWithMotionAsset env asset newExif w = (Ok tt, w).
Proof.
  intros Hguard. unfold pairWithMotionAsset.
  destruct (ExifEntity.livePhotoCID newExif); [|reflexivity].
  rewrite Hguard, andb_false_r. reflexivity.
Qed.

Lemma extractVideoMetadata_hidden env job w :
  AssetEntity.isVisible (asset job) = false ->
  extractVideoMetadata env job w = (Ok tt, w).
Proof. intros H. unfold extractVideoMetadata. cbv zeta. rewrite H. reflexivity. Qed.

(** A whole run of the video handler on it. *)
Example extractVideoMetadata_run :
  let w := snd (extractVideoMetadata liveVideoEnv
                  {| asset := Sample.video; fileName := "vid.mov" |} Sample.world) in
  (assets w !! "vid") ≫= AssetEntity.duration = Some "0:00:02.000000"
  /\ Js.toString <$> ((exifs w !! "vid") ≫= ExifEntity.latitude) = Some "37.3349"
  /\ Js.toString <$> ((exifs w !! "vid") ≫= ExifEntity.longitude) = Some "-122.009"
  /\ (exifs w !! "vid") ≫= ExifEntity.state = Some "Santa Clara County, California"
  /\ (exifs w !! "vid") ≫= ExifEntity.orientation = Some "-90"
  /\ Js.toString <$> ((exifs w !! "vid") ≫= ExifEntity.fps) = Some "30"
  /\ Js.toString <$> ((exifs w !! "vid") ≫= ExifEntity.exifImageWidth) = Some "1920".
Proof. vm_compute. repeat split; reflexivity. Qed.

(** C1 as stated fails for the video extractor. The stored image [img] and
    the video [vid] carry the same identifier; processing [vid] finds [img],
    yet the paired-id of the current asset [vid] stays unset and the matched
    asset [img] stays visible: it is [img] that receives the pointer, to
    [vid], and [vid] that is hidden. And a video whose snapshot already
    has a paired-id is still searched for and written. *)
Lemma video_pairing_is_reversed :
  let job := {| asset := Sample.video; fileName := "vid.mov" |} in
  let w := snd (extractVideoMetadata liveVideoEnv job Sample.world) in
  let paired := {| asset := pairedWith "img" Sample.video; fileName := "vid.mov" |} in
  let w2 := snd (extractVideoMetadata liveVideoEnv paired Sample.world) in
  findLivePhotoMatch_rows Sample.world "X" "vid" IMAGE = Some Sample.image
  /\ (assets w !! "vid") ≫= AssetEntity.livePhotoVideoId <> Some "img"
  /\ AssetEntity.isVisible <$> assets w !! "img" <> Some false
  /\ (assets w !! "img") ≫= AssetEntity.livePhotoVideoId = Some "vid"
  /\ AssetEntity.isVisible <$> assets w !! "vid" = Some false
  /\ In (EvFindLivePhotoMatch "X" "vid" IMAGE) (trace w2)
  /\ In (EvSave (setPointer "img" "vid")) (trace w2)
  /\ In (EvSave (setHidden "vid")) (trace w2).
Proof.
  vm_compute. repeat split; try reflexivity; try discriminate; auto 20.
Qed.

Lemma paired_rows (rows : gmap string AssetEntity.t) i j videoId :
  i <> j ->
  let rows' := alter hidden j (alter (pairedWith videoId) i rows) in
  rows' !! i = pairedWith videoId <$> rows !! i
  /\ rows' !! j = hidden <$> rows !! j
  /\ (forall k, k <> i -> k <> j -> rows' !! k = rows !! k).
Proof.
  intros Hij. cbv zeta. repeat split.
  - rewrite lookup_alter_ne by congruence. apply lookup_alter_eq.
  - rewrite lookup_alter_eq, lookup_alter_ne by congruence. reflexivity.
  - intros k Hki Hkj. rewrite !lookup_alter_ne by congruence. reflexivity.
Qed.

(** C1, amended. In the still-image extractor a match sets the paired-video
    id of the current image to the id of the matched video and clears the
    visibility of the matched video, and this happens only when the image
    has no paired-video id yet: with one, there is neither search nor
    write. In the video extractor a match sets the paired-video id of the
    matched image to the id of the current video and clears the visibility
    of the current video; no paired-id is tested there, the search runs
    whenever the content identifier is present, and the handler leaves a
    video that is not visible untouched. In both, no other row changes. *)
Theorem livePhoto_pairing env asset newExif w cid :
  noRepositoryError env ->
  ExifEntity.livePhotoCID newExif = Some cid -> Js.truthy_str cid = true ->
  (forall motionAsset,
      is_set Js.truthy_str (AssetEntity.livePhotoVideoId asset) = false ->
      findLivePhotoMatch_rows w cid (AssetEntity.id asset) VIDEO = Some motionAsset ->
      let r := pairWithMotionAsset env asset newExif w in
      fst r = Ok tt
      /\ assets (snd r) !! AssetEntity.id asset
         = pairedWith (AssetEntity.id motionAsset) <$> assets w !! AssetEntity.id asset
      /\ assets (snd r) !! AssetEntity.id motionAsset
         = hidden <$> assets w !! AssetEntity.id motionAsset
      /\ (forall k, k <> AssetEntity.id asset -> k <> AssetEntity.id motionAsset ->
          assets (snd r) !! k = assets w !! k)
      /\ exifs (snd r) = exifs w
      /\ trace (snd r)
         = EvSave (setHidden (AssetEntity.id motionAsset))
             :: EvSave (setPointer (AssetEntity.id asset) (AssetEntity.id motionAsset))
             :: EvFindLivePhotoMatch cid (AssetEntity.id asset) VIDEO :: trace w)
  /\ (is_set Js.truthy_str (AssetEntity.livePhotoVideoId asset) = true ->
      pairWithMotionAsset env asset newExif w = (Ok tt, w))
  /\ (forall photoAsset,
      findLivePhotoMatch_rows w cid (AssetEntity.id asset) IMAGE = Some photoAsset ->
      let r := pairWithPhotoAsset env asset newExif w in
      fst r = Ok tt
      /\ assets (snd r) !! AssetEntity.id photoAsset
         = pairedWith (AssetEntity.id asset) <$> assets w !! AssetEntity.id photoAsset
      /\ assets (snd r) !! AssetEntity.id asset
         = hidden <$> assets w !! AssetEntity.id asset
      /\ (forall k, k <> AssetEntity.id photoAsset -> k <> AssetEntity.id asset ->
          assets (snd r) !! k = assets w !! k)
      /\ exifs (snd r) = exifs w
      /\ trace (snd r)
         = EvSave (setHidden (AssetEntity.id asset))
             :: EvSave (setPointer (AssetEntity.id photoAsset) (AssetEntity.id asset))
             :: EvFindLivePhotoMatch cid (AssetEntity.id asset) IMAGE :: trace w)
  /\ (forall fileName,
      AssetEntity.isVisible asset = false ->
      extractVideoMetadata env {| asset := asset; fileName := fileName |} w = (Ok tt, w)).
Proof.
  intros Herr Hcid Htruthy. split; [|split; [|split]].
  - intros motionAsset Hguard Hfind. cbv zeta.
    rewrite (pairWithMotionAsset_match env asset newExif w cid motionAsset
               Herr Hcid Htruthy Hguard Hfind).
    cbn [fst snd assets exifs trace].
    apply findLivePhotoMatch_rows_sound in Hfind as (Hne & _ & _).
    destruct (paired_rows (assets w) (AssetEntity.id asset) (AssetEntity.id motionAsset)
                (AssetEntity.id motionAsset)) as (H1 & H2 & H3); [congruence|].
    auto 10.
  - apply pairWithMotionAsset_guard.
  - intros photoAsset Hfind. cbv zeta.
    rewrite (pairWithPhotoAsset_match env asset newExif w cid photoAsset
               Herr Hcid Htruthy Hfind).
    cbn [fst snd assets exifs trace].
    apply findLivePhotoMatch_rows_sound in Hfind as (Hne & _ & _).
    destruct (paired_rows (assets w) (AssetEntity.id photoAsset) (AssetEntity.id asset)
                (AssetEntity.id asset)) as (H1 & H2 & H3); [congruence|].
    auto 10.
  - intros fileName Hhidden. apply extractVideoMetadata_hidden. exact Hhidden.
Qed.

Lemma livePhoto_pairing_witness :
  let r := pairWithMotionAsset Sample.env Sample.image (Sample.cidRecord "img")
             Sample.world in
  fst r = Ok tt
  /\ assets (snd r) !! "img" = Some (pairedWith "vid" Sample.image)
  /\ assets (snd r) !! "vid" = Some (hidden Sample.video).
Proof.
  destruct (proj1 (livePhoto_pairing Sample.env Sample.image (Sample.cidRecord "img")
                     Sample.world "X" (fun _ => eq_refl) eq_refl eq_refl)
                  Sample.video eq_refl eq_refl) as (H0 & H1 & H2 & _).
  split; [exact H0|]. split; [exact H1 | exact H2].
Defined.

(** * Further properties *)

(** ** Place names *)

(** The state string of [reverseGeocodeExif] (lines 112-129), for the
    administrative codes the geocoder fills in as objects: the name of the
    second level, then [", "] and the name of the first level; the
    separator is left out when the second level is absent or has an empty
    name; an absent level contributes nothing. A code that is a bare string
    has no [name], and contributes the text [undefined]. *)
Theorem state_composition name countryCode :
  (forall a1 a2,
      state_of (GeoData.mk name countryCode (Some (inl a1)) (Some (inl a2)))
      = adminName a2 ++ (if Js.truthy_str (adminName a2) then ", " else "") ++ adminName a1)
  /\ (forall a1, state_of (GeoData.mk name countryCode (Some (inl a1)) None) = adminName a1)
  /\ (forall a2, state_of (GeoData.mk name countryCode None (Some (inl a2))) = adminName a2)
  /\ state_of (GeoData.mk name countryCode None None) = ""
  /\ (forall c s a1,
      state_of (GeoData.mk name countryCode (Some (inl a1)) (Some (inr (String c s))))
      = "undefined" ++ adminName a1).
Proof.
  unfold state_of, append_value. cbn. repeat split.
  intros a1 a2. change ("" ++ adminName a2) with (adminName a2).
  destruct (Js.truthy_str (adminName a2)); [|reflexivity].
  induction (adminName a2) as [|c s IH]; [reflexivity|].
  change (String c ((s ++ ", ") ++ adminName a1) = String c (s ++ ", " ++ adminName a1)).
  now rewrite IH.
Qed.

(** ** Place enrichment *)

Lemma reverseGeocodeExif_run env lat lon w :
  reverseGeocodeExif env lat lon w
  = (match geocoder_lookUp env lat lon with
     | Some g => Ok (getName env (GeoData.countryCode g), state_of g, GeoData.name g)
     | None => Throw "TypeError: Cannot read properties of undefined (reading 'countryCode')"
     end,
     snd (emit (EvLookUp lat lon) w)).
Proof.
  unfold reverseGeocodeExif, bind. rewrite emit_world. cbn.
  destruct (geocoder_lookUp env lat lon); reflexivity.
Qed.

(** Place enrichment (lines 201-206 and 327-332) is skipped, without any
    call to the geocoder, while the geocoder is not ready and when the
    latitude or the longitude is null, zero or NaN. Otherwise the geocoder
    is called once: its answer sets country, state and city and nothing
    else, and the lack of an answer throws. *)
Theorem reverseGeocodeStep_gate env newExif w :
  (gateClosed w newExif -> reverseGeocodeStep env newExif w = (Ok newExif, w))
  /\ (forall lat lon,
      isGeocodeInitialized w = true ->
      ExifEntity.latitude newExif = Some lat -> Js.truthy_num lat = true ->
      ExifEntity.longitude newExif = Some lon -> Js.truthy_num lon = true ->
      reverseGeocodeStep env newExif w
      = (match geocoder_lookUp env lat lon with
         | Some g => Ok (placeOf env g newExif)
         | None => Throw "TypeError: Cannot read properties of undefined (reading 'countryCode')"
         end,
         snd (emit (EvLookUp lat lon) w))).
Proof.
  unfold reverseGeocodeStep, gateClosed, get_isGeocodeInitialized, bind. split.
  - intros [-> | [H | H]]; [reflexivity| |].
    + rewrite H, andb_false_r. reflexivity.
    + rewrite H, andb_false_r. reflexivity.
  - intros lat lon -> Hlat Tlat Hlon Tlon. rewrite Hlat, Hlon. cbn [is_set].
    rewrite Tlat, Tlon. cbn [andb]. rewrite reverseGeocodeExif_run.
    destruct (geocoder_lookUp env lat lon); reflexivity.
Qed.

Lemma reverseGeocodeStep_gate_witness :
  reverseGeocodeStep plainVideoEnv
    (ExifEntity.set_location (Sample.cidRecord "img") (Some (Js.of_Z 0)) (Some (Js.of_Z 9)))
    Sample.world
  = (Ok (ExifEntity.set_location (Sample.cidRecord "img") (Some (Js.of_Z 0))
           (Some (Js.of_Z 9))),
     Sample.world)
  /\ fst (reverseGeocodeStep plainVideoEnv
            (ExifEntity.set_location (Sample.cidRecord "img") (Some (Js.of_Z 37))
               (Some (Js.of_Z 9)))
            Sample.world)
     = Ok (placeOf plainVideoEnv cupertino
             (ExifEntity.set_location (Sample.cidRecord "img") (Some (Js.of_Z 37))
                (Some (Js.of_Z 9)))).
Proof.
  split.
  - apply (proj1 (reverseGeocodeStep_gate plainVideoEnv _ Sample.world)).
    right. left. reflexivity.
  - rewrite (proj2 (reverseGeocodeStep_gate plainVideoEnv _ Sample.world)
               (Js.of_Z 37) (Js.of_Z 9)); reflexivity.
Defined.

(** ** The standalone recompute *)

Lemma reverseGeocoding_run env job w :
  reverseGeocoding env job w
  = if isGeocodeInitialized w then
      match geocoder_lookUp env (latitude job) (longitude job) with
      | Some g =>
          exifRepository_update env (assetId job) (Some (GeoData.name g))
            (Some (state_of g)) (getName env (GeoData.countryCode g))
            (snd (emit (EvLookUp (latitude job) (longitude job)) w))
      | None =>
          (Throw "TypeError: Cannot read properties of undefined (reading 'countryCode')",
           snd (emit (EvLookUp (latitude job) (longitude job)) w))
      end
    else (Ok tt, w).
Proof.
  unfold reverseGeocoding, get_isGeocodeInitialized, bind.
  destruct (isGeocodeInitialized w); [|reflexivity].
  rewrite reverseGeocodeExif_run.
  destruct (geocoder_lookUp env (latitude job) (longitude job)); reflexivity.
Qed.

(** [reverseGeocoding] (lines 234-241) does nothing while the geocoder is
    not ready. When it is ready and answers, and the update is accepted,
    the row of the asset gets the country, state and city of the answer
    and keeps every other column; no other row changes, no row is created
    when the asset has none, and the asset rows are left alone. *)
Theorem reverseGeocoding_recompute env job w :
  (isGeocodeInitialized w = false -> reverseGeocoding env job w = (Ok tt, w))
  /\ (forall g,
      isGeocodeInitialized w = true ->
      geocoder_lookUp env (latitude job) (longitude job) = Some g ->
      repository_error env
        (EvUpdate (assetId job) (Some (GeoData.name g)) (Some (state_of g))
           (getName env (GeoData.countryCode g))) = None ->
      let r := reverseGeocoding env job w in
      fst r = Ok tt
      /\ assets (snd r) = assets w
      /\ exifs (snd r) !! assetId job = placeOf env g <$> exifs w !! assetId job
      /\ (forall k, k <> assetId job -> exifs (snd r) !! k = exifs w !! k)
      /\ isGeocodeInitialized (snd r) = true
      /\ trace (snd r)
         = EvUpdate (assetId job) (Some (GeoData.name g)) (Some (state_of g))
             (getName env (GeoData.countryCode g))
             :: EvLookUp (latitude job) (longitude job) :: trace w).
Proof.
  rewrite reverseGeocoding_run. split.
  - intros ->. reflexivity.
  - intros g Hflag Hg Herr. rewrite Hflag, Hg.
    unfold exifRepository_update, repository, bind. rewrite emit_world, Herr.
    cbn [fst snd assets exifs isGeocodeInitialized trace emit].
    repeat split.
    + apply lookup_alter_eq.
    + intros k Hk. apply lookup_alter_ne. congruence.
    + exact Hflag.
Qed.

Lemma reverseGeocoding_recompute_witness :
  reverseGeocoding plainVideoEnv geocodingJob notReadyWorld = (Ok tt, notReadyWorld)
  /\ exifs (snd (reverseGeocoding plainVideoEnv geocodingJob Sample.world)) !! "img"
     = placeOf plainVideoEnv cupertino <$> exifs Sample.world !! "img".
Proof.
  split.
  - apply (proj1 (reverseGeocoding_recompute plainVideoEnv geocodingJob notReadyWorld)).
    reflexivity.
  - apply (proj2 (reverseGeocoding_recompute plainVideoEnv geocodingJob Sample.world)
             cupertino); reflexivity.
Defined.

(** ** What a handler may change *)

Lemma assetId_located videoTags t e :
  located videoTags t e -> ExifEntity.assetId e = ExifEntity.assetId t.
Proof.
  intros Hl.
  destruct (located_coordinates videoTags t e
              {| assets := ∅; exifs := ∅; isGeocodeInitialized := false; trace := nil |} Hl)
    as (r & _ & ->).
  destruct r as [[lat lon]|]; reflexivity.
Qed.

Lemma assetId_scanStreams streams t :
  ExifEntity.assetId (scanStreams streams t) = ExifEntity.assetId t.
Proof.
  revert t. induction streams as [|stream streams IH]; intros t; [reflexivity|].
  change (scanStreams (stream :: streams) t) with (scanStreams streams (scanStream t stream)).
  rewrite IH. unfold scanStream. destruct (bool_decide _); [|reflexivity].
  destruct (streamFps _); reflexivity.
Qed.

(** A property [Inv] of the world that survives each primitive step of a
    handler survives the handler: the handlers are compositions of these
    steps, the geocoder is called only when ready, and the rows written to
    the metadata table are those of the asset [id] of the job. *)
Section Frame.

Variable env : Env.
Variable id : string.
Variable Inv : World -> Prop.

Hypothesis Inv_plain : forall ev w, isPlain ev = true -> Inv w -> Inv (snd (emit ev w)).
Hypothesis Inv_saved : forall p w, Inv w -> Inv (savedRows p w).
Hypothesis Inv_sharp : forall path w, Inv w -> Inv (snd (emit (EvSharp path) w)).
Hypothesis Inv_lookUp : forall lat lon w,
  isGeocodeInitialized w = true -> Inv w -> Inv (snd (emit (EvLookUp lat lon) w)).
Hypothesis Inv_upsert : forall e w,
  ExifEntity.assetId e = id -> Inv w -> Inv (snd (emit (EvUpsert e) w)).
Hypothesis Inv_upserted : forall e w,
  ExifEntity.assetId e = id -> Inv w -> Inv (upsertedRows e w).
Hypothesis Inv_update : forall ci st co w,
  Inv w -> Inv (snd (emit (EvUpdate id ci st co) w)).
Hypothesis Inv_updated : forall ci st co w, Inv w -> Inv (updatedRows id ci st co w).

Lemma frame_emit ev :
  (forall w, Inv w -> Inv (snd (emit ev w))) ->
  hoare Inv (emit ev) (fun _ => Inv) Inv.
Proof. intros Hev w Hw. exact (Hev w Hw). Qed.

Lemma frame_call {A} ev (r : Error + A) :
  (forall w, Inv w -> Inv (snd (emit ev w))) ->
  hoare Inv (call ev r) (fun _ => Inv) Inv.
Proof.
  intros Hev. unfold call.
  eapply hoare_bind; [exact (frame_emit ev Hev)|].
  intros ?. destruct r; [apply hoare_throw | apply hoare_ret]; auto.
Qed.

Lemma frame_repository {A} ev (act : World -> A * World) :
  (forall w, Inv w -> Inv (snd (emit ev w))) ->
  (forall w, Inv w -> Inv (snd (act w))) ->
  hoare Inv (repository env ev act) (fun _ => Inv) Inv.
Proof.
  intros Hev Hact. unfold repository.
  eapply hoare_bind; [exact (frame_emit ev Hev)|].
  intros ?. destruct (repository_error env ev); [apply hoare_throw; auto|].
  intros w Hw. specialize (Hact w Hw). destruct (act w) as [r w']. exact Hact.
Qed.

Lemma frame_save p :
  hoare Inv (assetRepository_save env p) (fun _ => Inv) Inv.
Proof.
  apply frame_repository.
  - intros w. apply Inv_plain. reflexivity.
  - intros w. apply Inv_saved.
Qed.

Lemma frame_find cid other ty :
  hoare Inv (assetRepository_findLivePhotoMatch env cid other ty) (fun _ => Inv) Inv.
Proof.
  apply frame_repository.
  - intros w. apply Inv_plain. reflexivity.
  - intros w Hw. exact Hw.
Qed.

Lemma frame_upsert e :
  ExifEntity.assetId e = id ->
  hoare Inv (exifRepository_upsert env e) (fun _ => Inv) Inv.
Proof.
  intros He. apply frame_repository.
  - intros w. apply Inv_upsert, He.
  - intros w. apply Inv_upserted, He.
Qed.

Lemma frame_exiftool_read path :
  hoare Inv (exiftool_read_or_null env path) (fun _ => Inv) Inv.
Proof.
  unfold exiftool_read_or_null.
  eapply hoare_bind; [apply frame_emit; intros w; apply Inv_plain; reflexivity|].
  intros ?. destruct (exiftool_read env path).
  - eapply hoare_bind; [apply frame_emit; intros w; apply Inv_plain; reflexivity|].
    intros ?. apply hoare_ret. auto.
  - apply hoare_ret. auto.
Qed.

Lemma frame_toISOString d :
  hoare Inv (toISOString_opt env d) (fun _ => Inv) Inv.
Proof.
  unfold toISOString_opt.
  destruct d as [[ms|]|]; [apply hoare_ret | apply hoare_throw | apply hoare_ret]; auto.
Qed.

Lemma frame_pairWithMotionAsset asset newExif :
  hoare Inv (pairWithMotionAsset env asset newExif) (fun _ => Inv) Inv.
Proof.
  unfold pairWithMotionAsset.
  destruct (ExifEntity.livePhotoCID newExif) as [cid|]; [|apply hoare_ret; auto].
  destruct (_ && _); [|apply hoare_ret; auto].
  eapply hoare_bind; [apply frame_find|].
  intros [motionAsset|]; [|apply hoare_ret; auto].
  eapply hoare_bind; [apply frame_save|]. intros ?. apply frame_save.
Qed.

Lemma frame_pairWithPhotoAsset asset newExif :
  hoare Inv (pairWithPhotoAsset env asset newExif) (fun _ => Inv) Inv.
Proof.
  unfold pairWithPhotoAsset.
  destruct (ExifEntity.livePhotoCID newExif) as [cid|]; [|apply hoare_ret; auto].
  destruct (Js.truthy_str cid); [|apply hoare_ret; auto].
  eapply hoare_bind; [apply frame_find|].
  intros [photoAsset|]; [|apply hoare_ret; auto].
  eapply hoare_bind; [apply frame_save|]. intros ?. apply frame_save.
Qed.

Lemma frame_reverseGeocodeExif lat lon :
  hoare (fun w => Inv w /\ isGeocodeInitialized w = true)
        (reverseGeocodeExif env lat lon) (fun _ => Inv) Inv.
Proof.
  intros w [Hw Hready]. rewrite reverseGeocodeExif_run.
  destruct (geocoder_lookUp env lat lon); apply Inv_lookUp; assumption.
Qed.

Lemma frame_reverseGeocodeStep newExif :
  hoare Inv (reverseGeocodeStep env newExif)
        (fun e w => Inv w /\ placed newExif e) Inv.
Proof.
  unfold reverseGeocodeStep, placed.
  eapply hoare_bind with (R := fun ready w => Inv w /\ isGeocodeInitialized w = ready).
  { intros w Hw. split; [exact Hw | reflexivity]. }
  intros [|]; cbn [andb]; [|apply hoare_ret; intros w [Hw _]; auto].
  destruct (_ && _); [|apply hoare_ret; intros w [Hw _]; auto].
  destruct (ExifEntity.latitude newExif) as [lat|];
    [|apply hoare_ret; intros w [Hw _]; auto].
  destruct (ExifEntity.longitude newExif) as [lon|];
    [|apply hoare_ret; intros w [Hw _]; auto].
  eapply hoare_weaken with (Q' := fun e w => Inv w /\ placed newExif e);
    [|intros w Hw; exact Hw|auto].
  eapply hoare_bind; [apply frame_reverseGeocodeExif|].
  intros [[country state] city]. apply hoare_ret. unfold placed. eauto 10.
Qed.

Lemma frame_locationStep videoTags newExif :
  hoare Inv (locationStep videoTags newExif)
        (fun e w => Inv w /\ located videoTags newExif e) Inv.
Proof.
  intros w Hw.
  destruct (locationStep_pure videoTags newExif) as [[e He] | [err Herr]].
  - rewrite (He w). split; [exact Hw | exact He].
  - rewrite (Herr w). exact Hw.
Qed.

Lemma frame_rasterFallback asset newExif :
  hoare Inv (rasterFallback env asset newExif)
        (fun e w => Inv w /\ ExifEntity.assetId e = ExifEntity.assetId newExif) Inv.
Proof.
  unfold rasterFallback. destruct (needsRasterDecode newExif); [|apply hoare_ret; auto].
  eapply hoare_bind; [apply frame_call; intros w; apply Inv_sharp|].
  intros metadata. apply hoare_ret. intros w Hw.
  split; [exact Hw | apply assetId_fillFromRaster].
Qed.

Lemma extractExifInfo_frame job :
  AssetEntity.id (asset job) = id ->
  hoare Inv (extractExifInfo env job) (fun _ => Inv) Inv.
Proof.
  intros Hid. unfold extractExifInfo. cbv zeta.
  eapply hoare_try_catch;
    [|intros e; apply frame_emit; intros w; apply Inv_plain; reflexivity].
  eapply hoare_bind; [apply frame_exiftool_read|]. intros exifData.
  eapply hoare_bind;
    [apply frame_call; intros w; apply Inv_plain; reflexivity|]. intros size.
  eapply hoare_bind; [apply frame_toISOString|]. intros iso.
  eapply hoare_bind; [apply frame_save|]. intros ?.
  eapply hoare_bind; [apply frame_pairWithMotionAsset|]. intros ?.
  eapply hoare_bind; [apply frame_reverseGeocodeStep|]. intros e1.
  apply hoare_assume. intros Hplaced.
  eapply hoare_bind; [apply frame_rasterFallback|]. intros e2.
  apply hoare_assume. intros He2.
  apply frame_upsert. rewrite He2, (assetId_placed _ _ Hplaced). exact Hid.
Qed.

Lemma extractVideoMetadata_frame job :
  AssetEntity.id (asset job) = id ->
  hoare Inv (extractVideoMetadata env job) (fun _ => Inv) Inv.
Proof.
  intros Hid. unfold extractVideoMetadata. cbv zeta.
  destruct (negb _); [apply hoare_ret; auto|].
  eapply hoare_try_catch;
    [|intros e; apply frame_emit; intros w; apply Inv_plain; reflexivity].
  eapply hoare_bind;
    [apply frame_call; intros w; apply Inv_plain; reflexivity|]. intros data.
  eapply hoare_bind; [apply frame_exiftool_read|]. intros exifData.
  eapply hoare_bind; [apply frame_pairWithPhotoAsset|]. intros ?.
  eapply hoare_bind; [apply frame_locationStep|]. intros e1.
  apply hoare_assume. intros Hlocated.
  eapply hoare_bind; [apply frame_reverseGeocodeStep|]. intros e2.
  apply hoare_assume. intros Hplaced.
  eapply hoare_bind; [|intros ?; apply frame_save].
  apply frame_upsert.
  rewrite assetId_scanStreams, (assetId_placed _ _ Hplaced),
    (assetId_located _ _ _ Hlocated). exact Hid.
Qed.

Lemma reverseGeocoding_frame job :
  assetId job = id ->
  hoare Inv (reverseGeocoding env job) (fun _ => Inv) Inv.
Proof.
  intros Hid w Hw. rewrite reverseGeocoding_run.
  destruct (isGeocodeInitialized w) eqn:Hready; [|exact Hw].
  pose proof (Inv_lookUp (latitude job) (longitude job) w Hready Hw) as Hw1.
  destruct (geocoder_lookUp env (latitude job) (longitude job)) as [g|]; [|exact Hw1].
  rewrite Hid. revert Hw1. generalize (snd (emit (EvLookUp (latitude job) (longitude job)) w)).
  intros w1 Hw1.
  apply (frame_repository _ (fun w =>
    (tt, updatedRows id (Some (GeoData.name g)) (Some (state_of g))
           (getName env (GeoData.countryCode g)) w)));
    [intros w2; apply Inv_update | intros w2; apply Inv_updated | exact Hw1].
Qed.

End Frame.

Lemma hoare_run {A} (P Q : World -> Prop) (m : M A) w :
  hoare P m (fun _ => Q) Q -> P w -> Q (snd (m w)).
Proof.
  intros Hm Hw. specialize (Hm w Hw). destruct (m w) as [[a|e] w']; exact Hm.
Qed.

Lemma isPlain_not_lookUp ev : isPlain ev = true -> isLookUp ev = false.
Proof. destruct ev; (reflexivity || discriminate). Qed.

(** ** Readiness of the geocoder *)

(** No handler changes the readiness flag: it is set by the callback the
    constructor registers (lines 96-99), once, and never cleared. *)
Theorem readiness_only_set_by_callback env w :
  (forall job, isGeocodeInitialized (snd (extractExifInfo env job w))
               = isGeocodeInitialized w)
  /\ (forall job, isGeocodeInitialized (snd (extractVideoMetadata env job w))
                  = isGeocodeInitialized w)
  /\ (forall job, isGeocodeInitialized (snd (reverseGeocoding env job w))
                  = isGeocodeInitialized w)
  /\ isGeocodeInitialized (snd (onGeocoderInitialized w)) = true.
Proof.
  pose (Inv := fun w' : World => isGeocodeInitialized w' = isGeocodeInitialized w).
  repeat split; intros job; apply (hoare_run Inv Inv); try reflexivity.
  - apply (extractExifInfo_frame env (AssetEntity.id (asset job)) Inv);
      (reflexivity || (intros; assumption)).
  - apply (extractVideoMetadata_frame env (AssetEntity.id (asset job)) Inv);
      (reflexivity || (intros; assumption)).
  - apply (reverseGeocoding_frame env (assetId job) Inv);
      (reflexivity || (intros; assumption)).
Qed.

(** While the geocoder is not ready no handler calls it: a job that
    arrives before the data is loaded, or with reverse geocoding disabled,
    costs no look-up, whatever coordinates it carries. *)
Theorem no_lookUp_before_ready env w :
  isGeocodeInitialized w = false ->
  (forall job, lookup_calls (snd (extractExifInfo env job w)) = lookup_calls w)
  /\ (forall job, lookup_calls (snd (extractVideoMetadata env job w)) = lookup_calls w)
  /\ (forall job, lookup_calls (snd (reverseGeocoding env job w)) = lookup_calls w).
Proof.
  intros Hready.
  pose (Inv := fun w' : World =>
    isGeocodeInitialized w' = false /\ lookup_calls w' = lookup_calls w).
  assert (forall ev w', isLookUp ev = false -> Inv w' -> Inv (snd (emit ev w'))) as Hemit.
  { intros ev w' Hev [Hf Hc]. split; [exact Hf|].
    unfold lookup_calls in *. cbn. rewrite Hev. exact Hc. }
  assert (forall lat lon w', isGeocodeInitialized w' = true -> Inv w' ->
            Inv (snd (emit (EvLookUp lat lon) w'))) as Hlook.
  { intros lat lon w' Ht [Hf _]. congruence. }
  repeat split; intros job;
    apply (fun H => proj2 (hoare_run Inv Inv _ w H (conj Hready eq_refl))).
  - apply (extractExifInfo_frame env (AssetEntity.id (asset job)) Inv);
      try reflexivity; try exact Hlook;
      try (intros; apply Hemit; [reflexivity || apply isPlain_not_lookUp|]; assumption);
      intros; assumption.
  - apply (extractVideoMetadata_frame env (AssetEntity.id (asset job)) Inv);
      try reflexivity; try exact Hlook;
      try (intros; apply Hemit; [reflexivity || apply isPlain_not_lookUp|]; assumption);
      intros; assumption.
  - apply (reverseGeocoding_frame env (assetId job) Inv);
      try reflexivity; try exact Hlook;
      try (intros; apply Hemit; [reflexivity || apply isPlain_not_lookUp|]; assumption);
      intros; assumption.
Qed.

Lemma no_lookUp_before_ready_witness :
  (forall job, lookup_calls (snd (extractExifInfo zeroEnv job notReadyWorld))
               = lookup_calls notReadyWorld)
  /\ (forall job, lookup_calls (snd (extractVideoMetadata zeroEnv job notReadyWorld))
                  = lookup_calls notReadyWorld)
  /\ (forall job, lookup_calls (snd (reverseGeocoding zeroEnv job notReadyWorld))
                  = lookup_calls notReadyWorld).
Proof. apply (no_lookUp_before_ready zeroEnv notReadyWorld). reflexivity. Defined.

(** ** The rows a handler writes *)

(** An extractor writes the metadata row of its own asset only: the row of
    every other asset is as it was, whether the run succeeds or fails, and
    also when the live-photo search matches another asset. *)
Theorem extractors_write_own_row env job w k :
  k <> AssetEntity.id (asset job) ->
  exifs (snd (extractExifInfo env job w)) !! k = exifs w !! k
  /\ exifs (snd (extractVideoMetadata env job w)) !! k = exifs w !! k.
Proof.
  intros Hk.
  pose (Inv := fun w' : World => exifs w' !! k = exifs w !! k).
  assert (forall e w', ExifEntity.assetId e = AssetEntity.id (asset job) ->
            Inv w' -> Inv (upsertedRows e w')) as Hups.
  { intros e w' He Hw'. unfold Inv. cbn. rewrite lookup_insert_ne by congruence. exact Hw'. }
  split; apply (hoare_run Inv Inv); try reflexivity.
  - apply (extractExifInfo_frame env (AssetEntity.id (asset job)) Inv);
      try reflexivity; try exact Hups; intros; assumption.
  - apply (extractVideoMetadata_frame env (AssetEntity.id (asset job)) Inv);
      try reflexivity; try exact Hups; intros; assumption.
Qed.

Lemma extractors_write_own_row_witness :
  exifs (snd (extractExifInfo zeroEnv imageJob Sample.world)) !! "vid"
  = exifs Sample.world !! "vid"
  /\ exifs (snd (extractVideoMetadata zeroEnv imageJob Sample.world)) !! "vid"
     = exifs Sample.world !! "vid".
Proof.
  apply (extractors_write_own_row zeroEnv imageJob Sample.world "vid"). discriminate.
Defined.

(** The standalone recompute writes no asset row, creates and deletes no
    metadata row, and leaves the metadata row of every other asset as it
    was, whether it succeeds or throws. *)
Theorem reverseGeocoding_footprint env job w :
  let w' := snd (reverseGeocoding env job w) in
  assets w' = assets w
  /\ (forall k, is_Some (exifs w' !! k) <-> is_Some (exifs w !! k))
  /\ (forall k, k <> assetId job -> exifs w' !! k = exifs w !! k).
Proof.
  pose (Inv := fun w' : World =>
    assets w' = assets w
    /\ (forall k, is_Some (exifs w' !! k) <-> is_Some (exifs w !! k))
    /\ (forall k, k <> assetId job -> exifs w' !! k = exifs w !! k)).
  apply (hoare_run Inv Inv).
  - apply (reverseGeocoding_frame env (assetId job) Inv);
      try reflexivity; try (intros; assumption).
    intros ci st co w1 (Ha & Hd & Ho). split; [exact Ha|]. cbn. split.
    + intros k. rewrite <- Hd. destruct (decide (k = assetId job)) as [->|Hk].
      * rewrite lookup_alter_eq. apply fmap_is_Some.
      * rewrite lookup_alter_ne by congruence. reflexivity.
    + intros k Hk. rewrite lookup_alter_ne by congruence. apply Ho, Hk.
  - repeat split; auto.
Qed.

(** ** Rows after a run *)

Section Rows.

Variable env : Env.
Variable a : gmap string AssetEntity.t.
Variable x : gmap string ExifEntity.t.
Variable ready : bool.

Lemma rows_call_ok {A} ev (v : A) E :
  hoare (rowsAre a x ready) (call ev (inr v))
        (fun r w => rowsAre a x ready w /\ r = v) E.
Proof. intros w Hw. split; [exact Hw | reflexivity]. Qed.

Lemma rows_call_fail {A} ev err (Q : A -> World -> Prop) :
  hoare (rowsAre a x ready) (call ev (inl err)) Q (rowsAre a x ready).
Proof. intros w Hw. exact Hw. Qed.

Lemma rows_exiftool_read asset E :
  hoare (rowsAre a x ready) (exiftool_read_or_null env (AssetEntity.originalPath asset))
        (fun d w => rowsAre a x ready w /\ d = readTags env asset) E.
Proof.
  intros w Hw. unfold exiftool_read_or_null, readTags, bind.
  destruct (exiftool_read env (AssetEntity.originalPath asset));
    (split; [exact Hw | reflexivity]).
Qed.

Lemma rows_save p E :
  repository_error env (EvSave p) = None ->
  hoare (rowsAre a x ready) (assetRepository_save env p)
        (fun _ => rowsAre (alter (merge_partial p) (AssetPartial.id p) a) x ready) E.
Proof.
  intros Herr w (Ha & Hx & Hr). unfold assetRepository_save, repository, bind.
  rewrite emit_world, Herr. cbn. unfold rowsAre. cbn. rewrite Ha. auto.
Qed.

Lemma rows_upsert e E :
  repository_error env (EvUpsert e) = None ->
  hoare (rowsAre a x ready) (exifRepository_upsert env e)
        (fun _ => rowsAre a (<[ExifEntity.assetId e := e]> x) ready) E.
Proof.
  intros Herr w (Ha & Hx & Hr). unfold exifRepository_upsert, repository, bind.
  rewrite emit_world, Herr. cbn. unfold rowsAre. cbn. rewrite Hx. auto.
Qed.

Lemma rows_reverseGeocodeStep t t' E :
  enrichment env ready t t' ->
  hoare (rowsAre a x ready) (reverseGeocodeStep env t)
        (fun e w => rowsAre a x ready w /\ e = t') E.
Proof.
  intros Hen w Hw. pose proof Hw as (_ & _ & Hr).
  destruct Hen as [[Hclosed ->] | (lat & lon & g & Hready & Hlat & Tlat & Hlon & Tlon & Hg & ->)].
  - rewrite (proj1 (reverseGeocodeStep_gate env t w)); [auto|].
    unfold gateClosed. rewrite Hr. exact Hclosed.
  - rewrite (proj2 (reverseGeocodeStep_gate env t w) lat lon) by congruence.
    rewrite Hg. split; [exact Hw | reflexivity].
Qed.

Lemma rows_pairWithMotionAsset asset t E :
  ExifEntity.livePhotoCID t = None ->
  hoare (rowsAre a x ready) (pairWithMotionAsset env asset t)
        (fun _ => rowsAre a x ready) E.
Proof. intros Hcid w Hw. unfold pairWithMotionAsset. rewrite Hcid. exact Hw. Qed.

Lemma rows_pairWithPhotoAsset asset t E :
  ExifEntity.livePhotoCID t = None ->
  hoare (rowsAre a x ready) (pairWithPhotoAsset env asset t)
        (fun _ => rowsAre a x ready) E.
Proof. intros Hcid w Hw. unfold pairWithPhotoAsset. rewrite Hcid. exact Hw. Qed.

Lemma rows_locationStep videoTags t t' E :
  located videoTags t t' ->
  hoare (rowsAre a x ready) (locationStep videoTags t)
        (fun e w => rowsAre a x ready w /\ e = t') E.
Proof. intros Hl w Hw. rewrite (Hl w). auto. Qed.

End Rows.

Lemma rowsAre_start w : rowsAre (assets w) (exifs w) (isGeocodeInitialized w) w.
Proof. repeat split. Qed.

Lemma createdAt_iso env job w E :
  resolveCreatedAt env (readTags env (asset job)) (asset job) <> Some None ->
  hoare (rowsAre (assets w) (exifs w) (isGeocodeInitialized w))
    (toISOString_opt env (resolveCreatedAt env (readTags env (asset job)) (asset job)))
    (fun iso w' =>
       rowsAre (assets w) (exifs w) (isGeocodeInitialized w) w'
       /\ iso = AssetPartial.fileCreatedAt (createdAtPartial env job)) E.
Proof.
  intros Hdate w1 Hw1. unfold toISOString_opt, createdAtPartial.
  destruct (resolveCreatedAt env (readTags env (asset job)) (asset job))
    as [[ms|]|];
    [split; [exact Hw1 | reflexivity] | now destruct Hdate
    | split; [exact Hw1 | reflexivity]].
Qed.

(** The body of the still-image handler up to the raster fallback, when
    the file can be read and its date is usable. *)
Lemma extractExifInfo_prefix env job w size t' (k : ExifEntity.t -> M unit) Q E :
  repository_error env (EvSave (createdAtPartial env job)) = None ->
  fs_statSync_size env (AssetEntity.originalPath (asset job)) = inr size ->
  resolveCreatedAt env (readTags env (asset job)) (asset job) <> Some None ->
  ExifEntity.livePhotoCID (tagRecord env job size) = None ->
  enrichment env (isGeocodeInitialized w) (tagRecord env job size) t' ->
  hoare (rowsAre (alter (merge_partial (createdAtPartial env job))
                    (AssetEntity.id (asset job)) (assets w))
           (exifs w) (isGeocodeInitialized w))
        (k t') Q E ->
  hoare (rowsAre (assets w) (exifs w) (isGeocodeInitialized w))
    (let asset := asset job in
     let* exifData := exiftool_read_or_null env (AssetEntity.originalPath asset) in
     let fileCreatedAt := resolveCreatedAt env exifData asset in
     let fileModifiedAt := resolveModifiedAt env exifData asset in
     let* fileSizeInBytes := call (EvStat (AssetEntity.originalPath asset))
                                  (fs_statSync_size env (AssetEntity.originalPath asset)) in
     let newExif := exifFromTags env asset (fileName job) exifData
                      fileCreatedAt fileModifiedAt fileSizeInBytes in
     let* iso := toISOString_opt env fileCreatedAt in
     run assetRepository_save env
           {| AssetPartial.id := AssetEntity.id asset;
              AssetPartial.fileCreatedAt := iso;
              AssetPartial.duration := None;
              AssetPartial.livePhotoVideoId := None;
              AssetPartial.isVisible := None |} in
     run pairWithMotionAsset env asset newExif in
     let* newExif := reverseGeocodeStep env newExif in
     k newExif) Q E.
Proof.
  intros Hsave Hstat Hdate Hcid Hen Hk. cbv zeta.
  eapply hoare_bind; [apply rows_exiftool_read|].
  intros ?. apply hoare_assume. intros ->. rewrite Hstat.
  eapply hoare_bind; [apply rows_call_ok|].
  intros ?. apply hoare_assume. intros ->. fold (tagRecord env job size).
  eapply hoare_bind; [apply createdAt_iso, Hdate|].
  intros ?. apply hoare_assume. intros ->.
  eapply hoare_bind; [apply (rows_save env _ _ _ (createdAtPartial env job)), Hsave|].
  intros ?.
  eapply hoare_bind; [apply rows_pairWithMotionAsset, Hcid|]. intros ?.
  eapply hoare_bind; [apply rows_reverseGeocodeStep, Hen|].
  intros ?. apply hoare_assume. intros ->. exact Hk.
Qed.

Lemma assetId_enrichment env ready t t' :
  enrichment env ready t t' -> ExifEntity.assetId t' = ExifEntity.assetId t.
Proof. intros [[_ ->] | (lat & lon & g & _ & _ & _ & _ & _ & _ & ->)]; reflexivity. Qed.

(** ** A run of the still-image handler *)

(** A run in which nothing fails, for an asset without a content
    identifier: the creation date the tags resolve is written to the asset
    row, in ISO form, and the metadata row of the asset becomes the record
    of the tags, with the place of the geocoder when the gate is open and
    with the decoder's values for those of height, width and orientation
    that the tags left null. No other row of either table changes. *)
Theorem extractExifInfo_stores env job w size t' metadata :
  let id := AssetEntity.id (asset job) in
  let path := AssetEntity.originalPath (asset job) in
  let t := tagRecord env job size in
  noRepositoryError env ->
  fs_statSync_size env path = inr size ->
  resolveCreatedAt env (readTags env (asset job)) (asset job) <> Some None ->
  ExifEntity.livePhotoCID t = None ->
  enrichment env (isGeocodeInitialized w) t t' ->
  (needsRasterDecode t' = true -> sharp_metadata env path = inr metadata) ->
  let w' := snd (extractExifInfo env job w) in
  assets w' = alter (merge_partial (createdAtPartial env job)) id (assets w)
  /\ exifs w'
     = <[id := if needsRasterDecode t' then fillFromRaster metadata t' else t']> (exifs w).
Proof.
  intros id path t Herr Hstat Hdate Hcid Hen Hsharp w'. subst w'.
  destruct (hoare_returns (rowsAre (assets w) (exifs w) (isGeocodeInitialized w))
    (fun _ => rowsAre (alter (merge_partial (createdAtPartial env job)) id (assets w))
       (<[id := if needsRasterDecode t' then fillFromRaster metadata t' else t']> (exifs w))
       (isGeocodeInitialized w))
    (extractExifInfo env job) w) as (v & w1 & Hrun & Ha & Hx & _);
    [|apply rowsAre_start|rewrite Hrun; split; assumption].
  unfold extractExifInfo.
  eapply hoare_try_catch with (R := fun _ => False); [|intros e w1 []].
  apply (extractExifInfo_prefix env job w size t'
           (fun newExif => bind (rasterFallback env (asset job) newExif)
                             (fun newExif => exifRepository_upsert env newExif)));
    try assumption; [apply Herr|].
  pose proof (assetId_enrichment _ _ _ _ Hen) as Hid.
  unfold rasterFallback. destruct (needsRasterDecode t').
  - fold path. rewrite (Hsharp eq_refl).
    eapply hoare_bind.
    { eapply hoare_bind; [apply rows_call_ok|].
      intros ?. apply hoare_assume. intros ->.
      apply hoare_ret with (Q := fun e w1 =>
        rowsAre (alter (merge_partial (createdAtPartial env job)) id (assets w))
          (exifs w) (isGeocodeInitialized w) w1 /\ e = fillFromRaster metadata t').
      auto. }
    intros ?. apply hoare_assume. intros ->.
    replace id with (ExifEntity.assetId (fillFromRaster metadata t'))
      by (rewrite assetId_fillFromRaster, Hid; reflexivity).
    apply rows_upsert, Herr.
  - eapply hoare_bind with (R := fun e w1 =>
      rowsAre (alter (merge_partial (createdAtPartial env job)) id (assets w))
        (exifs w) (isGeocodeInitialized w) w1 /\ e = t').
    { apply hoare_ret. auto. }
    intros ?. apply hoare_assume. intros ->.
    replace id with (ExifEntity.assetId t') by (rewrite Hid; reflexivity).
    apply rows_upsert, Herr.
Qed.

Lemma extractExifInfo_stores_witness :
  let w' := snd (extractExifInfo noHeightEnv imageJob notReadyWorld) in
  assets w' = alter (merge_partial (createdAtPartial noHeightEnv imageJob)) "img"
                (assets notReadyWorld)
  /\ exifs w'
     = <["img" := fillFromRaster
                    (SharpMetadata.mk (Some (Js.of_Z 480)) (Some (Js.of_Z 640))
                       (Some (Js.of_Z 1)))
                    (tagRecord noHeightEnv imageJob (Js.of_Z 1024))]>
         (exifs notReadyWorld).
Proof.
  apply (extractExifInfo_stores noHeightEnv imageJob notReadyWorld (Js.of_Z 1024)
           (tagRecord noHeightEnv imageJob (Js.of_Z 1024))
           (SharpMetadata.mk (Some (Js.of_Z 480)) (Some (Js.of_Z 640)) (Some (Js.of_Z 1)))).
  - intros ev. reflexivity.
  - reflexivity.
  - discriminate.
  - reflexivity.
  - left. split; [left; reflexivity | reflexivity].
  - reflexivity.
Defined.

(** A file that cannot be stat'ed, or whose resolved creation date is
    invalid (a date tag or a stored timestamp that [Date] cannot parse,
    for which [toISOString] throws), gets no metadata at all: the handler
    writes no row of either table, although the tags were read, and logs
    the error. *)
Theorem extractExifInfo_unusable_file env job w :
  (exists err, fs_statSync_size env (AssetEntity.originalPath (asset job)) = inl err)
  \/ resolveCreatedAt env (readTags env (asset job)) (asset job) = Some None ->
  let w' := snd (extractExifInfo env job w) in
  assets w' = assets w /\ exifs w' = exifs w
  /\ exists err rest, trace w' = EvLog ERROR ("Error extracting EXIF " ++ err) :: rest.
Proof.
  intros Hbad w'. subst w'. unfold extractExifInfo.
  match goal with |- context [try_catch ?m ?h] =>
    destruct (hoare_throws (rowsAre (assets w) (exifs w) (isGeocodeInitialized w))
                (rowsAre (assets w) (exifs w) (isGeocodeInitialized w)) m w)
      as (err & w1 & Hrun & Ha & Hx & _)
  end.
  - cbv zeta.
    eapply hoare_bind; [apply rows_exiftool_read|].
    intros ?. apply hoare_assume. intros ->.
    destruct Hbad as [[err Hstat] | Hdate].
    + rewrite Hstat.
      eapply hoare_bind with (R := fun _ _ => False);
        [apply rows_call_fail | intros ? ? []].
    + eapply hoare_bind with (R := fun _ => rowsAre (assets w) (exifs w) (isGeocodeInitialized w)).
      { intros w1 Hw1. destruct (fs_statSync_size env _); exact Hw1. }
      intros size. rewrite Hdate.
      eapply hoare_bind with (R := fun _ _ => False);
        [apply hoare_throw; auto | intros ? ? []].
  - apply rowsAre_start.
  - unfold try_catch. rewrite Hrun. cbn. repeat split; try assumption. eauto.
Qed.

Lemma extractExifInfo_unusable_file_witness :
  let w' := snd (extractExifInfo undatedEnv imageJob Sample.world) in
  assets w' = assets Sample.world /\ exifs w' = exifs Sample.world
  /\ exists err rest, trace w' = EvLog ERROR ("Error extracting EXIF " ++ err) :: rest.
Proof.
  apply (extractExifInfo_unusable_file undatedEnv imageJob Sample.world).
  right. reflexivity.
Defined.

(** The still-image handler is not all-or-nothing: the creation date is
    saved before the raster fallback runs. When the record still lacks a
    height, a width or an orientation and the decoder rejects the file, the
    asset row has its new creation date but no metadata row is stored, and
    the tags that were read are lost. *)
Theorem extractExifInfo_decoder_failure env job w size t' err :
  let id := AssetEntity.id (asset job) in
  let path := AssetEntity.originalPath (asset job) in
  let t := tagRecord env job size in
  noRepositoryError env ->
  fs_statSync_size env path = inr size ->
  resolveCreatedAt env (readTags env (asset job)) (asset job) <> Some None ->
  ExifEntity.livePhotoCID t = None ->
  enrichment env (isGeocodeInitialized w) t t' ->
  needsRasterDecode t' = true ->
  sharp_metadata env path = inl err ->
  let w' := snd (extractExifInfo env job w) in
  assets w' = alter (merge_partial (createdAtPartial env job)) id (assets w)
  /\ exifs w' = exifs w
  /\ exists msg rest, trace w' = EvLog ERROR ("Error extracting EXIF " ++ msg) :: rest.
Proof.
  intros id path t Herr Hstat Hdate Hcid Hen Hneeds Hsharp w'. subst w'.
  unfold extractExifInfo.
  match goal with |- context [try_catch ?m ?h] =>
    destruct (hoare_throws (rowsAre (assets w) (exifs w) (isGeocodeInitialized w))
                (rowsAre (alter (merge_partial (createdAtPartial env job)) id (assets w))
                   (exifs w) (isGeocodeInitialized w)) m w)
      as (msg & w1 & Hrun & Ha & Hx & _)
  end.
  - apply (extractExifInfo_prefix env job w size t'
             (fun newExif => bind (rasterFallback env (asset job) newExif)
                               (fun newExif => exifRepository_upsert env newExif)));
      try assumption; [apply Herr|].
    unfold rasterFallback. rewrite Hneeds. fold path. rewrite Hsharp.
    eapply hoare_bind with (R := fun _ _ => False); [|intros ? ? []].
    eapply hoare_bind with (R := fun _ _ => False);
      [apply rows_call_fail | intros ? ? []].
  - apply rowsAre_start.
  - unfold try_catch. rewrite Hrun. cbn. repeat split; try assumption. eauto.
Qed.

Lemma extractExifInfo_decoder_failure_witness :
  let w' := snd (extractExifInfo unreadableEnv imageJob notReadyWorld) in
  assets w' = alter (merge_partial (createdAtPartial unreadableEnv imageJob)) "img"
                (assets notReadyWorld)
  /\ exifs w' = exifs notReadyWorld
  /\ exists msg rest, trace w' = EvLog ERROR ("Error extracting EXIF " ++ msg) :: rest.
Proof.
  apply (extractExifInfo_decoder_failure unreadableEnv imageJob notReadyWorld (Js.of_Z 1024)
           (tagRecord unreadableEnv imageJob (Js.of_Z 1024))
           "Input file contains unsupported image format").
  - intros ev. reflexivity.
  - reflexivity.
  - discriminate.
  - reflexivity.
  - left. split; [left; reflexivity | reflexivity].
  - reflexivity.
  - reflexivity.
Defined.

(** ** A run of the video handler *)

(** A run in which nothing fails, for a visible video without a content
    identifier: the metadata row of the video becomes the starting record
    taken through the location step, place enrichment and the stream scan,
    and the asset row gets the duration and the creation date the probe
    resolves. No other row of either table changes. *)
Theorem extractVideoMetadata_stores env job w data e1 e2 :
  let id := AssetEntity.id (asset job) in
  AssetEntity.isVisible (asset job) = true ->
  noRepositoryError env ->
  ffprobe env (AssetEntity.originalPath (asset job)) = inr data ->
  ExifEntity.livePhotoCID (videoStart env job data) = None ->
  located (FfprobeFormat.tags (FfprobeData.format data)) (videoStart env job data) e1 ->
  enrichment env (isGeocodeInitialized w) e1 e2 ->
  let w' := snd (extractVideoMetadata env job w) in
  exifs w' = <[id := scanStreams (FfprobeData.streams data) e2]> (exifs w)
  /\ assets w' = alter (merge_partial (videoPartial job data)) id (assets w).
Proof.
  intros id Hvisible Herr Hprobe Hcid Hlocated Hen w'. subst w'.
  destruct (hoare_returns (rowsAre (assets w) (exifs w) (isGeocodeInitialized w))
    (fun _ => rowsAre (alter (merge_partial (videoPartial job data)) id (assets w))
       (<[id := scanStreams (FfprobeData.streams data) e2]> (exifs w))
       (isGeocodeInitialized w))
    (extractVideoMetadata env job) w) as (v & w1 & Hrun & Ha & Hx & _);
    [|apply rowsAre_start|rewrite Hrun; split; assumption].
  unfold extractVideoMetadata. cbv zeta. rewrite Hvisible. cbn [negb].
  eapply hoare_try_catch with (R := fun _ => False); [|intros e w1 []].
  rewrite Hprobe.
  eapply hoare_bind; [apply rows_call_ok|].
  intros ?. apply hoare_assume. intros ->.
  eapply hoare_bind; [apply rows_exiftool_read|].
  intros ?. apply hoare_assume. intros ->. fold (videoStart env job data).
  eapply hoare_bind; [apply rows_pairWithPhotoAsset, Hcid|]. intros ?.
  eapply hoare_bind; [apply rows_locationStep, Hlocated|].
  intros ?. apply hoare_assume. intros ->.
  eapply hoare_bind; [apply rows_reverseGeocodeStep, Hen|].
  intros ?. apply hoare_assume. intros ->.
  assert (ExifEntity.assetId (scanStreams (FfprobeData.streams data) e2) = id) as Hid.
  { rewrite assetId_scanStreams, (assetId_enrichment _ _ _ _ Hen),
      (assetId_located _ _ _ Hlocated). reflexivity. }
  pose proof (rows_upsert env (assets w) (exifs w) (isGeocodeInitialized w)
                (scanStreams (FfprobeData.streams data) e2) (fun _ => False) (Herr _))
    as Hupsert.
  rewrite Hid in Hupsert.
  eapply hoare_bind; [exact Hupsert|].
  intros ?. apply (rows_save env _ _ _ (videoPartial job data)), Herr.
Qed.

Lemma extractVideoMetadata_stores_witness :
  exifs (snd (extractVideoMetadata plainVideoEnv videoJob Sample.world))
  = <["vid" := scanStreams (FfprobeData.streams plainVideo)
                 (placeOf plainVideoEnv cupertino
                    (ExifEntity.set_location (videoStart plainVideoEnv videoJob plainVideo)
                       (Some (Js.parseFloat "+37.3349"))
                       (Some (Js.parseFloat "-122.0090"))))]>
      (exifs Sample.world)
  /\ assets (snd (extractVideoMetadata plainVideoEnv videoJob Sample.world))
     = alter (merge_partial (videoPartial videoJob plainVideo)) "vid" (assets Sample.world).
Proof.
  apply (extractVideoMetadata_stores plainVideoEnv videoJob Sample.world plainVideo
           (ExifEntity.set_location (videoStart plainVideoEnv videoJob plainVideo)
              (Some (Js.parseFloat "+37.3349")) (Some (Js.parseFloat "-122.0090")))).
  - reflexivity.
  - intros ev. reflexivity.
  - reflexivity.
  - reflexivity.
  - intros w. vm_compute. reflexivity.
  - right. exists (Js.parseFloat "+37.3349"), (Js.parseFloat "-122.0090"), cupertino.
    repeat split; vm_compute; reflexivity.
Defined.

(** Without a content identifier, and with repositories that accept the
    writes, the video handler is all-or-nothing: whatever fails (the probe,
    a tag that is not a string, a point the geocoder has no place for), no
    row of either table is changed; otherwise the metadata row is stored
    and the asset row gets its duration and creation date. Unlike the
    still-image handler, it writes nothing before its last two steps. *)
Theorem extractVideoMetadata_all_or_nothing env job w :
  let id := AssetEntity.id (asset job) in
  noRepositoryError env ->
  Js.or_null Js.truthy_str (tag (readTags env (asset job)) Tags.ContentIdentifier) = None ->
  let w' := snd (extractVideoMetadata env job w) in
  (assets w' = assets w /\ exifs w' = exifs w)
  \/ exists data e,
       ffprobe env (AssetEntity.originalPath (asset job)) = inr data
       /\ exifs w' = <[id := e]> (exifs w)
       /\ assets w' = alter (merge_partial (videoPartial job data)) id (assets w).
Proof.
  intros id Herr Hcid w'. subst w'.
  pose (P0 := rowsAre (assets w) (exifs w) (isGeocodeInitialized w)).
  pose (Q0 := fun w' : World =>
    exists data e,
      ffprobe env (AssetEntity.originalPath (asset job)) = inr data
      /\ rowsAre (alter (merge_partial (videoPartial job data)) id (assets w))
           (<[id := e]> (exifs w)) (isGeocodeInitialized w) w').
  assert (hoare P0 (extractVideoMetadata env job) (fun _ w' => P0 w' \/ Q0 w')
            (fun _ => False)) as Hrun.
  { unfold extractVideoMetadata. cbv zeta.
    destruct (negb _); [apply hoare_ret; auto|].
    eapply hoare_try_catch with (R := P0); [|intros e w1 Hw1; left; exact Hw1].
    destruct (ffprobe env (AssetEntity.originalPath (asset job))) as [err|data] eqn:Hprobe.
    { eapply hoare_bind with (R := fun _ _ => False);
        [apply rows_call_fail | intros ? ? []]. }
    eapply hoare_bind; [apply rows_call_ok|].
    intros ?. apply hoare_assume. intros ->.
    eapply hoare_bind; [apply rows_exiftool_read|].
    intros ?. apply hoare_assume. intros ->. fold (videoStart env job data).
    eapply hoare_bind; [apply rows_pairWithPhotoAsset, Hcid|]. intros ?.
    eapply hoare_bind; [apply (frame_locationStep P0)|].
    intros e1. apply hoare_assume. intros Hlocated.
    eapply hoare_bind;
      [apply (frame_reverseGeocodeStep env P0); intros lat lon w1 _ Hw1; exact Hw1|].
    intros e2. apply hoare_assume. intros Hplaced.
    assert (ExifEntity.assetId (scanStreams (FfprobeData.streams data) e2) = id) as Hid.
    { rewrite assetId_scanStreams, (assetId_placed _ _ Hplaced),
        (assetId_located _ _ _ Hlocated). reflexivity. }
    pose proof (rows_upsert env (assets w) (exifs w) (isGeocodeInitialized w)
                  (scanStreams (FfprobeData.streams data) e2) P0 (Herr _)) as Hupsert.
    rewrite Hid in Hupsert.
    eapply hoare_bind; [exact Hupsert|]. intros ?.
    eapply hoare_weaken;
      [exact (rows_save env (assets w)
                (<[id := scanStreams (FfprobeData.streams data) e2]> (exifs w))
                (isGeocodeInitialized w) (videoPartial job data) P0 (Herr _))
      | intros w1 Hw1; exact Hw1 |].
    intros ? w1 Hw1. right. exists data, (scanStreams (FfprobeData.streams data) e2).
    split; [reflexivity | exact Hw1]. }
  destruct (hoare_returns _ _ _ w Hrun (rowsAre_start w))
    as (v & w1 & -> & [(Ha & Hx & _) | (data & e & Hprobe & Ha & Hx & _)]).
  - left. split; assumption.
  - right. exists data, e. repeat split; assumption.
Qed.

Lemma extractVideoMetadata_all_or_nothing_witness :
  let w' := snd (extractVideoMetadata Sample.env videoJob Sample.world) in
  (assets w' = assets Sample.world /\ exifs w' = exifs Sample.world)
  \/ exists data e,
       ffprobe Sample.env (AssetEntity.originalPath Sample.video) = inr data
       /\ exifs w' = <["vid" := e]> (exifs Sample.world)
       /\ assets w' = alter (merge_partial (videoPartial videoJob data)) "vid"
                        (assets Sample.world).
Proof.
  apply (extractVideoMetadata_all_or_nothing Sample.env videoJob Sample.world).
  - intros ev. reflexivity.
  - reflexivity.
Defined.

(** ** The length guards of the location step *)

(** A match of an expression has one entry for the whole match and one for
    each group, so the tests [match?.length === 3] and [=== 4] of the
    location step (lines 310 and 319) never reject a match: the position is
    written exactly when the text of the tag matches. *)
Theorem location_length_guard_is_redundant text :
  (forall groups, Regex.exec locationRegex text = Some groups ->
     coordinates 3 (Some groups)
     = Some (Js.parseFloat (nth 1 groups ""), Js.parseFloat (nth 2 groups "")))
  /\ (forall groups, Regex.exec locationRegexISO6709 text = Some groups ->
        coordinates 4 (Some groups)
        = Some (Js.parseFloat (nth 1 groups ""), Js.parseFloat (nth 2 groups ""))).
Proof.
  split; intros groups Hm; apply exec_groups in Hm; unfold coordinates;
    rewrite Hm; reflexivity.
Qed.

Lemma location_length_guard_is_redundant_witness :
  coordinates 3 (Some ("+37.3349-122.0090/" :: "+37.3349" :: "-122.0090" :: nil))
  = Some (Js.parseFloat "+37.3349", Js.parseFloat "-122.0090").
Proof.
  apply (proj1 (location_length_guard_is_redundant "+37.3349-122.0090/")
           ("+37.3349-122.0090/" :: "+37.3349" :: "-122.0090" :: nil)).
  vm_compute. reflexivity.
Defined.

(** ** The frame rate of a stream *)

Lemma split_length sep s :
  List.length (Js.split sep s) = S (occurrences sep s).
Proof.
  induction s as [|c r IH]; [reflexivity|]. cbn [Js.split occurrences].
  destruct (Ascii.eqb c sep); cbn [List.length]; [f_equal; exact IH|].
  destruct (Js.split sep r) as [|h t]; [discriminate IH | exact IH].
Qed.

(** The frame rate of a stream is computed exactly when its rate holds one
    [/]: a rate without one, or with several, leaves the frame rate of the
    record as it was. *)
Theorem streamFps_defined_iff_one_slash rate :
  is_Some (streamFps (Some rate)) <-> occurrences "/" rate = 1%nat.
Proof.
  unfold streamFps. rewrite split_length.
  destruct rate as [|c r]; cbn [Js.truthy_str].
  - split; [intros [v Hv]; discriminate Hv | discriminate].
  - destruct (occurrences "/" (String c r)) as [|[|n]]; cbn [Nat.eqb];
      split; try discriminate; try (intros [v Hv]; discriminate Hv); eauto.
Qed.

(** The division of the frame rate is not guarded: when the denominator
    reads as zero, as in the rate [0/0] a probe reports for a still picture
    attached to a file, the frame rate stored is [NaN] or an infinity, not
    null. *)
Theorem streamFps_zero_denominator a b sign :
  no_separator "/" a = true -> no_separator "/" b = true ->
  Js.parseInt b = S754_zero sign ->
  exists fps,
    streamFps (Some (a ++ "/" ++ b)) = Some fps
    /\ match fps with
       | S754_nan | S754_infinity _ => True
       | _ => False
       end.
Proof.
  intros Ha Hb Hzero. rewrite (streamFps_two_parts a b Ha Hb), Hzero.
  eexists. split; [reflexivity|].
  destruct (Js.parseInt a) as [s| | |s m e]; exact I.
Qed.

Lemma streamFps_zero_denominator_witness :
  exists fps,
    streamFps (Some ("0" ++ "/" ++ "0")) = Some fps
    /\ match fps with
       | S754_nan | S754_infinity _ => True
       | _ => False
       end.
Proof. apply (streamFps_zero_denominator "0" "0" false); reflexivity. Defined.

(** ** The stream scan *)

Lemma scanStream_sets newExif stream :
  exists width height orientation fps,
    scanStream newExif stream
    = ExifEntity.set_fps
        (ExifEntity.set_orientation
           (ExifEntity.set_exifImageHeight
              (ExifEntity.set_exifImageWidth newExif width) height) orientation) fps.
Proof.
  unfold scanStream. destruct (bool_decide _).
  - destruct (streamFps _) as [fps|].
    + eexists _, _, _, _. reflexivity.
    + exists (Js.or_null Js.truthy_num (FfprobeStream.width stream)),
        (Js.or_null Js.truthy_num (FfprobeStream.height stream)),
        (streamOrientation (FfprobeStream.rotation stream)), (ExifEntity.fps newExif).
      destruct newExif. reflexivity.
  - exists (ExifEntity.exifImageWidth newExif), (ExifEntity.exifImageHeight newExif),
      (ExifEntity.orientation newExif), (ExifEntity.fps newExif).
    destruct newExif. reflexivity.
Qed.

Lemma scanStreams_sets streams newExif :
  exists width height orientation fps,
    scanStreams streams newExif
    = ExifEntity.set_fps
        (ExifEntity.set_orientation
           (ExifEntity.set_exifImageHeight
              (ExifEntity.set_exifImageWidth newExif width) height) orientation) fps.
Proof.
  induction streams as [|stream streams IH] using rev_ind.
  - exists (ExifEntity.exifImageWidth newExif), (ExifEntity.exifImageHeight newExif),
      (ExifEntity.orientation newExif), (ExifEntity.fps newExif).
    destruct newExif. reflexivity.
  - rewrite scanStreams_snoc.
    destruct IH as (width & height & orientation & fps & ->).
    destruct (scanStream_sets
                (ExifEntity.set_fps
                   (ExifEntity.set_orientation
                      (ExifEntity.set_exifImageHeight
                         (ExifEntity.set_exifImageWidth newExif width) height)
                      orientation) fps) stream)
      as (width' & height' & orientation' & fps' & ->).
    exists width', height', orientation', fps'. reflexivity.
Qed.

(** The scan of the streams (lines 334-355) is the scan of the video
    streams alone: audio, subtitle and data streams, and streams without a
    codec type, change nothing, in any position. And the scan touches the
    width, the height, the orientation and the frame rate of the record
    only. *)
Theorem scanStreams_footprint streams newExif :
  scanStreams streams newExif
  = scanStreams (List.filter isVideoStream streams) newExif
  /\ exists width height orientation fps,
       scanStreams streams newExif
       = ExifEntity.set_fps
           (ExifEntity.set_orientation
              (ExifEntity.set_exifImageHeight
                 (ExifEntity.set_exifImageWidth newExif width) height) orientation) fps.
Proof.
  split; [|apply scanStreams_sets].
  revert newExif. induction streams as [|stream streams IH]; intros newExif;
    [reflexivity|].
  cbn [List.filter]. destruct (isVideoStream stream) eqn:Hv.
  - change (scanStreams (stream :: streams) newExif)
      with (scanStreams streams (scanStream newExif stream)).
    rewrite IH. reflexivity.
  - change (scanStreams (stream :: streams) newExif)
      with (scanStreams streams (scanStream newExif stream)).
    rewrite (scanStream_other _ _ Hv). apply IH.
Qed.

(** ** The record of a video *)

(** The video handler reads the tags of the file, but of them it stores
    the content identifier only: every record it upserts has an empty
    description, a null modification date and no make, model, exposure
    time, lens model, f-number, focal length or ISO (the handler never
    assigns them), whatever the tags hold; the file size is that of the
    probe, null when it is zero; and the original date is the resolved
    creation date as [Date] parses it. *)
Theorem video_record_fields env job w :
  exists evs,
    trace (snd (extractVideoMetadata env job w)) = (evs ++ trace w)%list
    /\ forall e, In (EvUpsert e) evs ->
       exists data,
         ffprobe env (AssetEntity.originalPath (asset job)) = inr data
         /\ ExifEntity.description e = Some ""
         /\ ExifEntity.make e = None /\ ExifEntity.model e = None
         /\ ExifEntity.exposureTime e = None /\ ExifEntity.lensModel e = None
         /\ ExifEntity.fNumber e = None /\ ExifEntity.focalLength e = None
         /\ ExifEntity.iso e = None /\ ExifEntity.modifyDate e = None
         /\ ExifEntity.livePhotoCID e
            = Js.or_null Js.truthy_str (tag (readTags env (asset job)) Tags.ContentIdentifier)
         /\ ExifEntity.fileSizeInByte e
            = Js.or_null Js.truthy_num (FfprobeFormat.size (FfprobeData.format data))
         /\ ExifEntity.dateTimeOriginal e
            = (let created := resolveVideoCreatedAt (asset job)
                                (FfprobeFormat.tags (FfprobeData.format data)) in
               if Js.truthy_str created then Some (Date_parse env created) else None).
Proof.
  destruct (extractVideoMetadata_upserted env job w) as (evs & Ht & Hups).
  exists evs. split; [exact Ht|]. intros e He.
  destruct (Hups e He) as (data & e1 & e2 & Hprobe & Hlocated & Hplaced & ->).
  exists data. split; [exact Hprobe|].
  destruct (scanStreams_sets (FfprobeData.streams data) e2)
    as (width & height & orientation & fps & ->).
  destruct (located_coordinates _ _ _ w Hlocated) as (r & _ & ->).
  destruct Hplaced as [-> | (country & state & city & ->)];
    destruct r as [[lat lon]|]; cbn; repeat split; reflexivity.
Qed.

(** ** Pairing is written in two steps *)

(** The two writes of the live-photo pairing are separate saves (lines
    189-190). When the first is accepted and the second rejected, the
    still image points at the video while the video is still visible, and
    the step throws. A later run of the handler on the reloaded image does
    not repair it: the guard on the paired-video id skips the pairing, so
    there is neither search nor write. *)
Theorem pairing_is_not_atomic env asset newExif w cid motionAsset err :
  let pointer := setPointer (AssetEntity.id asset) (AssetEntity.id motionAsset) in
  ExifEntity.livePhotoCID newExif = Some cid -> Js.truthy_str cid = true ->
  is_set Js.truthy_str (AssetEntity.livePhotoVideoId asset) = false ->
  Js.truthy_str (AssetEntity.id motionAsset) = true ->
  findLivePhotoMatch_rows w cid (AssetEntity.id asset) VIDEO = Some motionAsset ->
  repository_error env (EvFindLivePhotoMatch cid (AssetEntity.id asset) VIDEO) = None ->
  repository_error env (EvSave pointer) = None ->
  repository_error env (EvSave (setHidden (AssetEntity.id motionAsset))) = Some err ->
  let r := pairWithMotionAsset env asset newExif w in
  fst r = Throw err
  /\ assets (snd r) = alter (merge_partial pointer) (AssetEntity.id asset) (assets w)
  /\ forall w2, pairWithMotionAsset env (merge_partial pointer asset) newExif w2 = (Ok tt, w2).
Proof.
  intros pointer Hcid Htruthy Hguard Hvid Hfind Efind Esave1 Esave2. cbv zeta.
  subst pointer. unfold setPointer, setHidden in *.
  split; [|split].
  - unfold pairWithMotionAsset. rewrite Hcid, Htruthy, Hguard. cbn [negb andb].
    unfold assetRepository_findLivePhotoMatch, assetRepository_save, repository.
    unfold bind. rewrite !emit_world, Efind. cbn [assets exifs isGeocodeInitialized trace].
    use_match w Hfind.
    rewrite !emit_world, Esave1. cbn [assets exifs isGeocodeInitialized trace].
    rewrite !emit_world, Esave2. reflexivity.
  - unfold pairWithMotionAsset. rewrite Hcid, Htruthy, Hguard. cbn [negb andb].
    unfold assetRepository_findLivePhotoMatch, assetRepository_save, repository.
    unfold bind. rewrite !emit_world, Efind. cbn [assets exifs isGeocodeInitialized trace].
    use_match w Hfind.
    rewrite !emit_world, Esave1. cbn [assets exifs isGeocodeInitialized trace].
    rewrite !emit_world, Esave2. reflexivity.
  - intros w2. apply pairWithMotionAsset_guard. cbn.
    destruct (AssetEntity.id motionAsset); [discriminate Hvid | reflexivity].
Qed.

Lemma pairing_is_not_atomic_witness :
  fst (pairWithMotionAsset halfRejectingEnv Sample.image (Sample.cidRecord "img")
         Sample.world)
  = Throw "QueryFailedError: connection terminated"
  /\ assets (snd (pairWithMotionAsset halfRejectingEnv Sample.image (Sample.cidRecord "img")
                    Sample.world))
     = alter (merge_partial (setPointer "img" "vid")) "img" (assets Sample.world).
Proof.
  assert (findLivePhotoMatch_rows Sample.world "X" "img" VIDEO = Some Sample.video)
    as Hfind by (vm_compute; reflexivity).
  destruct (pairing_is_not_atomic halfRejectingEnv Sample.image (Sample.cidRecord "img")
              Sample.world "X" Sample.video "QueryFailedError: connection terminated"
              eq_refl eq_refl eq_refl eq_refl Hfind eq_refl eq_refl eq_refl)
    as (Hthrow & Hrows & _).
  split; [exact Hthrow | exact Hrows].
Defined.
